(** * SmartCSVProcessor: a shallow embedding of [csv_processor.py]

    The development follows the Python class [SmartCSVProcessor]: the
    string primitives it relies on ([str.lower], [str.strip], [in],
    [str.replace], [str.join], [float]), the part of pandas it calls
    (column access, [dropna], [sort_values], [to_datetime]) and then the
    methods of the class, one definition per method, under the names the
    source gives them.

    Modelling conventions.
    - A Python [str] is a [string] holding the UTF-8 bytes of the text.
      Case mapping, white space and digits follow Python on the ASCII
      range; bytes above 127 are left untouched.  All synonym lists of the
      class are ASCII, and UTF-8 is self-synchronising, so substring tests
      and the removal of the pound and euro signs agree with Python's on
      code points.
    - A cell of a DataFrame is a string, [NaN] or [None].  The labels
      of a frame are strings that stay distinct once lower-cased and
      stripped; the statements on whole tables say so ([clean_labels],
      [plain_frame]).
    - A Python float is a [spec_float] of binary64 ([prec = 53],
      [emax = 1024]).
    - [pd.to_datetime] is a parameter of the development: a function of the
      whole column, since pandas infers one format for the column.

    The development then covers [TransactionCategorizer] of
    [categorizer.py] and the token registry and the transaction fetch of
    [PlaidConnector] in [plaid_connector.py].  The language model and the
    Plaid client are parameters: functions from the request to the reply
    or to the exception raised.  The paging loop of [get_transactions]
    runs on fuel, and [None] stands for a call that is still running. *)

From Stdlib Require Import Bool Arith ZArith Lia List Ascii String.
From Stdlib Require Import Sorting.Sorted Sorting.Permutation.
From Stdlib Require Import Floats.SpecFloat.
Import ListNotations.

Local Open Scope string_scope.
Local Open Scope list_scope.

(** ** Python strings *)

Module PyStr.

Definition code (c : ascii) : nat := nat_of_ascii c.

(** [str.isspace] on the ASCII range: TAB, LF, VT, FF, CR, FS, GS, RS, US
    and the space. *)
Definition is_space (c : ascii) : bool :=
  let n := code c in
  (((9 <=? n) && (n <=? 13)) || ((28 <=? n) && (n <=? 32)))%nat.

Definition is_upper (c : ascii) : bool :=
  let n := code c in ((65 <=? n) && (n <=? 90))%nat.

Definition lower_char (c : ascii) : ascii :=
  if is_upper c then ascii_of_nat (code c + 32) else c.

(** [s.lower()] *)
Fixpoint lower (s : string) : string :=
  match s with
  | EmptyString => EmptyString
  | String c s' => String (lower_char c) (lower s')
  end.

(** [s.lstrip()] *)
Fixpoint lstrip (s : string) : string :=
  match s with
  | EmptyString => EmptyString
  | String c s' => if is_space c then lstrip s' else s
  end.

(** [s.rstrip()]: a white-space character is kept only when something
    that is kept follows it. *)
Fixpoint rstrip (s : string) : string :=
  match s with
  | EmptyString => EmptyString
  | String c s' =>
      match rstrip s' with
      | EmptyString => if is_space c then EmptyString else String c EmptyString
      | r => String c r
      end
  end.

(** [s.strip()] *)
Definition strip (s : string) : string := rstrip (lstrip s).

(** [s.startswith(p)] *)
Fixpoint startswith (p s : string) : bool :=
  match p, s with
  | EmptyString, _ => true
  | String _ _, EmptyString => false
  | String a p', String b s' => Ascii.eqb a b && startswith p' s'
  end.

(** [p in s] *)
Fixpoint contains (p s : string) : bool :=
  startswith p s ||
  match s with
  | EmptyString => false
  | String _ s' => contains p s'
  end.

(** [s.replace(old, '')] for a non-empty [old]: occurrences are removed
    from left to right without overlap.  [skip] counts the characters of
    the current occurrence still to be dropped. *)
Fixpoint remove_from (old : string) (skip : nat) (s : string) : string :=
  match s with
  | EmptyString => EmptyString
  | String c s' =>
      match skip with
      | S k => remove_from old k s'
      | O =>
          if startswith old s
          then remove_from old (String.length old - 1) s'
          else String c (remove_from old 0 s')
      end
  end.

Definition remove (old s : string) : string := remove_from old 0 s.

(** [sep.join(parts)] *)
Fixpoint join (sep : string) (parts : list string) : string :=
  match parts with
  | [] => EmptyString
  | [p] => p
  | p :: ps => p ++ sep ++ join sep ps
  end.

(** [x in xs] for a list of strings *)
Definition mem (x : string) (xs : list string) : bool :=
  existsb (String.eqb x) xs.

(** Truth value of a [str]: the empty string is false. *)
Definition truthy (s : string) : bool :=
  match s with EmptyString => false | _ => true end.

(** The pound sign U+00A3 and the euro sign U+20AC, in UTF-8. *)
Definition pound : string :=
  String (ascii_of_nat 194) (String (ascii_of_nat 163) EmptyString).
Definition euro : string :=
  String (ascii_of_nat 226)
    (String (ascii_of_nat 130) (String (ascii_of_nat 172) EmptyString)).

End PyStr.

(** ** Python floats *)

Module PyFloat.
Import PyStr.

Definition prec : Z := 53.
Definition emax : Z := 1024.

Definition zero : spec_float := S754_zero false.

(** [x == 0], [-x], [abs(x)] and [pd.notna(x)] on a float *)
Definition is_zero (x : spec_float) : bool := SFeqb x zero.
Definition neg (x : spec_float) : spec_float := SFopp x.
Definition abs (x : spec_float) : spec_float := SFabs x.
Definition notna (x : spec_float) : bool :=
  match x with S754_nan => false | _ => true end.

(** Strictly below and strictly above zero. *)
Definition is_negative (x : spec_float) : bool := SFltb x zero.
Definition is_positive (x : spec_float) : bool := SFltb zero x.

(** The binary64 value nearest to [(-1)^sign * m * 10^e], ties to even,
    as the correctly rounded [strtod] of CPython gives it.  Overflow
    gives an infinity and underflow a zero. *)
Definition of_decimal (sign : bool) (m e : Z) : spec_float :=
  match m with
  | Zpos p =>
      if (0 <=? e)%Z
      then match (m * 10 ^ e)%Z with
           | Zpos q => binary_round prec emax sign q 0
           | _ => S754_zero sign
           end
      else SFdiv prec emax (S754_finite sign p 0)
                 (S754_finite false (Z.to_pos (10 ^ (- e))) 0)
  | _ => S754_zero sign
  end.

(** [Py_ISSPACE]: the white space [float] skips around an ASCII string. *)
Definition c_space (c : ascii) : bool :=
  let n := code c in (((9 <=? n) && (n <=? 13)) || (n =? 32))%nat.

Definition is_digit (c : ascii) : bool :=
  let n := code c in ((48 <=? n) && (n <=? 57))%nat.

Definition digit_val (c : ascii) : Z := Z.of_nat (code c - 48).

Fixpoint skip_space (s : string) : string :=
  match s with
  | EmptyString => EmptyString
  | String c s' => if c_space c then skip_space s' else s
  end.

Fixpoint drop_trailing_space (s : string) : string :=
  match s with
  | EmptyString => EmptyString
  | String c s' =>
      match drop_trailing_space s' with
      | EmptyString => if c_space c then EmptyString else String c EmptyString
      | r => String c r
      end
  end.

(** Underscores may only stand between two digits; [prev] is the previous
    character, if any. *)
Fixpoint underscores_ok (prev : option ascii) (s : string) : bool :=
  match s with
  | EmptyString =>
      match prev with
      | Some p => negb (Ascii.eqb p "_")
      | None => true
      end
  | String c s' =>
      let prev_digit := match prev with Some p => is_digit p | None => false end in
      let prev_under := match prev with Some p => Ascii.eqb p "_" | None => false end in
      (if Ascii.eqb c "_" then prev_digit
       else negb (prev_under && negb (is_digit c)))
      && underscores_ok (Some c) s'
  end.

(** A maximal run of decimal digits: the number read so far, how many
    digits were read, and what follows. *)
Fixpoint read_digits (acc n : Z) (s : string) : Z * Z * string :=
  match s with
  | String c s' =>
      if is_digit c
      then read_digits (10 * acc + digit_val c) (n + 1) s'
      else (acc, n, s)
  | EmptyString => (acc, n, s)
  end.

Definition read_sign (s : string) : bool * string :=
  match s with
  | String c s' =>
      if Ascii.eqb c "-" then (true, s')
      else if Ascii.eqb c "+" then (false, s')
      else (false, s)
  | EmptyString => (false, s)
  end.

(** [_Py_parse_inf_or_nan]: an optional sign, then [inf], [infinity] or
    [nan] in any case.  Gives the value and the unread rest. *)
Definition parse_inf_or_nan (s : string) : option (spec_float * string) :=
  let '(sign, t) := read_sign s in
  if startswith "inf" (lower (substring 0 3 t)) then
    let t3 := substring 3 (String.length t - 3) t in
    if startswith "inity" (lower (substring 0 5 t3))
    then Some (S754_infinity sign, substring 5 (String.length t3 - 5) t3)
    else Some (S754_infinity sign, t3)
  else if startswith "nan" (lower (substring 0 3 t)) then
    Some (S754_nan, substring 3 (String.length t - 3) t)
  else None.

(** The exponent part [e[+-]ddd]; when it is malformed nothing is read. *)
Definition read_exponent (s : string) : Z * string :=
  match s with
  | String c t =>
      if Ascii.eqb c "e" || Ascii.eqb c "E" then
        let '(esign, t1) := read_sign t in
        let '(ev, ne, r) := read_digits 0 0 t1 in
        if (ne =? 0)%Z then (0%Z, s)
        else ((if esign then - ev else ev)%Z, r)
      else (0%Z, s)
  | EmptyString => (0%Z, s)
  end.

(** [_Py_dg_strtod]: sign, digits, optional point and digits, optional
    exponent; at least one digit is required.  Gives the value and the
    unread rest. *)
Definition strtod (s : string) : option (spec_float * string) :=
  let '(sign, s0) := read_sign s in
  let '(ip, ni, s1) := read_digits 0 0 s0 in
  let '(m, nf, s2) :=
    match s1 with
    | String c t => if Ascii.eqb c "." then read_digits ip 0 t else (ip, 0%Z, s1)
    | EmptyString => (ip, 0%Z, s1)
    end in
  if (ni + nf =? 0)%Z then None
  else
    let '(e, s3) := read_exponent s2 in
    Some (of_decimal sign m (e - nf), s3).

(** [float_from_string_inner]: white space is skipped on both sides and
    the whole of what is left must be a number. *)
Definition float_inner (s : string) : option spec_float :=
  match skip_space s with
  | EmptyString => None
  | s1 =>
      let s2 := drop_trailing_space s1 in
      match parse_inf_or_nan s2 with
      | Some (v, rest) =>
          match rest with EmptyString => Some v | _ => None end
      | None =>
          match strtod s2 with
          | Some (v, EmptyString) => Some v
          | _ => None
          end
      end
  end.

(** [float(s)] for an ASCII string; [None] stands for [ValueError].  On
    a [str] with other characters Python first turns the white space of
    Unicode into spaces and its decimal digits into ASCII digits. *)
Definition float (s : string) : option spec_float :=
  if contains "_" s
  then if underscores_ok None s then float_inner (remove "_" s) else None
  else float_inner s.

(** [x] is a finite binary64 number within half a unit in the last place
    of the rational [num / den] ([den > 0]). *)
Definition nearest_double (num den : Z) (x : spec_float) : bool :=
  match x with
  | S754_finite s m e =>
      bounded prec emax m e
      && Bool.eqb s (num <? 0)%Z
      && (if (0 <=? e)%Z
          then (2 * Z.abs (den * (Zpos m * 2 ^ e) - Z.abs num) <=? den * 2 ^ e)%Z
          else (2 * Z.abs (den * Zpos m - Z.abs num * 2 ^ (- e)) <=? den)%Z)
  | _ => false
  end.

End PyFloat.

(** ** The part of pandas the processor uses *)

Module Pandas.
Import PyStr PyFloat.

(** A cell: a string, the float [NaN] of a missing value, or [None]. *)
Inductive Cell : Type :=
| CStr (s : string)
| CNaN
| CNone.

(** [pd.isna(value)] *)
Definition isna (c : Cell) : bool :=
  match c with CStr _ => false | CNaN | CNone => true end.

(** [str(value)] *)
Definition str (c : Cell) : string :=
  match c with CStr s => s | CNaN => "nan" | CNone => "None" end.

(** A DataFrame: the column labels in order and the rows, each row
    holding its cells in column order.  A row that is too short has
    missing values in the remaining columns.  The labels are meant to be
    distinct, also once lower-cased and stripped: under a repeated label
    pandas hands back a sub-frame where the processor expects a cell. *)
Record DataFrame : Type := { columns : list string; rows : list (list Cell) }.

(** [df.columns = new_labels] *)
Definition set_columns (labels : list string) (df : DataFrame) : DataFrame :=
  {| columns := labels; rows := rows df |}.

(** [row[col]]: the cell of [row] under the label [col], for a label
    that occurs once among [cols].  Under a repeated label pandas gives
    a Series, not a cell; the definition then takes the first cell, and
    the statements on whole tables leave such frames out. *)
Fixpoint row_get (cols : list string) (row : list Cell) (col : string) : Cell :=
  match cols with
  | [] => CNaN
  | c :: cs =>
      if String.eqb c col
      then match row with v :: _ => v | [] => CNaN end
      else row_get cs (List.tl row) col
  end.

(** [df[col]], for a label that occurs once; under a repeated label
    pandas gives a sub-frame. *)
Definition column (df : DataFrame) (col : string) : list Cell :=
  map (fun row => row_get (columns df) row col) (rows df).

(** [series.dropna().head(n)] *)
Definition dropna_head (n : nat) (series : list Cell) : list Cell :=
  firstn n (filter (fun c => negb (isna c)) series).

(** [series.dtype == 'object'], strings being stored as objects: a column
    of missing floats only is [float64]; a column holding a string or
    [None], or no row at all, is [object]. *)
Definition dtype_object (series : list Cell) : bool :=
  match series with
  | [] => true
  | _ => existsb (fun c => match c with CNaN => false | _ => true end) series
  end.

(** A [datetime64[ns]] value: nanoseconds since the epoch.  [None] is
    [NaT]. *)
Definition Timestamp : Type := Z.

(** A row of [result_df]. *)
Record ResultRow : Type :=
  { date : option Timestamp; description : string; amount : spec_float }.

(** [result_df.dropna(subset=['date', 'amount'])] *)
Definition keeps (r : ResultRow) : bool :=
  match date r with Some _ => notna (amount r) | None => false end.

Definition dropna (rs : list ResultRow) : list ResultRow := filter keeps rs.

(** [a] does not come after [b] when sorting by date, most recent first;
    [NaT] goes last. *)
Definition date_geb (a b : option Timestamp) : bool :=
  match a, b with
  | Some x, Some y => (y <=? x)%Z
  | _, None => true
  | None, Some _ => false
  end.

(** [sort_values('date', ascending=False)].  The order pandas leaves
    between rows of equal date depends on the sorting kind; the model
    keeps their original order. *)
Fixpoint insert_desc (r : ResultRow) (rs : list ResultRow) : list ResultRow :=
  match rs with
  | [] => [r]
  | y :: ys =>
      if date_geb (date r) (date y) then r :: rs else y :: insert_desc r ys
  end.

Fixpoint sort_values (rs : list ResultRow) : list ResultRow :=
  match rs with
  | [] => []
  | r :: rest => insert_desc r (sort_values rest)
  end.

End Pandas.

(** ** Python exceptions *)

Inductive Exception : Type :=
| ValueError (msg : string)
| IndexError (msg : string).

Inductive Outcome (A : Type) : Type :=
| Returns (a : A)
| Raises (e : Exception).

Arguments Returns {A} a.
Arguments Raises {A} e.

(** ** The class [SmartCSVProcessor] *)

Module SmartCSVProcessor.
Import PyStr PyFloat Pandas.

(** The three pattern lists set in [__init__]. *)
Definition date_patterns : list string :=
  ["date"; "transaction date"; "post date"; "posting date";
   "trans date"; "transaction_date"; "posted date"; "value date"].

Definition amount_patterns : list string :=
  ["amount"; "transaction amount"; "debit"; "credit";
   "value"; "transaction_amount"; "sum"; "total"].

Definition description_patterns : list string :=
  ["description"; "memo"; "details"; "transaction details";
   "merchant"; "name"; "payee"; "reference"; "transaction_description";
   "narrative"; "transaction type"; "category"].

(** The patterns written out in the loop of [_find_amount_column]. *)
Definition debit_side : list string := ["debit"; "withdrawal"; "outgoing"].
Definition credit_side : list string := ["credit"; "deposit"; "incoming"].

(** [name.lower().strip()] *)
Definition normalize (name : string) : string := strip (lower name).

(** The inner loop of [_find_column]: some pattern, lower-cased, occurs
    in the lower-cased, stripped column name. *)
Definition matches (patterns : list string) (col : string) : bool :=
  existsb (fun pattern => contains (lower pattern) (normalize col)) patterns.

(** [_find_column(df, patterns)], on the labels of [df]. *)
Fixpoint _find_column (cols : list string) (patterns : list string)
  : option string :=
  match cols with
  | [] => None
  | col :: rest =>
      if matches patterns col then Some col else _find_column rest patterns
  end.

(** What [_find_amount_column] returns besides [None]: one label, or the
    tuple [(debit_col, credit_col)]. *)
Inductive AmountColumn : Type :=
| Single (col : string)
| Pair (debit_col credit_col : string).

(** The body of the [for] loop over the columns, lines 104 to 109. *)
Definition pair_step (st : option string * option string) (col : string)
  : option string * option string :=
  let col_lower := normalize col in
  if contains "debit" col_lower || contains "withdrawal" col_lower
     || contains "outgoing" col_lower
  then (Some col, snd st)
  else if contains "credit" col_lower || contains "deposit" col_lower
          || contains "incoming" col_lower
  then (fst st, Some col)
  else st.

(** Truth value of a variable holding a label or [None]. *)
Definition truthy_opt (o : option string) : bool :=
  match o with Some s => truthy s | None => false end.

(** Truth value of what [_find_amount_column] returns: a tuple of two
    labels is true. *)
Definition truthy_amount (a : AmountColumn) : bool :=
  match a with Single s => truthy s | Pair _ _ => true end.

(** [_find_amount_column(df)] *)
Definition _find_amount_column (cols : list string) : option AmountColumn :=
  let amount_col := _find_column cols amount_patterns in
  if truthy_opt amount_col then option_map Single amount_col
  else
    let '(debit_col, credit_col) := fold_left pair_step cols (None, None) in
    match debit_col, credit_col with
    | Some d, Some c =>
        if truthy d && truthy c then Some (Pair d c)
        else option_map Single amount_col
    | _, _ => option_map Single amount_col
    end.

(** The regular expression [^\d+[\.\,]?\d*$] under [re.match]: digits, at
    most one point or comma, digits, and then the end of the string or a
    last line feed.  The digits are the ASCII digits; on a [str] Python
    also takes the other decimal digits of Unicode for [\d]. *)
Fixpoint skip_digits (s : string) : string :=
  match s with
  | String c s' => if is_digit c then skip_digits s' else s
  | EmptyString => s
  end.

Definition at_end (s : string) : bool :=
  match s with
  | EmptyString => true
  | String c EmptyString => Ascii.eqb c (ascii_of_nat 10)
  | _ => false
  end.

Definition looks_numeric (s : string) : bool :=
  match s with
  | String c _ =>
      is_digit c &&
      match skip_digits s with
      | String d t =>
          if Ascii.eqb d "." || Ascii.eqb d ","
          then at_end (skip_digits t)
          else at_end (String d t)
      | EmptyString => true
      end
  | EmptyString => false
  end.

(** The body of the first pair of loops of [_find_description_columns],
    lines 122 to 126. *)
Definition explicit_step (pattern : string) (desc_cols : list string)
  (col : string) : list string :=
  if contains (lower pattern) (normalize col) && negb (mem col desc_cols)
  then desc_cols ++ [col]
  else desc_cols.

Definition explicit_columns (cols : list string) : list string :=
  fold_left (fun desc_cols pattern => fold_left (explicit_step pattern) cols desc_cols)
    description_patterns [].

(** The body of the second loop, lines 133 to 141. *)
Definition text_step (df : DataFrame) (desc_cols : list string) (col : string)
  : list string :=
  if negb (mem col desc_cols) then
    let sample := dropna_head 5 (column df col) in
    match sample with
    | first :: _ =>
        if dtype_object (column df col) && negb (looks_numeric (str first))
        then desc_cols ++ [col]
        else desc_cols
    | [] => desc_cols
    end
  else desc_cols.

Definition text_columns (df : DataFrame) : list string :=
  fold_left (text_step df) (columns df) [].

(** [_find_description_columns(df)]; [df.columns[0]] raises [IndexError]
    on a frame without columns. *)
Definition _find_description_columns (df : DataFrame) : Outcome (list string) :=
  match explicit_columns (columns df) with
  | (_ :: _) as desc_cols => Returns desc_cols
  | [] =>
      match text_columns df with
      | (_ :: _) as desc_cols => Returns desc_cols
      | [] =>
          match columns df with
          | first :: _ => Returns [first]
          | [] => Raises (IndexError "index 0 is out of bounds for axis 0 with size 0")
          end
      end
  end.

(** One row of [_combine_descriptions]. *)
Definition usable (val : string) : bool :=
  truthy val && negb (mem (lower val) ["nan"; "none"; ""]).

Definition row_parts (cols : list string) (description_cols : list string)
  (row : list Cell) : list string :=
  filter usable (map (fun col => strip (str (row_get cols row col))) description_cols).

Definition combined_desc (parts : list string) : string :=
  match parts with
  | [] => "Unknown Transaction"
  | _ => join " | " parts
  end.

(** [_combine_descriptions(df, description_cols)] *)
Definition _combine_descriptions (df : DataFrame) (description_cols : list string)
  : list string :=
  map (fun row => combined_desc (row_parts (columns df) description_cols row))
    (rows df).

(** The string [_clean_amount] hands to [float]. *)
Definition strip_currency (s : string) : string :=
  remove euro (remove pound (remove "$" s)).

Definition strip_separators (s : string) : string :=
  remove " " (remove "," s).

Definition negate_parentheses (s : string) : string :=
  if contains "(" s && contains ")" s
  then "-" ++ remove ")" (remove "(" s)
  else s.

Definition cleaned (s : string) : string :=
  negate_parentheses (strip_separators (strip_currency (strip s))).

(** [_clean_amount(value)]; the integer [0] it returns is the float zero
    of the resulting column. *)
Definition _clean_amount (value : Cell) : spec_float :=
  if isna value then zero
  else
    match float (cleaned (str value)) with
    | Some x => x
    | None => zero
    end.

(** One row of the debit and credit branch of [_process_amount]. *)
Definition reconcile (debit credit : spec_float) : spec_float :=
  if notna debit && negb (is_zero debit) then neg (abs debit)
  else if notna credit && negb (is_zero credit) then abs credit
  else zero.

(** [_process_amount(df, amount_col)] *)
Definition _process_amount (df : DataFrame) (amount_col : AmountColumn)
  : list spec_float :=
  match amount_col with
  | Pair debit_col credit_col =>
      map (fun row =>
             reconcile (_clean_amount (row_get (columns df) row debit_col))
                       (_clean_amount (row_get (columns df) row credit_col)))
          (rows df)
  | Single col => map _clean_amount (column df col)
  end.

Definition no_date_message : string :=
  "Could not find date column. Please ensure CSV has a date column.".
Definition no_amount_message : string :=
  "Could not find amount column. Please ensure CSV has an amount column.".
Definition no_description_message : string :=
  "Could not find description columns. Please ensure CSV has description/merchant info.".

(** What [preview_mapping] returns: a dict with five keys. *)
Record Mapping : Type :=
  { date_column : option string;
    amount_column : option AmountColumn;
    description_columns : list string;
    all_columns : list string;
    sample_row : list (string * Cell) }.

(** [row.to_dict()]: the cells of [row] under their labels. *)
Fixpoint to_dict (cols : list string) (row : list Cell) : list (string * Cell) :=
  match cols with
  | [] => []
  | c :: cs =>
      (c, match row with v :: _ => v | [] => CNaN end) :: to_dict cs (List.tl row)
  end.

(** [preview_mapping(df)] for a DataFrame argument whose labels are
    strings; see [process_csv] for a frame built without columns. *)
Definition preview_mapping (file_path_or_df : DataFrame) : Outcome Mapping :=
  let df := set_columns (map normalize (columns file_path_or_df)) file_path_or_df in
  let date_col := _find_column (columns df) date_patterns in
  let amount_col := _find_amount_column (columns df) in
  match _find_description_columns df with
  | Raises e => Raises e
  | Returns description_cols =>
      Returns
        {| date_column := date_col;
           amount_column := amount_col;
           description_columns := description_cols;
           all_columns := columns df;
           sample_row :=
             match rows df with
             | row :: _ => to_dict (columns df) row
             | [] => []
             end |}
  end.

Section Processing.

(** [pd.to_datetime(series, errors='coerce')]: one result per cell of
    the column, [None] where the cell does not parse. *)
Variable to_datetime : list Cell -> list (option Timestamp).

(** [result_df] as lines 65 to 74 build it, row by row. *)
Fixpoint assemble (n : nat) (dates : list (option Timestamp))
  (descriptions : list string) (amounts : list spec_float) : list ResultRow :=
  match n with
  | O => []
  | S k =>
      {| date := hd None dates;
         description := hd "" descriptions;
         amount := hd zero amounts |}
      :: assemble k (tl dates) (tl descriptions) (tl amounts)
  end.

Definition result_df (df : DataFrame) (date_col : string)
  (amount_col : AmountColumn) (description_cols : list string)
  : list ResultRow :=
  assemble (List.length (rows df))
    (to_datetime (column df date_col))
    (_combine_descriptions df description_cols)
    (_process_amount df amount_col).

(** [process_csv(df)] for a DataFrame argument whose labels are strings.
    A frame built without columns, as [pd.DataFrame()], has a range
    index whose [.str] accessor raises [AttributeError] at line 48; the
    statements below speak of frames with at least one column. *)
Definition process_csv (file_path_or_df : DataFrame) : Outcome (list ResultRow) :=
  let df := set_columns (map normalize (columns file_path_or_df)) file_path_or_df in
  let date_col := _find_column (columns df) date_patterns in
  let amount_col := _find_amount_column (columns df) in
  match _find_description_columns df with
  | Raises e => Raises e
  | Returns description_cols =>
      match date_col with
      | None => Raises (ValueError no_date_message)
      | Some d =>
          if negb (truthy d) then Raises (ValueError no_date_message)
          else
            match amount_col with
            | None => Raises (ValueError no_amount_message)
            | Some a =>
                if negb (truthy_amount a)
                then Raises (ValueError no_amount_message)
                else
                  match description_cols with
                  | [] => Raises (ValueError no_description_message)
                  | _ =>
                      Returns
                        (sort_values
                           (dropna (result_df df d a description_cols)))
                  end
            end
      end
  end.

End Processing.

End SmartCSVProcessor.

(** ** A date parser for the examples

    [to_datetime] stays a parameter in every statement.  The examples run
    the processor with the parser below, which reads the ISO form
    [YYYY-MM-DD] and nothing else. *)

Module IsoDates.
Import PyStr PyFloat Pandas.

(** Days between 1970-01-01 and the given civil date. *)
Definition days_from_civil (y m d : Z) : Z :=
  let y' := if (m <=? 2)%Z then (y - 1)%Z else y in
  let era := (y' / 400)%Z in
  let yoe := (y' - era * 400)%Z in
  let mp := ((m + 9) mod 12)%Z in
  let doy := ((153 * mp + 2) / 5 + d - 1)%Z in
  let doe := (yoe * 365 + yoe / 4 - yoe / 100 + doy)%Z in
  (era * 146097 + doe - 719468)%Z.

(** Midnight of the given day, in nanoseconds. *)
Definition midnight (y m d : Z) : Timestamp :=
  (days_from_civil y m d * 86400000000000)%Z.

Definition is_leap (y : Z) : bool :=
  ((y mod 4 =? 0) && (negb (y mod 100 =? 0) || (y mod 400 =? 0)))%Z.

Definition days_in_month (y m : Z) : Z :=
  if (m =? 2)%Z then (if is_leap y then 29 else 28)%Z
  else if ((m =? 4) || (m =? 6) || (m =? 9) || (m =? 11))%Z then 30%Z
  else 31%Z.

Definition parse_iso (s : string) : option Timestamp :=
  let '(y, ny, s1) := read_digits 0 0 s in
  match s1 with
  | String c1 t1 =>
      let '(m, nm, s2) := read_digits 0 0 t1 in
      match s2 with
      | String c2 t2 =>
          let '(d, nd, s3) := read_digits 0 0 t2 in
          if Ascii.eqb c1 "-" && Ascii.eqb c2 "-"
             && (ny =? 4)%Z && (nm =? 2)%Z && (nd =? 2)%Z
             && (1 <=? m)%Z && (m <=? 12)%Z
             && (1 <=? d)%Z && (d <=? days_in_month y m)%Z
             && String.eqb s3 EmptyString
          then Some (midnight y m d)
          else None
      | EmptyString => None
      end
  | EmptyString => None
  end.

Definition to_datetime (series : list Cell) : list (option Timestamp) :=
  map (fun c => match c with CStr s => parse_iso s | _ => None end) series.

End IsoDates.

(** ** Exceptions and dicts of the other modules *)

(** What the categorizer and the Plaid connector can raise or catch,
    besides the exceptions above. *)
Inductive Failure : Type :=
| Builtin (e : Exception)
| KeyError (key : string)
| TypeError (msg : string)
| ApiException (msg : string)
| PlainException (msg : string).

Inductive Try (A : Type) : Type :=
| Done (a : A)
| Fails (e : Failure).

Arguments Done {A} a.
Arguments Fails {A} e.

(** A Python dict with string keys: the items in insertion order, no key
    twice. *)
Module PyDict.

Definition dict (V : Type) : Type := list (string * V).

(** [d.get(k)], [None] when the key is missing *)
Fixpoint get {V : Type} (d : dict V) (k : string) : option V :=
  match d with
  | [] => None
  | (k', v) :: rest => if String.eqb k' k then Some v else get rest k
  end.

(** [d[k] = v]: an existing key keeps its place, a new key goes last. *)
Fixpoint set {V : Type} (d : dict V) (k : string) (v : V) : dict V :=
  match d with
  | [] => [(k, v)]
  | (k', v') :: rest =>
      if String.eqb k' k then (k', v) :: rest else (k', v') :: set rest k v
  end.

(** [del d[k]] *)
Fixpoint del {V : Type} (d : dict V) (k : string) : dict V :=
  match d with
  | [] => []
  | (k', v') :: rest =>
      if String.eqb k' k then rest else (k', v') :: del rest k
  end.

(** [k in d] *)
Definition has {V : Type} (d : dict V) (k : string) : bool :=
  match get d k with Some _ => true | None => false end.

(** [list(d.keys())] *)
Definition keys {V : Type} (d : dict V) : list string := map fst d.

End PyDict.

(** ** The class [TransactionCategorizer] of [categorizer.py] *)

Module TransactionCategorizer.
Import PyStr PyFloat.

Definition CATEGORIES : list string :=
  ["Groceries"; "Restaurants & Dining"; "Transportation"; "Utilities";
   "Rent/Mortgage"; "Entertainment"; "Shopping"; "Healthcare"; "Insurance";
   "Subscriptions"; "Travel"; "Income"; "Transfers"; "Other"].

(** A value of a transaction dict: text or a number. *)
Inductive PyValue : Type :=
| VStr (s : string)
| VNum (x : spec_float).

Definition line_feed : string := String (ascii_of_nat 10) EmptyString.

(** ["\n".join(f"- {cat}" for cat in self.CATEGORIES)] *)
Definition categories_text : string :=
  join line_feed (map (fun cat => ("- " ++ cat)%string) CATEGORIES).

(** The loop at lines 140 to 142: the first category that contains the
    reply or is contained in it, case put aside. *)
Fixpoint closest (category : string) (cats : list string) : option string :=
  match cats with
  | [] => None
  | cat :: rest =>
      if contains (lower cat) (lower category)
         || contains (lower category) (lower cat)
      then Some cat
      else closest category rest
  end.

(** [categorize_transaction(description, amount)].  [run] is
    [categorization_chain.run] for this call: the text the model replies,
    or the exception the call raises.  [abs] of a text raises [TypeError]
    before the chain is called; every exception is caught. *)
Definition categorize_transaction
  (run : PyValue -> spec_float -> string -> Try string)
  (description amount : PyValue) : string :=
  match amount with
  | VStr _ => "Other"
  | VNum x =>
      match run description (abs x) categories_text with
      | Fails _ => "Other"
      | Done result =>
          let category := strip result in
          if mem category CATEGORIES then category
          else match closest category CATEGORIES with
               | Some cat => cat
               | None => "Other"
               end
      end
  end.

(** [categorize_batch(transactions)] from the transaction of index [i] on.
    [run i] is the chain at the call made for transaction [i].  A missing
    key raises [KeyError] out of the loop. *)
Fixpoint categorize_from
  (run : nat -> PyValue -> spec_float -> string -> Try string)
  (i : nat) (transactions : list (PyDict.dict PyValue))
  : Try (list (PyDict.dict PyValue)) :=
  match transactions with
  | [] => Done []
  | transaction :: rest =>
      match PyDict.get transaction "description" with
      | None => Fails (KeyError "description")
      | Some description =>
          match PyDict.get transaction "amount" with
          | None => Fails (KeyError "amount")
          | Some amount =>
              let category := categorize_transaction (run i) description amount in
              match categorize_from run (S i) rest with
              | Fails e => Fails e
              | Done categorized =>
                  Done (PyDict.set transaction "category" (VStr category)
                          :: categorized)
              end
          end
      end
  end.

Definition categorize_batch
  (run : nat -> PyValue -> spec_float -> string -> Try string)
  (transactions : list (PyDict.dict PyValue))
  : Try (list (PyDict.dict PyValue)) :=
  categorize_from run 0 transactions.

End TransactionCategorizer.

(** ** The class [PlaidConnector] of [plaid_connector.py] *)

Module PlaidConnector.
Import PyStr PyFloat.

(** What the Plaid client answers: a response or [plaid.ApiException]. *)
Inductive ApiResult (A : Type) : Type :=
| ApiOk (a : A)
| ApiError (msg : string).

Arguments ApiOk {A} a.
Arguments ApiError {A} msg.

(** An entry of [self.access_tokens]. *)
Record Token : Type := { access_token : string; item_id : string }.

Definition Tokens : Type := PyDict.dict Token.

(** The dict [exchange_public_token] returns. *)
Inductive ExchangeReply : Type :=
| Exchanged (item_id institution_name : string)
| NotExchanged (error : string).

(** [exchange_public_token(public_token, institution_name)]: the reply and
    [self.access_tokens] afterwards.  [item_public_token_exchange] is the
    call of the Plaid client, giving the access token and the item id. *)
Definition exchange_public_token
  (item_public_token_exchange : string -> ApiResult (string * string))
  (access_tokens : Tokens) (public_token institution_name : string)
  : ExchangeReply * Tokens :=
  match item_public_token_exchange public_token with
  | ApiOk (token, item) =>
      (Exchanged item institution_name,
       PyDict.set access_tokens institution_name
         {| access_token := token; item_id := item |})
  | ApiError e => (NotExchanged e, access_tokens)
  end.

(** [list_connected_accounts()] *)
Definition list_connected_accounts (access_tokens : Tokens) : list string :=
  PyDict.keys access_tokens.

(** [remove_account(institution_name)]: the result and
    [self.access_tokens] afterwards. *)
Definition remove_account (access_tokens : Tokens) (institution_name : string)
  : bool * Tokens :=
  if PyDict.has access_tokens institution_name
  then (true, PyDict.del access_tokens institution_name)
  else (false, access_tokens).

(** A date, as the number of its day. *)
Definition Date : Type := Z.

(** An optional field of a Plaid transaction: not set, set to [None], or
    set to a value. *)
Inductive Field (A : Type) : Type :=
| Unset
| Null
| Present (a : A).

Arguments Unset {A}.
Arguments Null {A}.
Arguments Present {A} a.

(** A transaction of the Plaid response, with the fields the connector
    reads. *)
Record Txn : Type :=
  { txn_date : Date;
    txn_name : string;
    txn_amount : spec_float;
    txn_category : Field (list string);
    txn_pending : bool;
    txn_transaction_id : string;
    txn_merchant_name : Field string }.

Record Response : Type :=
  { transactions : list Txn; total_transactions : nat }.

(** A [TransactionsGetRequest]. *)
Record Request : Type :=
  { req_access_token : string;
    req_start_date : Date;
    req_end_date : Date;
    req_offset : option nat }.

(** A row of the frame [get_transactions] returns; [None] is a Python
    [None] in the cell. *)
Record Row : Type :=
  { date : Date;
    description : string;
    amount : spec_float;
    category : string;
    transaction_id : string;
    merchant_name : option string }.

(** The dict appended to [df_data] for one transaction, with its
    [pending] entry; [', '.join(None)] raises [TypeError]. *)
Definition to_row (txn : Txn) : Try (Row * bool) :=
  match txn_category txn with
  | Null => Fails (TypeError "can only join an iterable")
  | cat =>
      Done ({| date := txn_date txn;
               description := txn_name txn;
               amount := neg (txn_amount txn);
               category :=
                 join ", " match cat with Present l => l | _ => ["Other"] end;
               transaction_id := txn_transaction_id txn;
               merchant_name :=
                 match txn_merchant_name txn with
                 | Unset => Some EmptyString
                 | Null => None
                 | Present m => Some m
                 end |},
            txn_pending txn)
  end.

(** The loop at lines 186 to 196. *)
Fixpoint df_data (txns : list Txn) : Try (list (Row * bool)) :=
  match txns with
  | [] => Done []
  | txn :: rest =>
      match to_row txn with
      | Fails e => Fails e
      | Done r =>
          match df_data rest with
          | Fails e => Fails e
          | Done rs => Done (r :: rs)
          end
      end
  end.

(** Lines 198 to 204: a frame built from no dict has no [pending] column,
    and [df['pending']] raises [KeyError]; otherwise the rows that are not
    pending stay, without the [pending] column. *)
Definition to_frame (data : list (Row * bool)) : Try (list Row) :=
  match data with
  | [] => Fails (KeyError "pending")
  | _ => Done (map fst (filter (fun r => negb (snd r)) data))
  end.

Section Fetch.

(** [self.client.transactions_get]: the answer to the request number [k]
    of one call of [get_transactions]. *)
Variable transactions_get : nat -> Request -> ApiResult Response.

(** The [while] loop at lines 173 to 183, run for at most [fuel] rounds;
    [None] when it is still running then.  [k] numbers the next request,
    [total] is [total_transactions] of the last response. *)
Fixpoint fetch_more (fuel : nat) (k : nat) (token : string) (start_date end_date : Date)
  (fetched : list Txn) (total : nat) : option (ApiResult (list Txn)) :=
  if (List.length fetched <? total)%nat then
    match fuel with
    | O => None
    | S fuel' =>
        match transactions_get k
                {| req_access_token := token;
                   req_start_date := start_date;
                   req_end_date := end_date;
                   req_offset := Some (List.length fetched) |} with
        | ApiError e => Some (ApiError e)
        | ApiOk response =>
            fetch_more fuel' (S k) token start_date end_date
              (fetched ++ transactions response) (total_transactions response)
        end
    end
  else Some (ApiOk fetched).

(** [get_transactions(institution_name, start_date, end_date, days_back)];
    [today] is [datetime.now().date()].  [None] when the loop is still
    running after [fuel] rounds. *)
Definition get_transactions (fuel : nat) (today : Date) (access_tokens : Tokens)
  (institution_name : string) (start_date end_date : option Date) (days_back : Z)
  : option (Try (list Row)) :=
  match PyDict.get access_tokens institution_name with
  | None =>
      Some (Fails (Builtin (ValueError
        ("No access token found for " ++ institution_name
         ++ ". Connect the account first."))))
  | Some entry =>
      let token := access_token entry in
      let end_date := match end_date with Some d => d | None => today end in
      let start_date :=
        match start_date with Some d => d | None => (end_date - days_back)%Z end in
      match transactions_get 0
              {| req_access_token := token;
                 req_start_date := start_date;
                 req_end_date := end_date;
                 req_offset := None |} with
      | ApiError e =>
          Some (Fails (PlainException ("Error fetching transactions: " ++ e)))
      | ApiOk response =>
          match fetch_more fuel 1 token start_date end_date
                  (transactions response) (total_transactions response) with
          | None => None
          | Some (ApiError e) =>
              Some (Fails (PlainException ("Error fetching transactions: " ++ e)))
          | Some (ApiOk txns) =>
              Some match df_data txns with
                   | Fails e => Fails e
                   | Done data => to_frame data
                   end
          end
      end
  end.

End Fetch.

(** A row of the combined frame: a row of one account with the
    [account] column. *)
Record AccountRow : Type := { fetched : Row; account : string }.

(** [df['account'] = institution_name] *)
Definition with_account (institution_name : string) (df : list Row) : list AccountRow :=
  map (fun r => {| fetched := r; account := institution_name |}) df.

(** The loop at lines 228 to 239 over the accounts [names]: the frames
    appended to [all_transactions].  [service name] is the Plaid client
    during the call made for the account [name]; whatever that call
    raises is caught and the account is skipped. *)
Fixpoint fetch_accounts (service : string -> nat -> Request -> ApiResult Response)
  (fuel : nat) (today : Date) (access_tokens : Tokens) (names : list string)
  (start_date end_date : option Date) (days_back : Z)
  : option (list (list AccountRow)) :=
  match names with
  | [] => Some []
  | institution_name :: rest =>
      match get_transactions (service institution_name) fuel today access_tokens
              institution_name start_date end_date days_back with
      | None => None
      | Some (Fails _) =>
          fetch_accounts service fuel today access_tokens rest
            start_date end_date days_back
      | Some (Done df) =>
          match fetch_accounts service fuel today access_tokens rest
                  start_date end_date days_back with
          | None => None
          | Some dfs => Some (with_account institution_name df :: dfs)
          end
      end
  end.

(** [sort_values('date', ascending=False)] on the combined frame.  The
    order pandas leaves between rows of equal date depends on the
    sorting kind; the model keeps their original order. *)
Fixpoint insert_desc (r : AccountRow) (rs : list AccountRow) : list AccountRow :=
  match rs with
  | [] => [r]
  | y :: ys =>
      if (date (fetched y) <=? date (fetched r))%Z
      then r :: rs
      else y :: insert_desc r ys
  end.

Fixpoint sort_values (rs : list AccountRow) : list AccountRow :=
  match rs with
  | [] => []
  | r :: rest => insert_desc r (sort_values rest)
  end.

(** [get_all_transactions(start_date, end_date, days_back)]: the rows of
    the frame returned, an empty frame when no account gave one; [None]
    when a call is still running after [fuel] rounds. *)
Definition get_all_transactions (service : string -> nat -> Request -> ApiResult Response)
  (fuel : nat) (today : Date) (access_tokens : Tokens)
  (start_date end_date : option Date) (days_back : Z) : option (list AccountRow) :=
  match fetch_accounts service fuel today access_tokens (PyDict.keys access_tokens)
          start_date end_date days_back with
  | None => None
  | Some [] => Some []
  | Some all_transactions => Some (sort_values (List.concat all_transactions))
  end.

End PlaidConnector.

(** ** Vocabulary of the statements *)

Module Statements.
Import PyStr PyFloat Pandas SmartCSVProcessor.

(** [x] is the first element of [cols], from the left, that satisfies [P]. *)
Definition first_match (P : string -> bool) (cols : list string) (x : string) : Prop :=
  exists before after,
    cols = before ++ x :: after /\ P x = true /\
    forall y, In y before -> P y = false.

(** [x] is the last element of [cols], from the left, that satisfies [P]. *)
Definition last_match (P : string -> bool) (cols : list string) (x : string) : Prop :=
  exists before after,
    cols = before ++ x :: after /\ P x = true /\
    forall y, In y after -> P y = false.

Definition no_match (P : string -> bool) (cols : list string) : Prop :=
  forall y, In y cols -> P y = false.

(** The last element satisfying [P], computed as the loop of
    [_find_amount_column] does: every match overwrites the variable. *)
Definition last_such (P : string -> bool) (cols : list string)
  (init : option string) : option string :=
  fold_left (fun acc col => if P col then Some col else acc) cols init.

(** The roles the loop of [_find_amount_column] gives a column: the
    debit test comes first, the credit test is its [elif]. *)
Definition debit_column (col : string) : bool := matches debit_side col.
Definition credit_column (col : string) : bool := matches credit_side col.
Definition credit_only_column (col : string) : bool :=
  negb (debit_column col) && credit_column col.

(** Some column takes the debit role and some column the credit role. *)
Definition has_pair (cols : list string) : Prop :=
  exists d c, In d cols /\ In c cols /\
              debit_column d = true /\ credit_only_column c = true.

(** No column can serve as the amount: no label contains an amount
    synonym and the columns hold no debit and credit pair. *)
Definition no_amount_source (cols : list string) : Prop :=
  no_match (matches amount_patterns) cols /\ ~ has_pair cols.

Definition schema_error {A : Type} (o : Outcome A) : Prop :=
  exists msg, o = Raises (ValueError msg).

(** The first occurrence of every element, in order. *)
Fixpoint dedup (l : list string) : list string :=
  match l with
  | [] => []
  | x :: t => x :: filter (fun y => negb (String.eqb x y)) (dedup t)
  end.

(** The loop [if x not in acc: acc.append(x)] over [l]. *)
Definition append_new (acc l : list string) : list string :=
  fold_left (fun acc x => if mem x acc then acc else acc ++ [x]) l acc.

(** One pattern occurs in the normalized label. *)
Definition has_pattern (pattern col : string) : bool :=
  contains (lower pattern) (normalize col).

(** The columns holding a description synonym, taken synonym by synonym
    in the order of [description_patterns], and for each synonym from
    left to right. *)
Definition by_synonym (cols : list string) : list string :=
  flat_map (fun pattern => filter (has_pattern pattern) cols) description_patterns.

(** The same columns in the left-to-right order of the table. *)
Definition in_column_order (cols : list string) : list string :=
  filter (matches description_patterns) cols.

(** A float that is a number other than zero: the test
    [pd.notna(x) and x != 0] of [_process_amount]. *)
Definition nonzero (x : spec_float) : bool := notna x && negb (is_zero x).

(** The sign rule of the debit and credit pair, for the cleaned debit and
    credit cells of a row and the amount the row gets. *)
Definition sign_rule (debit credit amt : spec_float) : Prop :=
  (nonzero debit = true ->
   amt = neg (abs debit) /\ is_negative amt = true) /\
  (nonzero debit = false -> nonzero credit = true ->
   amt = abs credit /\ is_positive amt = true) /\
  (nonzero debit = false -> nonzero credit = false -> amt = zero).

(** Output rows are in descending date order. *)
Definition date_desc (a b : ResultRow) : Prop :=
  date_geb (date a) (date b) = true.

(** A string that does not begin with white space. *)
Definition tight_left (s : string) : bool :=
  match s with EmptyString => true | String c _ => negb (is_space c) end.


(** The descriptions of a returned table, in order. *)
Definition descriptions (o : Outcome (list ResultRow)) : list string :=
  match o with Returns out => map description out | Raises _ => [] end.

(** The table of an outcome; an exception leaves no table. *)
Definition table_of (o : Outcome (list ResultRow)) : list ResultRow :=
  match o with Returns out => out | Raises _ => [] end.

(** The description built from the cells of [row] under [cols], taken
    in the order of [description_cols]. *)
Definition joined (cols description_cols : list string) (row : list Cell) : string :=
  match filter usable
          (map (fun col => strip (str (row_get cols row col))) description_cols) with
  | [] => "Unknown Transaction"
  | parts => join " | " parts
  end.

(** The text of a cell once the symbols and separators are out, before
    the parentheses are looked at. *)
Definition unsigned_text (s : string) : string :=
  strip_separators (strip_currency (strip s)).

(** The frames the statements on whole tables speak for.  The embedding
    reads white space, case and digits on the ASCII range and takes the
    first cell under a label, which is what Python and pandas do for the
    texts and the frames described here. *)

(** A text of ASCII characters. *)
Fixpoint ascii_text (s : string) : bool :=
  match s with
  | EmptyString => true
  | String c s' => (code c <? 128)%nat && ascii_text s'
  end.

(** A text of ASCII characters, pound signs and euro signs. *)
Definition plain_text (s : string) : bool :=
  ascii_text (remove euro (remove pound s)).

Definition plain_cell (c : Cell) : bool :=
  match c with CStr s => plain_text s | CNaN | CNone => true end.

(** No element occurs twice. *)
Fixpoint distinct (l : list string) : bool :=
  match l with
  | [] => true
  | x :: t => negb (mem x t) && distinct t
  end.

(** At least one column, and labels that are ASCII texts and stay
    distinct once lower-cased and stripped. *)
Definition clean_labels (df : DataFrame) : bool :=
  match columns df with [] => false | _ :: _ => true end
  && forallb ascii_text (columns df)
  && distinct (map normalize (columns df)).

(** Every text cell is plain. *)
Definition plain_cells (df : DataFrame) : bool :=
  forallb (forallb plain_cell) (rows df).

Definition plain_frame (df : DataFrame) : bool :=
  clean_labels df && plain_cells df.

(** The amount of one input row: the cleaned cell of the single amount
    column, or the debit and credit cells reconciled. *)
Definition row_amount (cols : list string) (amount_col : AmountColumn)
  (row : list Cell) : spec_float :=
  match amount_col with
  | Single col => _clean_amount (row_get cols row col)
  | Pair debit_col credit_col =>
      reconcile (_clean_amount (row_get cols row debit_col))
                (_clean_amount (row_get cols row credit_col))
  end.

(** The canonical row of the input row [row] of index [i]: the entry
    [i] of the parsed date column, the description joined from the
    cells of [row], and the amount of [row]. *)
Definition canonical_row (dates : list (option Timestamp)) (cols : list string)
  (amount_col : AmountColumn) (description_cols : list string)
  (i : nat) (row : list Cell) : ResultRow :=
  {| date := nth i dates None;
     description := joined cols description_cols row;
     amount := row_amount cols amount_col row |}.

(** The canonical rows of the input rows [rws], the first of index [i]. *)
Fixpoint canonical_rows (dates : list (option Timestamp)) (cols : list string)
  (amount_col : AmountColumn) (description_cols : list string)
  (i : nat) (rws : list (list Cell)) : list ResultRow :=
  match rws with
  | [] => []
  | row :: rest =>
      canonical_row dates cols amount_col description_cols i row
      :: canonical_rows dates cols amount_col description_cols (S i) rest
  end.

End Statements.

(** ** Sample frames *)

Module Examples.
Import PyStr PyFloat Pandas SmartCSVProcessor Statements.

(** A bank export with separate [Debit] and [Credit] columns. *)
Definition scenario : DataFrame :=
  {| columns := ["Post Date"; "Debit"; "Credit"; "Memo"];
     rows := [[CStr "2024-01-05"; CStr "$45.32"; CStr ""; CStr "WHOLE FOODS"];
              [CStr "2024-01-01"; CStr ""; CStr "3500.00"; CStr "PAYROLL"]] |}.

(** The same export under the headers [Withdrawal] and [Deposit], with a
    void line and a line whose date does not parse. *)
Definition split_statement : DataFrame :=
  {| columns := ["Date"; "Withdrawal"; "Deposit"; "Memo"];
     rows := [[CStr "2024-01-01"; CStr ""; CStr "3500.00"; CStr "PAYROLL"];
              [CStr "2024-01-05"; CStr "$45.32"; CStr ""; CStr "WHOLE FOODS"];
              [CStr "2024-01-03"; CStr "0.00"; CStr "0.00"; CNaN];
              [CStr "pending"; CStr "12.00"; CStr ""; CStr "COFFEE"]] |}.

(** One amount column; the third line holds the text [nan]. *)
Definition ledger : DataFrame :=
  {| columns := ["Date"; "Amount"; "Payee"];
     rows := [[CStr "2024-02-01"; CStr "(45.00)"; CStr "GROCER"];
              [CStr "2024-02-03"; CStr "0"; CStr "VOID"];
              [CStr "2024-02-02"; CStr "nan"; CStr "BROKEN"];
              [CStr "soon"; CStr "7"; CStr "LATER"]] |}.

(** Two labels that each hold a debit-side and a credit-side word. *)
Definition mixed_roles : DataFrame :=
  {| columns := ["Date"; "Withdrawal or Deposit"; "Outgoing or Incoming"];
     rows := [[CStr "2024-01-05"; CStr "45.32"; CStr "45.32"]] |}.

(** [Memo] stands left of [Description]. *)
Definition memo_first : DataFrame :=
  {| columns := ["Date"; "Amount"; "Memo"; "Description"];
     rows := [[CStr "2024-01-05"; CStr "4.50"; CStr "  Coffee  "; CStr "Starbucks"]] |}.

(** Two labels hold a credit-side word, and the last of them also holds
    a debit-side word. *)
Definition net_columns : list string :=
  map normalize ["Date"; "Deposits"; "Withdrawals"; "Deposits less Withdrawals"].

(** [split_statement] once [process_csv] has normalized its labels, and
    its second row. *)
Definition split_frame : DataFrame :=
  set_columns (map normalize (columns split_statement)) split_statement.

Definition whole_foods_row : list Cell :=
  [CStr "2024-01-05"; CStr "$45.32"; CStr ""; CStr "WHOLE FOODS"].


End Examples.

(** ** Vocabulary of the further statements *)

Module Notions.
Import PyStr PyFloat Pandas SmartCSVProcessor Statements Examples.

(** The date of a row parsed. *)
Definition has_date (r : ResultRow) : bool :=
  match date r with Some _ => true | None => false end.

(** The first cell of a column that is not missing. *)
Definition first_value (series : list Cell) : option Cell :=
  find (fun c => negb (isna c)) series.

(** The first cell of the column that is not missing exists and does not
    read as a number. *)
Definition is_text (df : DataFrame) (col : string) : bool :=
  match first_value (column df col) with
  | Some v => negb (looks_numeric (str v))
  | None => false
  end.

(** A string of decimal digits. *)
Fixpoint all_digits (s : string) : bool :=
  match s with
  | EmptyString => true
  | String c s' => is_digit c && all_digits s'
  end.

(** Some character of the string satisfies [P]. *)
Fixpoint any_char (P : ascii -> bool) (s : string) : bool :=
  match s with
  | EmptyString => false
  | String c s' => P c || any_char P s'
  end.

(** The text reads [nan], with or without a sign, in any case and with
    white space around it: what [float] turns into NaN. *)
Definition spells_nan (t : string) : bool :=
  let u := lower (drop_trailing_space (skip_space t)) in
  String.eqb u "nan" || String.eqb u "+nan" || String.eqb u "-nan".

(** A line feed. *)
Definition line_feed_text : string := String (ascii_of_nat 10) EmptyString.

(** No label holds a description synonym; the date column holds text,
    the amount column a number. *)
Definition untitled : DataFrame :=
  {| columns := ["date"; "amount"; "shop"];
     rows := [[CStr "2024-03-01"; CStr "12.50"; CStr "BAKERY"]] |}.

(** The scenario frame under loud and padded headers. *)
Definition loud_scenario : DataFrame :=
  {| columns := ["  POST DATE"; "Debit "; "CREDIT"; " memo "];
     rows := rows scenario |}.

End Notions.

Module CategorizerNotions.
Import PyStr PyFloat TransactionCategorizer.

(** The fallback loop told on the lower-cased reply. *)
Fixpoint closest_lowered (reply : string) (cats : list string) : option string :=
  match cats with
  | [] => None
  | cat :: rest =>
      if contains (lower cat) reply || contains reply (lower cat)
      then Some cat
      else closest_lowered reply rest
  end.

(** The transaction dict has the two keys the batch reads. *)
Definition has_keys (transaction : PyDict.dict PyValue) : bool :=
  PyDict.has transaction "description" && PyDict.has transaction "amount".

(** Three transactions as [df.to_dict('records')] gives them. *)
Definition sample_batch : list (PyDict.dict PyValue) :=
  [[("date", VStr "2024-01-05"); ("description", VStr "WHOLE FOODS");
    ("amount", VNum (S754_finite true 6378222972263465 (-47)))];
   [("date", VStr "2024-01-01"); ("description", VStr "PAYROLL");
    ("amount", VNum (S754_finite false 7696581394432000 (-41)));
    ("category", VStr "Salary")];
   [("description", VStr "REFUND"); ("amount", VStr "n/a")]].

(** A model that answers with the description in a sentence. *)
Definition echo (i : nat) (description : PyValue) (amount : spec_float)
  (categories : string) : Try string :=
  match description with
  | VStr "WHOLE FOODS" => Done " groceries "
  | VStr "PAYROLL" => Done "This looks like income."
  | _ => Fails (PlainException "rate limit")
  end.

(** A model that answers with white space only. *)
Definition silent (description : PyValue) (amount : spec_float)
  (categories : string) : Try string :=
  Done (String " " (String (ascii_of_nat 10) EmptyString)).

End CategorizerNotions.

Module PlaidNotions.
Import PyStr PyFloat PlaidConnector.

(** The row of a transaction whose category is not [None]. *)
Definition row_of (txn : Txn) : Row :=
  {| date := txn_date txn;
     description := txn_name txn;
     amount := neg (txn_amount txn);
     category :=
       join ", " match txn_category txn with Present l => l | _ => ["Other"] end;
     transaction_id := txn_transaction_id txn;
     merchant_name :=
       match txn_merchant_name txn with
       | Unset => Some EmptyString
       | Null => None
       | Present m => Some m
       end |}.

Definition posted (txn : Txn) : bool := negb (txn_pending txn).

Definition category_set (txn : Txn) : bool :=
  match txn_category txn with Null => false | _ => true end.

(** A service that holds a fixed list of transactions and serves it in
    pages of [page] transactions from the offset asked for. *)
Definition paged_service (all : list Txn) (page : nat)
  (k : nat) (request : Request) : ApiResult Response :=
  ApiOk {| transactions :=
             firstn page
               (skipn match req_offset request with Some n => n | None => O end all);
           total_transactions := List.length all |}.

(** A service that reports [total] transactions and serves none. *)
Definition stalled_service (total : nat) (k : nat) (request : Request)
  : ApiResult Response :=
  ApiOk {| transactions := []; total_transactions := total |}.

(** Two connected accounts. *)
Definition two_banks : Tokens :=
  [("Chase", {| access_token := "access-1"; item_id := "item-1" |});
   ("Ally", {| access_token := "access-2"; item_id := "item-2" |})].

Definition coffee : Txn :=
  {| txn_date := 19727%Z; txn_name := "Starbucks";
     txn_amount := S754_finite false 5066549580791808 (-50);
     txn_category := Present ["Food and Drink"; "Coffee Shop"];
     txn_pending := false; txn_transaction_id := "t-1";
     txn_merchant_name := Present "Starbucks" |}.

Definition payroll : Txn :=
  {| txn_date := 19723%Z; txn_name := "PAYROLL";
     txn_amount := S754_finite true 7696581394432000 (-41);
     txn_category := Unset;
     txn_pending := false; txn_transaction_id := "t-2";
     txn_merchant_name := Null |}.

Definition hold : Txn :=
  {| txn_date := 19728%Z; txn_name := "HOTEL HOLD";
     txn_amount := S754_finite false 7036874417766400 (-46);
     txn_category := Present ["Travel"];
     txn_pending := true; txn_transaction_id := "t-3";
     txn_merchant_name := Unset |}.

(** A pending transaction whose category the service sets to [None]. *)
Definition uncategorized : Txn :=
  {| txn_date := 19729%Z; txn_name := "VENMO";
     txn_amount := S754_finite false 5629499534213120 (-48);
     txn_category := Null;
     txn_pending := true; txn_transaction_id := "t-4";
     txn_merchant_name := Null |}.

(** The entry of [two_banks] under [Chase]. *)
Definition chase_entry : Token :=
  {| access_token := "access-1"; item_id := "item-1" |}.

(** The rows an account contributes to the combined frame: those of its
    frame, and none when its call raises or is still running. *)
Definition contribution (service : string -> nat -> Request -> ApiResult Response)
  (fuel : nat) (today : Date) (tokens : Tokens) (start_date end_date : option Date)
  (days_back : Z) (name : string) : list AccountRow :=
  match get_transactions (service name) fuel today tokens name
          start_date end_date days_back with
  | Some (Done df) => with_account name df
  | _ => []
  end.

(** The dates do not increase down the frame. *)
Definition newest_first (rs : list AccountRow) : Prop :=
  Sorted (fun a b => (date (fetched b) <= date (fetched a))%Z) rs.

(** [Chase] serves three transactions in pages of two; every other
    account has none. *)
Definition chase_only (name : string) : nat -> Request -> ApiResult Response :=
  if String.eqb name "Chase"
  then paged_service [coffee; payroll; hold] 2
  else stalled_service 0.

(** An exchange that always succeeds with the same token and item. *)
Definition granting (public_token : string) : ApiResult (string * string) :=
  ApiOk ("access-3", "item-3").

End PlaidNotions.

(** ** Lemmas on the string primitives *)

(** Case analysis over the 256 characters. *)
Ltac each_char c :=
  destruct c as [[] [] [] [] [] [] [] []]; try discriminate; try reflexivity.

Section StringFacts.
Import PyStr Statements.

Lemma startswith_empty_r p : startswith p EmptyString = true -> p = EmptyString.
Proof. destruct p; simpl; [reflexivity | discriminate]. Qed.

Lemma contains_empty_r p : contains p EmptyString = true -> p = EmptyString.
Proof.
  simpl. rewrite orb_false_r. apply startswith_empty_r.
Qed.

Lemma lower_empty s : lower s = EmptyString -> s = EmptyString.
Proof. destruct s; simpl; [reflexivity | discriminate]. Qed.

Lemma mem_In x xs : mem x xs = true <-> In x xs.
Proof.
  unfold mem. rewrite existsb_exists. split.
  - intros (y & Hy & E). apply String.eqb_eq in E. now subst.
  - intros H. exists x. split; [assumption | apply String.eqb_refl].
Qed.

Lemma mem_false x xs : mem x xs = false <-> ~ In x xs.
Proof.
  rewrite <- mem_In. destruct (mem x xs); split; congruence.
Qed.

Lemma mem_app x l1 l2 : mem x (l1 ++ l2) = mem x l1 || mem x l2.
Proof. unfold mem. apply existsb_app. Qed.

Lemma lower_char_idem c : lower_char (lower_char c) = lower_char c.
Proof. each_char c. Qed.

Lemma is_space_lower_char c : is_space (lower_char c) = is_space c.
Proof. each_char c. Qed.

Lemma lower_idem s : lower (lower s) = lower s.
Proof. induction s as [|c s IH]; simpl; [reflexivity|]. now rewrite lower_char_idem, IH. Qed.

Lemma lower_lstrip s : lower (lstrip s) = lstrip (lower s).
Proof.
  induction s as [|c s IH]; simpl; [reflexivity|].
  rewrite is_space_lower_char. now destruct (is_space c).
Qed.

Lemma lower_rstrip s : lower (rstrip s) = rstrip (lower s).
Proof.
  induction s as [|c s IH]; simpl; [reflexivity|].
  rewrite <- IH, is_space_lower_char.
  destruct (rstrip s); simpl; [now destruct (is_space c) | reflexivity].
Qed.

Lemma lower_strip s : lower (strip s) = strip (lower s).
Proof. unfold strip. now rewrite lower_rstrip, lower_lstrip. Qed.

Lemma lstrip_tight s : tight_left (lstrip s) = true.
Proof.
  induction s as [|c s IH]; simpl; [reflexivity|].
  destruct (is_space c) eqn:E; [assumption | simpl; now rewrite E].
Qed.

Lemma tight_lstrip s : tight_left s = true -> lstrip s = s.
Proof.
  destruct s as [|c s]; simpl; [reflexivity|].
  now destruct (is_space c).
Qed.

Lemma rstrip_tight s : tight_left s = true -> tight_left (rstrip s) = true.
Proof.
  destruct s as [|c s]; simpl; [reflexivity|].
  intros H. destruct (rstrip s); simpl; [|assumption].
  destruct (is_space c) eqn:E; [reflexivity | simpl; now rewrite E].
Qed.

Lemma rstrip_idem s : rstrip (rstrip s) = rstrip s.
Proof.
  induction s as [|c s IH]; simpl; [reflexivity|].
  destruct (rstrip s) as [|d r] eqn:E.
  - destruct (is_space c) eqn:Ec; simpl; [reflexivity | now rewrite Ec].
  - change (rstrip (String c (String d r)))
      with (match rstrip (String d r) with
            | EmptyString => if is_space c then EmptyString else String c EmptyString
            | String a r0 => String c (String a r0)
            end).
    now rewrite IH.
Qed.

Lemma strip_idem s : strip (strip s) = strip s.
Proof.
  unfold strip.
  rewrite (tight_lstrip (rstrip (lstrip s))) by apply rstrip_tight, lstrip_tight.
  apply rstrip_idem.
Qed.

End StringFacts.

(** ** Column selection *)

Section Selection.
Import PyStr PyFloat Pandas SmartCSVProcessor Statements.

Lemma find_column_some cols patterns c :
  _find_column cols patterns = Some c <-> first_match (matches patterns) cols c.
Proof.
  induction cols as [|a cols IH]; simpl.
  - split; [discriminate|].
    intros (b & af & H & _). destruct b; discriminate.
  - destruct (matches patterns a) eqn:E.
    + split.
      * intros [= <-]. exists [], cols. repeat split; auto.
        intros y [].
      * intros (b & af & H & Hx & Hb). destruct b as [|b0 b]; simpl in H.
        -- now injection H as -> _.
        -- injection H as <- _.
           rewrite (Hb a (or_introl eq_refl)) in E. discriminate.
    + rewrite IH. split; intros (b & af & H & Hx & Hb).
      * exists (a :: b), af. subst cols. repeat split; auto.
        intros y [<- | Hy]; auto.
      * destruct b as [|b0 b]; simpl in H.
        -- injection H as -> _. congruence.
        -- injection H as _ ->. exists b, af. repeat split; auto.
           intros y Hy. apply Hb. now right.
Qed.

Lemma find_column_none cols patterns :
  _find_column cols patterns = None <-> no_match (matches patterns) cols.
Proof.
  unfold no_match. induction cols as [|a cols IH]; simpl.
  - split; [intros _ y [] | reflexivity].
  - destruct (matches patterns a) eqn:E.
    + split; [discriminate|]. intros H.
      rewrite (H a (or_introl eq_refl)) in E. discriminate.
    + rewrite IH. split.
      * intros H y [<- | Hy]; auto.
      * intros H y Hy. apply H. now right.
Qed.

Lemma find_column_matches cols patterns c :
  _find_column cols patterns = Some c -> matches patterns c = true /\ In c cols.
Proof.
  intros H. apply find_column_some in H. destruct H as (b & af & -> & Hx & _).
  split; [assumption|]. apply in_or_app. right. now left.
Qed.

(** Normalizing a label twice changes nothing, so the tests of the
    processor see the same text on the labels of the frame and on the
    labels [process_csv] has normalized. *)
Lemma normalize_idem name : normalize (normalize name) = normalize name.
Proof.
  unfold normalize. now rewrite lower_strip, lower_idem, strip_idem.
Qed.

Lemma matches_normalize patterns col :
  matches patterns (normalize col) = matches patterns col.
Proof. unfold matches. now rewrite normalize_idem. Qed.

Lemma no_match_normalize patterns cols :
  no_match (matches patterns) (map normalize cols) <->
  no_match (matches patterns) cols.
Proof.
  unfold no_match. split.
  - intros H y Hy. rewrite <- matches_normalize. apply H. now apply in_map.
  - intros H y Hy. apply in_map_iff in Hy. destruct Hy as (x & <- & Hx).
    rewrite matches_normalize. now apply H.
Qed.

Lemma has_pair_normalize cols : has_pair (map normalize cols) <-> has_pair cols.
Proof.
  unfold has_pair, credit_only_column, debit_column, credit_column. split.
  - intros (d & c & Hd & Hc & Md & Mc).
    apply in_map_iff in Hd. destruct Hd as (d0 & <- & Hd).
    apply in_map_iff in Hc. destruct Hc as (c0 & <- & Hc).
    rewrite !matches_normalize in *. now exists d0, c0.
  - intros (d & c & Hd & Hc & Md & Mc).
    exists (normalize d), (normalize c).
    rewrite !matches_normalize. repeat split; auto using in_map.
Qed.

Lemma no_amount_source_normalize cols :
  no_amount_source (map normalize cols) <-> no_amount_source cols.
Proof.
  unfold no_amount_source. now rewrite no_match_normalize, has_pair_normalize.
Qed.

(** The column [_find_column] returns on the normalized labels, told on
    the labels of the frame. *)
Lemma find_column_normalized cols patterns c' :
  _find_column (map normalize cols) patterns = Some c' <->
  exists before c after,
    cols = before ++ c :: after /\ c' = normalize c /\
    matches patterns c = true /\
    forall y, In y before -> matches patterns y = false.
Proof.
  induction cols as [|a cols IH]; simpl.
  - split; [discriminate|].
    intros (b & c & af & H & _). destruct b; discriminate.
  - rewrite matches_normalize. destruct (matches patterns a) eqn:E.
    + split.
      * intros [= <-]. exists [], a, cols. repeat split; auto.
        intros y [].
      * intros (b & c & af & H & -> & Hx & Hb). destruct b as [|b0 b]; simpl in H.
        -- now injection H as -> _.
        -- injection H as <- _.
           rewrite (Hb a (or_introl eq_refl)) in E. discriminate.
    + rewrite IH. split; intros (b & c & af & H & Hc & Hx & Hb).
      * exists (a :: b), c, af. subst cols. repeat split; auto.
        intros y [<- | Hy]; auto.
      * destruct b as [|b0 b]; simpl in H.
        -- injection H as -> _. congruence.
        -- injection H as _ ->. exists b, c, af. repeat split; auto.
           intros y Hy. apply Hb. now right.
Qed.

Lemma last_such_app P l1 l2 init :
  last_such P (l1 ++ l2) init = last_such P l2 (last_such P l1 init).
Proof. unfold last_such. apply fold_left_app. Qed.

Lemma last_such_no_match P l init :
  no_match P l -> last_such P l init = init.
Proof.
  revert init. induction l as [|a l IH]; intros init H; [reflexivity|].
  unfold last_such in *. simpl.
  rewrite (H a (or_introl eq_refl)). apply IH.
  intros y Hy. apply H. now right.
Qed.

Lemma last_such_some P cols x :
  last_such P cols None = Some x <-> last_match P cols x.
Proof.
  split.
  - induction cols as [|a cols IH] using rev_ind; [discriminate|].
    rewrite last_such_app. unfold last_such at 1. simpl.
    destruct (P a) eqn:E.
    + intros [= <-]. exists cols, []. repeat split; auto. intros y [].
    + intros H. destruct (IH H) as (b & af & -> & Hx & Haf).
      exists b, (af ++ [a]). rewrite <- app_assoc. repeat split; auto.
      intros y Hy. apply in_app_or in Hy. destruct Hy as [Hy | [<- | []]]; auto.
  - intros (b & af & -> & Hx & Haf).
    rewrite last_such_app.
    change (x :: af) with ([x] ++ af). rewrite last_such_app.
    rewrite last_such_no_match by exact Haf.
    unfold last_such at 1. simpl. now rewrite Hx.
Qed.

Lemma last_such_none P cols :
  last_such P cols None = None <-> no_match P cols.
Proof.
  split.
  - induction cols as [|a cols IH] using rev_ind; [intros _ y []|].
    rewrite last_such_app. unfold last_such at 1. simpl.
    destruct (P a) eqn:E; [discriminate|].
    intros H y Hy. apply in_app_or in Hy. destruct Hy as [Hy | [<- | []]]; auto.
    now apply IH.
  - intros H. now apply last_such_no_match.
Qed.

Lemma last_match_In P cols x : last_match P cols x -> In x cols /\ P x = true.
Proof.
  intros (b & af & -> & Hx & _). split; [|assumption].
  apply in_or_app. right. now left.
Qed.

Lemma debit_column_unfold col :
  debit_column col =
    contains "debit" (normalize col) || contains "withdrawal" (normalize col)
    || contains "outgoing" (normalize col).
Proof.
  unfold debit_column, matches, debit_side. simpl existsb.
  now rewrite orb_false_r, orb_assoc.
Qed.

Lemma credit_column_unfold col :
  credit_column col =
    contains "credit" (normalize col) || contains "deposit" (normalize col)
    || contains "incoming" (normalize col).
Proof.
  unfold credit_column, matches, credit_side. simpl existsb.
  now rewrite orb_false_r, orb_assoc.
Qed.

Lemma pair_step_roles st col :
  pair_step st col =
    (if debit_column col then Some col else fst st,
     if credit_only_column col then Some col else snd st).
Proof.
  unfold pair_step, credit_only_column.
  rewrite <- debit_column_unfold, <- credit_column_unfold.
  destruct st as [d c]. simpl.
  destruct (debit_column col); simpl; [reflexivity|].
  now destruct (credit_column col).
Qed.

Lemma pair_fold cols st :
  fold_left pair_step cols st =
    (last_such debit_column cols (fst st),
     last_such credit_only_column cols (snd st)).
Proof.
  revert st. induction cols as [|a cols IH]; intros st.
  - now destruct st.
  - simpl. rewrite IH, pair_step_roles. reflexivity.
Qed.

Lemma matches_truthy patterns col :
  matches patterns EmptyString = false ->
  matches patterns col = true -> truthy col = true.
Proof.
  intros H0 H. destruct col; [congruence | reflexivity].
Qed.

Lemma credit_only_truthy col : credit_only_column col = true -> truthy col = true.
Proof.
  unfold credit_only_column. intros H. apply andb_prop in H. destruct H as [_ H].
  now apply (matches_truthy credit_side).
Qed.

(** [_find_amount_column] returns the single column when a label holds
    an amount synonym. *)
Lemma find_amount_single cols c :
  _find_column cols amount_patterns = Some c ->
  _find_amount_column cols = Some (Single c).
Proof.
  intros H. unfold _find_amount_column. rewrite H. simpl.
  destruct (find_column_matches _ _ _ H) as [Hm _].
  now rewrite (matches_truthy amount_patterns c eq_refl Hm).
Qed.

(** Otherwise it returns the last column of each role, if both exist. *)
Lemma find_amount_fallback cols :
  _find_column cols amount_patterns = None ->
  _find_amount_column cols =
    match last_such debit_column cols None,
          last_such credit_only_column cols None with
    | Some d, Some c => Some (Pair d c)
    | _, _ => None
    end.
Proof.
  intros H. unfold _find_amount_column. rewrite H. simpl.
  rewrite pair_fold. simpl.
  destruct (last_such debit_column cols None) as [d|] eqn:Ed; [|reflexivity].
  destruct (last_such credit_only_column cols None) as [c|] eqn:Ec; [|reflexivity].
  apply last_such_some, last_match_In in Ed. destruct Ed as [_ Ed].
  apply last_such_some, last_match_In in Ec. destruct Ec as [_ Ec].
  rewrite (matches_truthy debit_side d eq_refl Ed).
  now rewrite (credit_only_truthy c Ec).
Qed.

Lemma find_amount_pair cols d c :
  _find_amount_column cols = Some (Pair d c) <->
  no_match (matches amount_patterns) cols /\
  last_match debit_column cols d /\
  last_match credit_only_column cols c.
Proof.
  destruct (_find_column cols amount_patterns) as [a|] eqn:E.
  - rewrite (find_amount_single _ _ E). split; [discriminate|].
    intros (H & _). apply find_column_none in H. congruence.
  - rewrite (find_amount_fallback _ E).
    rewrite <- find_column_none, <- !last_such_some.
    destruct (last_such debit_column cols None) as [d'|];
      destruct (last_such credit_only_column cols None) as [c'|];
      split; try discriminate; try (intros (_ & ? & ?); discriminate).
    + intros [= -> ->]. auto.
    + intros (_ & [= ->] & [= ->]). reflexivity.
Qed.

Lemma find_amount_none cols :
  _find_amount_column cols = None <-> no_amount_source cols.
Proof.
  unfold no_amount_source, has_pair.
  destruct (_find_column cols amount_patterns) as [a|] eqn:E.
  - rewrite (find_amount_single _ _ E). split; [discriminate|].
    intros (H & _). apply find_column_none in H. congruence.
  - rewrite (find_amount_fallback _ E).
    apply find_column_none in E.
    destruct (last_such debit_column cols None) as [d'|] eqn:Ed.
    + destruct (last_such credit_only_column cols None) as [c'|] eqn:Ec.
      * split; [discriminate|]. intros (_ & H). exfalso. apply H.
        apply last_such_some, last_match_In in Ed.
        apply last_such_some, last_match_In in Ec.
        exists d', c'. tauto.
      * split; [|reflexivity]. intros _. split; [assumption|].
        intros (d & c & _ & Hc & _ & Hcc).
        apply last_such_none in Ec. rewrite (Ec c Hc) in Hcc. discriminate.
    + split; [|reflexivity]. intros _. split; [assumption|].
      intros (d & c & Hd & _ & Hdd & _).
      apply last_such_none in Ed. rewrite (Ed d Hd) in Hdd. discriminate.
Qed.

End Selection.

(** ** Description columns *)

Section Descriptions.
Import PyStr PyFloat Pandas SmartCSVProcessor Statements.

Lemma append_new_app acc l1 l2 :
  append_new acc (l1 ++ l2) = append_new (append_new acc l1) l2.
Proof. unfold append_new. apply fold_left_app. Qed.

Lemma explicit_inner pattern cols acc :
  fold_left (explicit_step pattern) cols acc =
    append_new acc (filter (has_pattern pattern) cols).
Proof.
  revert acc. induction cols as [|a cols IH]; intros acc; [reflexivity|].
  simpl. rewrite IH. unfold explicit_step. fold (has_pattern pattern a).
  destruct (has_pattern pattern a); simpl; [|reflexivity].
  unfold append_new at 2. simpl.
  now destruct (mem a acc).
Qed.

Lemma explicit_outer patterns cols acc :
  fold_left (fun desc_cols pattern => fold_left (explicit_step pattern) cols desc_cols)
    patterns acc =
    append_new acc (flat_map (fun pattern => filter (has_pattern pattern) cols) patterns).
Proof.
  revert acc. induction patterns as [|p ps IH]; intros acc; [reflexivity|].
  simpl. now rewrite IH, explicit_inner, append_new_app.
Qed.

Lemma filter_filter_ext (f g h : string -> bool) l :
  (forall y, h y = f y && g y) ->
  filter f (filter g l) = filter h l.
Proof.
  intros E. induction l as [|a l IH]; [reflexivity|].
  simpl. rewrite (E a). destruct (g a); simpl.
  - rewrite andb_true_r. destruct (f a); now rewrite IH.
  - now rewrite andb_false_r.
Qed.

Lemma append_new_dedup acc l :
  append_new acc l = acc ++ filter (fun y => negb (mem y acc)) (dedup l).
Proof.
  revert acc. induction l as [|x t IH]; intros acc.
  - simpl. now rewrite app_nil_r.
  - unfold append_new. simpl. fold (append_new (if mem x acc then acc else acc ++ [x]) t).
    destruct (mem x acc) eqn:E; simpl; rewrite IH.
    + f_equal. symmetry. apply filter_filter_ext.
      intros y. destruct (String.eqb x y) eqn:Exy; simpl.
      * apply String.eqb_eq in Exy. subst y. now rewrite E.
      * now rewrite andb_true_r.
    + rewrite <- app_assoc. simpl. f_equal. f_equal.
      symmetry. apply filter_filter_ext.
      intros y. rewrite mem_app. unfold mem at 2. simpl.
      rewrite orb_false_r, negb_orb. f_equal. f_equal. apply String.eqb_sym.
Qed.

Lemma filter_all (l : list string) : filter (fun _ => true) l = l.
Proof. induction l; simpl; congruence. Qed.

(** The first pair of loops retains the matching columns synonym by
    synonym, each column at its first appearance. *)
Lemma explicit_columns_by_synonym cols :
  explicit_columns cols = dedup (by_synonym cols).
Proof.
  unfold explicit_columns, by_synonym.
  rewrite explicit_outer, append_new_dedup. simpl. apply filter_all.
Qed.

Lemma dedup_In x l : In x (dedup l) <-> In x l.
Proof.
  induction l as [|a t IH]; simpl; [tauto|].
  rewrite filter_In, IH. split.
  - intros [H | [H _]]; auto.
  - intros [H | H]; auto.
    destruct (String.eqb a x) eqn:E.
    + left. now apply String.eqb_eq.
    + right. auto.
Qed.

Lemma dedup_NoDup l : NoDup (dedup l).
Proof.
  induction l as [|a t IH]; simpl; constructor.
  - rewrite filter_In. intros [_ H]. now rewrite String.eqb_refl in H.
  - now apply NoDup_filter.
Qed.

Lemma by_synonym_In c cols :
  In c (by_synonym cols) <-> In c cols /\ matches description_patterns c = true.
Proof.
  unfold by_synonym, matches. rewrite in_flat_map, existsb_exists. split.
  - intros (p & Hp & H). apply filter_In in H. destruct H as [Hc Hm].
    split; [assumption|]. now exists p.
  - intros (Hc & p & Hp & Hm). exists p. split; [assumption|].
    apply filter_In. now split.
Qed.

Lemma explicit_columns_In c cols :
  In c (explicit_columns cols) <->
  In c cols /\ matches description_patterns c = true.
Proof. now rewrite explicit_columns_by_synonym, dedup_In, by_synonym_In. Qed.

Lemma explicit_columns_nil cols :
  explicit_columns cols = [] <-> no_match (matches description_patterns) cols.
Proof.
  unfold no_match. split.
  - intros E y Hy. destruct (matches description_patterns y) eqn:M; [|reflexivity].
    assert (In y (explicit_columns cols)) as H by now apply explicit_columns_In.
    rewrite E in H. destruct H.
  - intros H. destruct (explicit_columns cols) as [|c l] eqn:E; [reflexivity|].
    assert (In c (explicit_columns cols)) as Hc by (rewrite E; now left).
    apply explicit_columns_In in Hc. destruct Hc as [Hc M].
    rewrite (H c Hc) in M. discriminate.
Qed.

(** With at least one column, [_find_description_columns] returns a
    non-empty list. *)
Lemma find_description_nonempty df :
  columns df <> [] ->
  exists l, _find_description_columns df = Returns l /\ l <> [].
Proof.
  intros H. unfold _find_description_columns.
  destruct (explicit_columns (columns df)) as [|c l]; [|eexists; split; [reflexivity|discriminate]].
  destruct (text_columns df) as [|c l]; [|eexists; split; [reflexivity|discriminate]].
  destruct (columns df) as [|c l]; [congruence|].
  eexists; split; [reflexivity|discriminate].
Qed.

Lemma find_description_never_empty df :
  _find_description_columns df <> Returns [].
Proof.
  unfold _find_description_columns.
  destruct (explicit_columns (columns df)); [|discriminate].
  destruct (text_columns df); [|discriminate].
  destruct (columns df); discriminate.
Qed.

Lemma join_nonempty sep p ps : p <> EmptyString -> join sep (p :: ps) <> EmptyString.
Proof.
  intros H. destruct ps; simpl; [assumption|].
  destruct p; [congruence | discriminate].
Qed.

Lemma usable_nonempty v : usable v = true -> v <> EmptyString.
Proof. destruct v; [discriminate | discriminate]. Qed.

Lemma combined_desc_nonempty cols dcols row :
  combined_desc (row_parts cols dcols row) <> EmptyString.
Proof.
  unfold combined_desc.
  destruct (row_parts cols dcols row) as [|p ps] eqn:E; [discriminate|].
  apply join_nonempty. apply usable_nonempty.
  assert (In p (row_parts cols dcols row)) as H by (rewrite E; now left).
  unfold row_parts in H. apply filter_In in H. tauto.
Qed.

End Descriptions.

(** ** Sorting by date *)

Section Sorting.
Import PyStr PyFloat Pandas SmartCSVProcessor Statements.

Lemma date_geb_total a b : date_geb a b = false -> date_geb b a = true.
Proof.
  destruct a as [x|], b as [y|]; simpl; try congruence.
  intros H. apply Z.leb_gt in H. apply Z.leb_le. lia.
Qed.

Lemma date_geb_trans a b c :
  date_geb a b = true -> date_geb b c = true -> date_geb a c = true.
Proof.
  destruct a as [x|], b as [y|], c as [z|]; simpl; try congruence.
  rewrite !Z.leb_le. lia.
Qed.

Lemma insert_desc_perm r l : Permutation (insert_desc r l) (r :: l).
Proof.
  induction l as [|y ys IH]; simpl; [apply Permutation_refl|].
  destruct (date_geb (date r) (date y)); [apply Permutation_refl|].
  eapply perm_trans; [apply perm_skip, IH | apply perm_swap].
Qed.

Lemma sort_values_perm l : Permutation (sort_values l) l.
Proof.
  induction l as [|r l IH]; simpl; [constructor|].
  eapply perm_trans; [apply insert_desc_perm | now apply perm_skip].
Qed.

Lemma insert_desc_sorted r l :
  StronglySorted date_desc l -> StronglySorted date_desc (insert_desc r l).
Proof.
  induction 1 as [|y ys Hs IH Hall]; simpl.
  - repeat constructor.
  - destruct (date_geb (date r) (date y)) eqn:E.
    + constructor; [now constructor|].
      constructor; [exact E|].
      rewrite Forall_forall in *. intros z Hz.
      eapply date_geb_trans; [exact E | now apply Hall].
    + constructor; [assumption|].
      rewrite Forall_forall in *. intros z Hz.
      apply (Permutation_in _ (insert_desc_perm r ys)) in Hz.
      destruct Hz as [<- | Hz]; [now apply date_geb_total | now apply Hall].
Qed.

Lemma sort_values_sorted l : StronglySorted date_desc (sort_values l).
Proof.
  induction l as [|r l IH]; simpl; [constructor | now apply insert_desc_sorted].
Qed.

Lemma sorted_positions (l : list ResultRow) :
  StronglySorted date_desc l ->
  forall i j a b, i < j ->
    nth_error l i = Some a -> nth_error l j = Some b -> date_desc a b.
Proof.
  induction 1 as [|y ys Hs IH Hall]; intros i j a b Hij Ha Hb.
  - destruct i; discriminate.
  - destruct j as [|j]; [lia|]. simpl in Hb.
    destruct i as [|i]; simpl in Ha.
    + injection Ha as <-. rewrite Forall_forall in Hall.
      apply Hall. eapply nth_error_In; eassumption.
    + apply (IH i j); [lia | assumption | assumption].
Qed.

End Sorting.

(** ** The assembled table *)

Section Assembly.
Import PyStr PyFloat Pandas SmartCSVProcessor Statements.

Variable to_datetime : list Cell -> list (option Timestamp).

Lemma nth_tl {A} (l : list A) i d : nth i (tl l) d = nth (S i) l d.
Proof. destruct l; [now destruct i | reflexivity]. Qed.

Lemma hd_nth {A} (l : list A) d : hd d l = nth 0 l d.
Proof. now destruct l. Qed.

Lemma assemble_length n ds descs ams : List.length (assemble n ds descs ams) = n.
Proof.
  revert ds descs ams. induction n; intros; simpl; [reflexivity | now rewrite IHn].
Qed.

Lemma assemble_nth n : forall i ds descs ams,
  i < n ->
  nth_error (assemble n ds descs ams) i =
    Some {| date := nth i ds None;
            description := nth i descs EmptyString;
            amount := nth i ams zero |}.
Proof.
  induction n as [|n IH]; intros i ds descs ams Hi; [lia|].
  destruct i as [|i]; simpl.
  - now rewrite !hd_nth.
  - rewrite IH by lia. now rewrite !nth_tl.
Qed.

Lemma result_df_length df d a dc :
  List.length (result_df to_datetime df d a dc) = List.length (rows df).
Proof. apply assemble_length. Qed.

Lemma nth_map_default {A B} (f : A -> B) l i da db :
  i < List.length l -> nth i (map f l) db = f (nth i l da).
Proof.
  intros H. rewrite (nth_indep _ db (f da)); [apply map_nth|].
  now rewrite length_map.
Qed.

(** Row [i] of the table built at lines 65 to 74. *)
Lemma result_df_nth df d a dc i row :
  nth_error (rows df) i = Some row ->
  nth_error (result_df to_datetime df d a dc) i =
    Some {| date := nth i (to_datetime (column df d)) None;
            description := combined_desc (row_parts (columns df) dc row);
            amount := nth i (_process_amount df a) zero |}.
Proof.
  intros H.
  assert (i < List.length (rows df)) as Hi by (apply nth_error_Some; congruence).
  unfold result_df. rewrite assemble_nth by assumption.
  unfold _combine_descriptions.
  rewrite (nth_map_default _ _ _ [] EmptyString) by assumption.
  now rewrite (nth_error_nth _ _ [] H).
Qed.

Lemma amount_nth_single df col i row :
  nth_error (rows df) i = Some row ->
  nth i (_process_amount df (Single col)) zero =
    _clean_amount (row_get (columns df) row col).
Proof.
  intros H.
  assert (i < List.length (rows df)) as Hi by (apply nth_error_Some; congruence).
  simpl. unfold column. rewrite map_map.
  rewrite (nth_map_default _ _ _ [] zero) by assumption.
  now rewrite (nth_error_nth _ _ [] H).
Qed.

Lemma amount_nth_pair df dcol ccol i row :
  nth_error (rows df) i = Some row ->
  nth i (_process_amount df (Pair dcol ccol)) zero =
    reconcile (_clean_amount (row_get (columns df) row dcol))
              (_clean_amount (row_get (columns df) row ccol)).
Proof.
  intros H.
  assert (i < List.length (rows df)) as Hi by (apply nth_error_Some; congruence).
  simpl.
  rewrite (nth_map_default _ _ _ [] zero) by assumption.
  now rewrite (nth_error_nth _ _ [] H).
Qed.

Lemma find_amount_truthy cols a :
  _find_amount_column cols = Some a -> truthy_amount a = true.
Proof.
  destruct (_find_column cols amount_patterns) as [c|] eqn:E.
  - rewrite (find_amount_single _ _ E). intros [= <-]. simpl.
    destruct (find_column_matches _ _ _ E) as [Hm _].
    now apply (matches_truthy amount_patterns).
  - rewrite (find_amount_fallback _ E).
    destruct (last_such debit_column cols None);
      destruct (last_such credit_only_column cols None); try discriminate.
    now intros [= <-].
Qed.

(** [process_csv] on a frame with at least one column: the two schema
    checks, then the table. *)
Lemma process_csv_nonempty df :
  columns df <> [] ->
  let df' := set_columns (map normalize (columns df)) df in
  process_csv to_datetime df =
    match _find_column (columns df') date_patterns with
    | None => Raises (ValueError no_date_message)
    | Some d =>
        match _find_amount_column (columns df') with
        | None => Raises (ValueError no_amount_message)
        | Some a =>
            match _find_description_columns df' with
            | Returns dc => Returns (sort_values (dropna (result_df to_datetime df' d a dc)))
            | Raises e => Raises e
            end
        end
    end.
Proof.
  intros H df'. unfold process_csv. fold df'.
  assert (columns df' <> []) as H'.
  { simpl. destruct (columns df); [congruence | discriminate]. }
  destruct (find_description_nonempty df' H') as (dc & -> & Hdc).
  destruct (_find_column (columns df') date_patterns) as [d|] eqn:Ed; [|reflexivity].
  destruct (find_column_matches _ _ _ Ed) as [Hm _].
  rewrite (matches_truthy date_patterns d eq_refl Hm). cbn [negb].
  destruct (_find_amount_column (columns df')) as [a|] eqn:Ea; [|reflexivity].
  rewrite (find_amount_truthy _ _ Ea). cbn [negb].
  destruct dc; [congruence | reflexivity].
Qed.

(** What a returned table is made of. *)
Lemma process_csv_returns df out :
  process_csv to_datetime df = Returns out ->
  let df' := set_columns (map normalize (columns df)) df in
  exists d a dc,
    _find_column (columns df') date_patterns = Some d /\
    _find_amount_column (columns df') = Some a /\
    _find_description_columns df' = Returns dc /\
    out = sort_values (dropna (result_df to_datetime df' d a dc)).
Proof.
  intros H df'. unfold process_csv in H. fold df' in H.
  destruct (_find_description_columns df') as [dc|e]; [|discriminate].
  destruct (_find_column (columns df') date_patterns) as [d|]; [|discriminate].
  destruct (negb (truthy d)); [discriminate|].
  destruct (_find_amount_column (columns df')) as [a|]; [|discriminate].
  destruct (negb (truthy_amount a)); [discriminate|].
  destruct dc as [|c dc]; [discriminate|].
  injection H as <-. exists d, a, (c :: dc). auto.
Qed.

End Assembly.

(** ** Floats and amounts *)

Section Amounts.
Import PyStr PyFloat Pandas SmartCSVProcessor Statements.

Lemma nonzero_debit_negative x : nonzero x = true -> is_negative (neg (abs x)) = true.
Proof. destruct x as [s|s| |s m e]; try discriminate; reflexivity. Qed.

Lemma nonzero_credit_positive x : nonzero x = true -> is_positive (abs x) = true.
Proof. destruct x as [s|s| |s m e]; try discriminate; reflexivity. Qed.

Lemma reconcile_cases debit credit :
  reconcile debit credit =
    if nonzero debit then neg (abs debit)
    else if nonzero credit then abs credit
    else zero.
Proof. reflexivity. Qed.




Lemma drop_trailing_space_head c s :
  c_space c = false ->
  exists r, drop_trailing_space (String c s) = String c r.
Proof.
  intros H. simpl. destruct (drop_trailing_space s).
  - rewrite H. now exists EmptyString.
  - eexists. reflexivity.
Qed.





Local Arguments Ascii.eqb : simpl never.

Lemma remove_underscore_head c s :
  Ascii.eqb c "_" = false ->
  remove "_" (String c s) = String c (remove "_" s).
Proof.
  intros H. unfold remove. simpl.
  rewrite Ascii.eqb_sym, H. reflexivity.
Qed.




End Amounts.

(** ** The canonical rows of the input rows *)

Section CanonicalRows.
Import PyStr PyFloat Pandas SmartCSVProcessor Statements.

Variable to_datetime : list Cell -> list (option Timestamp).

Lemma canonical_rows_nth dates cols a dc rws : forall k i,
  nth_error (canonical_rows dates cols a dc k rws) i
  = option_map (canonical_row dates cols a dc (k + i)) (nth_error rws i).
Proof.
  induction rws as [|row rws IH]; intros k i.
  - now destruct i.
  - destruct i as [|i]; simpl.
    + now rewrite Nat.add_0_r.
    + rewrite IH. now rewrite Nat.add_succ_r.
Qed.

Lemma canonical_rows_length dates cols a dc rws : forall k,
  List.length (canonical_rows dates cols a dc k rws) = List.length rws.
Proof.
  induction rws as [|row rws IH]; intros k; simpl; [reflexivity | now rewrite IH].
Qed.

Lemma row_amount_nth df a i row :
  nth_error (rows df) i = Some row ->
  nth i (_process_amount df a) zero = row_amount (columns df) a row.
Proof.
  intros H. destruct a as [col|dcol ccol].
  - now apply amount_nth_single.
  - now apply amount_nth_pair.
Qed.

Lemma combined_desc_is_joined cols dc row :
  combined_desc (row_parts cols dc row) = joined cols dc row.
Proof.
  unfold combined_desc, joined, row_parts.
  now destruct (filter usable _).
Qed.

(** The table built at lines 65 to 74 holds the canonical rows of the
    input rows, in their order. *)
Lemma result_df_canonical df d a dc :
  result_df to_datetime df d a dc
  = canonical_rows (to_datetime (column df d)) (columns df) a dc 0 (rows df).
Proof.
  apply nth_error_ext. intros i. rewrite canonical_rows_nth.
  destruct (nth_error (rows df) i) as [row|] eqn:E.
  - rewrite (result_df_nth to_datetime df d a dc i row E). simpl.
    unfold canonical_row.
    now rewrite combined_desc_is_joined, (row_amount_nth df a i row E).
  - simpl. apply nth_error_None. rewrite result_df_length.
    now apply nth_error_None.
Qed.

Lemma notna_not_nan x : notna x = true <-> x <> S754_nan.
Proof. destruct x; simpl; split; congruence. Qed.

Lemma keeps_canonical dates cols a dc i row :
  keeps (canonical_row dates cols a dc i row) = true <->
  nth i dates None <> None /\ row_amount cols a row <> S754_nan.
Proof.
  unfold keeps, canonical_row. cbn [date amount].
  rewrite <- notna_not_nan.
  destruct (nth i dates None); split.
  - intros H. split; [discriminate | assumption].
  - now intros [_ H].
  - discriminate.
  - intros [H _]. congruence.
Qed.

Lemma canonical_row_In dates cols a dc rws i row :
  nth_error rws i = Some row ->
  In (canonical_row dates cols a dc i row) (canonical_rows dates cols a dc 0 rws).
Proof.
  intros H. apply (nth_error_In _ i).
  rewrite canonical_rows_nth, H. reflexivity.
Qed.

Lemma canonical_rows_origin dates cols a dc rws r :
  In r (canonical_rows dates cols a dc 0 rws) ->
  exists i row, nth_error rws i = Some row /\ r = canonical_row dates cols a dc i row.
Proof.
  intros Hr. apply In_nth_error in Hr. destruct Hr as (i & Hi).
  rewrite canonical_rows_nth in Hi.
  destruct (nth_error rws i) as [row|] eqn:E; [|discriminate].
  exists i, row. split; [exact E|]. simpl in Hi. congruence.
Qed.

(** What a returned table holds: the canonical rows of the input rows
    that have a date and an amount, sorted. *)
Lemma process_csv_canonical df out :
  process_csv to_datetime df = Returns out ->
  let df' := set_columns (map normalize (columns df)) df in
  exists d a dc,
    _find_column (columns df') date_patterns = Some d /\
    _find_amount_column (columns df') = Some a /\
    _find_description_columns df' = Returns dc /\
    Permutation out
      (filter keeps
         (canonical_rows (to_datetime (column df' d)) (columns df') a dc 0 (rows df))).
Proof.
  intros H df'.
  destruct (process_csv_returns to_datetime df out H)
    as (d & a & dc & Hd & Ha & Hdc & ->).
  fold df' in Hd, Ha, Hdc |- *.
  exists d, a, dc. repeat split; auto.
  rewrite (result_df_canonical df' d a dc).
  apply sort_values_perm.
Qed.

(** The rows of a table that is, in some order, the kept canonical
    rows. *)
Lemma kept_canonical_rows P dates cols a dc rws out :
  Permutation out (filter P (canonical_rows dates cols a dc 0 rws)) ->
  (forall r, In r out ->
             P r = true /\
             exists i row,
               nth_error rws i = Some row /\ r = canonical_row dates cols a dc i row) /\
  (forall i row, nth_error rws i = Some row ->
                 (In (canonical_row dates cols a dc i row) out <->
                  P (canonical_row dates cols a dc i row) = true)) /\
  List.length out <= List.length rws.
Proof.
  intros Hperm. split; [|split].
  - intros r Hr. apply (Permutation_in _ Hperm) in Hr.
    apply filter_In in Hr. destruct Hr as [Hr HP].
    split; [assumption | now apply canonical_rows_origin].
  - intros i row Hrow. split.
    + intros Hin. apply (Permutation_in _ Hperm) in Hin.
      apply filter_In in Hin. exact (proj2 Hin).
    + intros HP. apply (Permutation_in _ (Permutation_sym Hperm)).
      apply filter_In. split; [now apply canonical_row_In | assumption].
  - rewrite (Permutation_length Hperm).
    rewrite <- (canonical_rows_length dates cols a dc rws 0).
    apply filter_length_le.
Qed.

Lemma distinct_NoDup l : distinct l = true -> NoDup l.
Proof.
  induction l as [|x l IH]; simpl; [constructor|].
  intros H. apply andb_prop in H. destruct H as [Hx Hl].
  constructor; [|now apply IH].
  apply negb_true_iff in Hx. now apply mem_false.
Qed.

Lemma clean_labels_nonempty df : clean_labels df = true -> columns df <> [].
Proof.
  unfold clean_labels. destruct (columns df); [discriminate | discriminate].
Qed.

Lemma plain_frame_nonempty df : plain_frame df = true -> columns df <> [].
Proof.
  unfold plain_frame. intros H. apply andb_prop in H.
  now apply clean_labels_nonempty.
Qed.

End CanonicalRows.

(** ** The claims on column selection *)

Section SelectionClaims.
Import PyStr PyFloat Pandas SmartCSVProcessor Statements Examples.

Variable to_datetime : list Cell -> list (option Timestamp).

Lemma find_amount_single_iff cols c :
  _find_amount_column cols = Some (Single c) <->
  first_match (matches amount_patterns) cols c.
Proof.
  rewrite <- find_column_some.
  destruct (_find_column cols amount_patterns) as [a|] eqn:E.
  - rewrite (find_amount_single _ _ E). split; congruence.
  - rewrite (find_amount_fallback _ E).
    destruct (last_such debit_column cols None);
      destruct (last_such credit_only_column cols None);
      split; discriminate.
Qed.

(** C8.  [_find_column] scans the labels from left to right and returns
    the first one whose lower-cased, stripped text contains one of the
    patterns; it returns [None] exactly when no label does.  The single
    amount column is chosen the same way.  On the labels [process_csv]
    has normalized it returns the normalized form of the first label of
    the frame that passes the test.  For the columns [Posting Date],
    [Transaction Date] the date column is the first and not the second. *)
Theorem find_column_first_match :
  (forall cols patterns c,
      _find_column cols patterns = Some c <->
      first_match (matches patterns) cols c) /\
  (forall cols patterns,
      _find_column cols patterns = None <-> no_match (matches patterns) cols) /\
  (forall patterns col,
      matches patterns col = true <->
      exists p, In p patterns /\ contains (lower p) (strip (lower col)) = true) /\
  (forall cols c,
      _find_amount_column cols = Some (Single c) <->
      first_match (matches amount_patterns) cols c) /\
  (forall cols patterns c',
      _find_column (map normalize cols) patterns = Some c' <->
      exists before c after,
        cols = before ++ c :: after /\ c' = normalize c /\
        matches patterns c = true /\
        forall y, In y before -> matches patterns y = false) /\
  _find_column (map normalize ["Posting Date"; "Transaction Date"]) date_patterns
    = Some (normalize "Posting Date") /\
  _find_column (map normalize ["Posting Date"; "Transaction Date"]) date_patterns
    <> Some (normalize "Transaction Date").
Proof.
  split; [exact find_column_some|].
  split; [exact find_column_none|].
  split.
  { intros patterns col. unfold matches. apply existsb_exists. }
  split; [exact find_amount_single_iff|].
  split; [exact find_column_normalized|].
  split; [reflexivity | discriminate].
Qed.

(** C10, as amended.  In the debit and credit fallback the debit column
    is the last label, from left to right, that holds a debit-side word,
    and the credit column is the last label that holds a credit-side word
    and no debit-side word; the fallback is reached only when no label
    holds an amount synonym. *)
Theorem pair_selects_last_of_each_role cols d c :
  _find_amount_column cols = Some (Pair d c) <->
  no_match (matches amount_patterns) cols /\
  last_match debit_column cols d /\
  last_match credit_only_column cols c.
Proof. apply find_amount_pair. Qed.

Lemma process_csv_schema_cases df :
  columns df <> [] ->
  let cols := map normalize (columns df) in
  (no_match (matches date_patterns) cols /\
   process_csv to_datetime df = Raises (ValueError no_date_message)) \/
  (~ no_match (matches date_patterns) cols /\ no_amount_source cols /\
   process_csv to_datetime df = Raises (ValueError no_amount_message)) \/
  (~ no_match (matches date_patterns) cols /\ ~ no_amount_source cols /\
   exists out, process_csv to_datetime df = Returns out).
Proof.
  intros H cols. rewrite (process_csv_nonempty to_datetime df H).
  change (columns (set_columns (map normalize (columns df)) df)) with cols.
  destruct (_find_column cols date_patterns) as [d|] eqn:Ed.
  - assert (~ no_match (matches date_patterns) cols) as Hd.
    { intros Hn. apply find_column_none in Hn. congruence. }
    destruct (_find_amount_column cols) as [a|] eqn:Ea.
    + right. right. split; [assumption|]. split.
      * intros Hn. apply find_amount_none in Hn. congruence.
      * assert (columns (set_columns (map normalize (columns df)) df) <> []) as H'.
        { simpl. destruct (columns df); [congruence | discriminate]. }
        destruct (find_description_nonempty _ H') as (dc & -> & _).
        eexists. reflexivity.
    + right. left. split; [assumption|]. split; [|reflexivity].
      now apply find_amount_none.
  - left. split; [|reflexivity]. now apply find_column_none.
Qed.

(** C3, as amended.  On a frame with at least one column, whose labels
    are ASCII texts and stay distinct once lower-cased and stripped,
    [process_csv] raises the date error exactly when no label holds a
    date synonym, and the amount error exactly when some label does but
    no label holds an amount synonym and the columns hold no debit and
    credit pair (a label with a debit-side word and a label with a
    credit-side word and no debit-side word).  It raises a [ValueError]
    in these two cases only and returns a table otherwise; the two
    messages differ; the columns [Name], [Note] give the date error. *)
Theorem schema_errors df :
  clean_labels df = true ->
  let cols := columns df in
  (process_csv to_datetime df = Raises (ValueError no_date_message) <->
   no_match (matches date_patterns) cols) /\
  (process_csv to_datetime df = Raises (ValueError no_amount_message) <->
   ~ no_match (matches date_patterns) cols /\ no_amount_source cols) /\
  (schema_error (process_csv to_datetime df) <->
   no_match (matches date_patterns) cols \/ no_amount_source cols) /\
  ((exists out, process_csv to_datetime df = Returns out) <->
   ~ no_match (matches date_patterns) cols /\ ~ no_amount_source cols) /\
  no_date_message <> no_amount_message /\
  (forall rows,
      process_csv to_datetime {| columns := ["Name"; "Note"]; rows := rows |}
      = Raises (ValueError no_date_message)).
Proof.
  intros Hclean cols.
  pose proof (clean_labels_nonempty df Hclean) as H.
  pose proof (process_csv_schema_cases df H) as Hc. cbv zeta in Hc.
  rewrite no_match_normalize, no_amount_source_normalize in Hc. fold cols in Hc.
  unfold schema_error.
  destruct Hc as [(Hd & E) | [(Hd & Ha & E) | (Hd & Ha & out & E)]]; rewrite E.
  - split; [tauto|]. split; [split; [discriminate | tauto]|].
    split; [split; [tauto | eexists; reflexivity]|].
    split; [split; [intros (o & Ho); discriminate | tauto]|].
    split; [discriminate|]. reflexivity.
  - split; [split; [discriminate | tauto]|]. split; [tauto|].
    split; [split; [tauto | eexists; reflexivity]|].
    split; [split; [intros (o & Ho); discriminate | tauto]|].
    split; [discriminate|]. reflexivity.
  - split; [split; [discriminate | tauto]|].
    split; [split; [discriminate | tauto]|].
    split; [split; [intros (m & Hm); discriminate | tauto]|].
    split; [split; [tauto | eexists; reflexivity]|].
    split; [discriminate|]. reflexivity.
Qed.

End SelectionClaims.

(** ** The claims on descriptions *)

Section DescriptionClaims.
Import PyStr PyFloat Pandas SmartCSVProcessor Statements Examples.

Variable to_datetime : list Cell -> list (option Timestamp).

Lemma usable_iff v :
  usable v = true <->
  v <> EmptyString /\ lower v <> "nan" /\ lower v <> "none".
Proof.
  unfold usable, mem. simpl existsb. rewrite orb_false_r.
  rewrite andb_true_iff, negb_true_iff, !orb_false_iff, !String.eqb_neq.
  split.
  - intros (Ht & Hn & Ho & _). repeat split; auto.
    intros ->. discriminate.
  - intros (Hv & Hn & Ho). repeat split; auto.
    + destruct v; [congruence | reflexivity].
    + intros E. apply Hv. now apply lower_empty.
Qed.

Lemma combined_desc_joined cols dc row :
  combined_desc (row_parts cols dc row) = joined cols dc row.
Proof.
  unfold combined_desc, joined, row_parts.
  now destruct (filter usable _).
Qed.

(** Every row of a returned table comes from a row of the input. *)
Lemma output_rows_from_table df out :
  process_csv to_datetime df = Returns out ->
  let df' := set_columns (map normalize (columns df)) df in
  exists d a dc,
    _find_column (columns df') date_patterns = Some d /\
    _find_amount_column (columns df') = Some a /\
    _find_description_columns df' = Returns dc /\
    forall r, In r out ->
      keeps r = true /\
      exists i row,
        nth_error (rows df) i = Some row /\
        r = {| date := nth i (to_datetime (column df' d)) None;
               description := joined (columns df') dc row;
               amount := nth i (_process_amount df' a) zero |}.
Proof.
  intros H df'.
  destruct (process_csv_returns to_datetime df out H) as (d & a & dc & Hd & Ha & Hdc & ->).
  fold df' in Hd, Ha, Hdc |- *.
  exists d, a, dc. repeat split; auto.
  - apply (Permutation_in _ (sort_values_perm _)) in H0.
    apply filter_In in H0. tauto.
  - apply (Permutation_in _ (sort_values_perm _)) in H0.
    apply filter_In in H0. destruct H0 as [Hr _].
    apply In_nth_error in Hr. destruct Hr as (i & Hi).
    assert (i < List.length (rows df')) as Hlt.
    { rewrite <- (result_df_length to_datetime df' d a dc).
      apply nth_error_Some. congruence. }
    destruct (nth_error (rows df') i) as [row|] eqn:Er.
    + exists i, row. split; [exact Er|].
      rewrite (result_df_nth to_datetime df' d a dc i row Er) in Hi.
      rewrite combined_desc_joined in Hi. congruence.
    + apply nth_error_None in Er. lia.
Qed.

(** C2, as amended.  On a frame whose labels are ASCII texts that stay
    distinct once lower-cased and stripped, and whose text cells are
    plain (ASCII but for pound and euro signs), the description columns
    are all the labels that hold a description synonym, each once,
    ordered synonym by synonym as [description_patterns] lists them and,
    for one synonym, from left to right.  The description of a row is
    made of the stripped cells of these columns, in that order, without
    those that are empty or read [nan] or [none] in any case, joined by
    [" | "]; it is ["Unknown Transaction"] when none is left.  A
    returned table holds, in some order, the canonical rows of the
    input rows that have a date and an amount, each with the
    description so made. *)
Theorem description_columns_and_join df :
  plain_frame df = true ->
  let df' := set_columns (map normalize (columns df)) df in
  let cols := columns df' in
  explicit_columns cols = dedup (by_synonym cols) /\
  (forall c, In c (explicit_columns cols) <->
             In c cols /\ matches description_patterns c = true) /\
  NoDup (explicit_columns cols) /\
  (~ no_match (matches description_patterns) cols ->
   _find_description_columns df' = Returns (dedup (by_synonym cols))) /\
  (forall d a dc i row,
      nth_error (rows df) i = Some row ->
      exists r, nth_error (result_df to_datetime df' d a dc) i = Some r /\
                description r = joined cols dc row) /\
  (forall out,
      process_csv to_datetime df = Returns out ->
      exists d a dc,
        _find_description_columns df' = Returns dc /\
        Permutation out
          (filter keeps
             (canonical_rows (to_datetime (column df' d)) cols a dc 0 (rows df))) /\
        forall r, In r out ->
                  exists row, In row (rows df) /\ description r = joined cols dc row) /\
  (forall v, usable v = true <->
             v <> EmptyString /\ lower v <> "nan" /\ lower v <> "none").
Proof.
  intros _ df' cols.
  split; [apply explicit_columns_by_synonym|].
  split; [intros c; apply explicit_columns_In|].
  split; [rewrite explicit_columns_by_synonym; apply dedup_NoDup|].
  split.
  { intros H. unfold _find_description_columns. fold cols.
    rewrite <- explicit_columns_by_synonym.
    destruct (explicit_columns cols) eqn:E; [|reflexivity].
    apply explicit_columns_nil in E. contradiction. }
  split.
  { intros d a dc i row Hrow.
    rewrite (result_df_nth to_datetime df' d a dc i row Hrow).
    eexists. split; [reflexivity|]. cbn [description]. apply combined_desc_joined. }
  split; [|exact usable_iff].
  intros out H.
  destruct (process_csv_canonical to_datetime df out H)
    as (d & a & dc & _ & _ & Hdc & Hperm).
  fold df' in Hdc, Hperm. fold cols in Hperm.
  exists d, a, dc. split; [exact Hdc|]. split; [exact Hperm|]. intros r Hr.
  destruct (kept_canonical_rows keeps _ _ _ _ _ _ Hperm) as (Hfrom & _ & _).
  destruct (Hfrom r Hr) as (_ & i & row & Hrow & ->).
  exists row. split; [eapply nth_error_In; eassumption | reflexivity].
Qed.


End DescriptionClaims.

(** ** The claims on amounts *)

Section AmountClaims.
Import PyStr PyFloat Pandas SmartCSVProcessor Statements Examples.

Variable to_datetime : list Cell -> list (option Timestamp).

Local Arguments Ascii.eqb : simpl never.






Lemma float_inner_two_signs c t :
  c = "-"%char \/ c = "+"%char ->
  float_inner (String "-" (String c t)) = None.
Proof.
  intros Hc. unfold float_inner.
  change (skip_space (String "-" (String c t))) with (String "-" (String c t)).
  assert (c_space c = false) as Hs by (destruct Hc; subst; reflexivity).
  destruct (drop_trailing_space_head c t Hs) as (r & Er).
  assert (drop_trailing_space (String "-" (String c t)) = String "-" (String c r)) as ->.
  { change (drop_trailing_space (String "-" (String c t)))
      with (match drop_trailing_space (String c t) with
            | EmptyString => String "-" EmptyString
            | String a r0 => String "-" (String a r0)
            end).
    now rewrite Er. }
  destruct Hc; subst; reflexivity.
Qed.

(** [float] rejects a text that opens with two signs. *)
Lemma float_two_signs c t :
  c = "-"%char \/ c = "+"%char ->
  float (String "-" (String c t)) = None.
Proof.
  intros Hc. unfold float.
  destruct (contains "_" (String "-" (String c t))); [|now apply float_inner_two_signs].
  destruct (underscores_ok None (String "-" (String c t))); [|reflexivity].
  rewrite (remove_underscore_head "-" _ eq_refl).
  rewrite (remove_underscore_head c t) by (destruct Hc; subst; reflexivity).
  now apply float_inner_two_signs.
Qed.


(** C4.  When [_find_amount_column] selects a debit and credit pair,
    the amount of every row is [-abs(debit)], a negative number, when the
    cleaned debit cell is a number other than zero; otherwise it is
    [abs(credit)], a positive number, when the cleaned credit cell is a
    number other than zero; otherwise it is 0.  The debit cell is looked
    at first.  This holds for every row of the assembled table and so for
    every row of the returned one. *)
Theorem pair_reconciliation df debit_col credit_col :
  let df' := set_columns (map normalize (columns df)) df in
  let debit row := _clean_amount (row_get (columns df') row debit_col) in
  let credit row := _clean_amount (row_get (columns df') row credit_col) in
  _find_amount_column (columns df') = Some (Pair debit_col credit_col) ->
  (forall d dc i row,
      nth_error (rows df) i = Some row ->
      exists r,
        nth_error (result_df to_datetime df' d (Pair debit_col credit_col) dc) i
          = Some r /\
        sign_rule (debit row) (credit row) (amount r)) /\
  (forall out r,
      process_csv to_datetime df = Returns out -> In r out ->
      exists row, In row (rows df) /\
                  sign_rule (debit row) (credit row) (amount r)).
Proof.
  intros df' debit credit Hpair.
  assert (forall row, sign_rule (debit row) (credit row)
                        (reconcile (debit row) (credit row))) as Hrule.
  { intros row. rewrite reconcile_cases. unfold sign_rule.
    destruct (nonzero (debit row)) eqn:Ed.
    - repeat split; try discriminate.
      now apply nonzero_debit_negative.
    - destruct (nonzero (credit row)) eqn:Ec.
      + repeat split; try discriminate.
        now apply nonzero_credit_positive.
      + repeat split; discriminate. }
  split.
  - intros d dc i row Hrow.
    rewrite (result_df_nth to_datetime df' d _ dc i row Hrow).
    eexists. split; [reflexivity|]. cbn [amount].
    rewrite (amount_nth_pair df' debit_col credit_col i row Hrow).
    apply Hrule.
  - intros out r H Hr.
    destruct (output_rows_from_table to_datetime df out H)
      as (d & a & dc & _ & Ha & _ & Hrows).
    fold df' in Ha. rewrite Hpair in Ha. injection Ha as <-.
    destruct (Hrows r Hr) as (_ & i & row & Hrow & ->).
    exists row. split; [eapply nth_error_In; eassumption|].
    cbn [amount].
    assert (nth i (_process_amount df' (Pair debit_col credit_col)) zero
            = reconcile (debit row) (credit row)) as E
      by exact (amount_nth_pair df' debit_col credit_col i row Hrow).
    change (sign_rule (debit row) (credit row)
              (nth i (_process_amount df' (Pair debit_col credit_col)) zero)).
    rewrite E. apply Hrule.
Qed.

End AmountClaims.

(** ** The claims on the returned table *)

Section TableClaims.
Import PyStr PyFloat Pandas SmartCSVProcessor Statements Examples.

Variable to_datetime : list Cell -> list (option Timestamp).

Lemma keeps_false r : keeps r = false -> date r = None \/ amount r = S754_nan.
Proof.
  unfold keeps. destruct (date r); [|now left].
  destruct (amount r); try discriminate. now right.
Qed.

Lemma keeps_zero r : is_zero (amount r) = true -> date r <> None -> keeps r = true.
Proof.
  unfold keeps. destruct (date r); [|congruence].
  now destruct (amount r).
Qed.

Lemma keeps_date r : keeps r = true -> exists t, date r = Some t.
Proof. unfold keeps. destruct (date r) as [t|]; [now exists t | discriminate]. Qed.


(** C9.  A returned table is sorted by date, most recent first: of two
    rows, the one that comes first has the later or the same date. *)
Theorem output_sorted df out :
  process_csv to_datetime df = Returns out ->
  forall i j ri rj,
    i < j -> nth_error out i = Some ri -> nth_error out j = Some rj ->
    exists ti tj, date ri = Some ti /\ date rj = Some tj /\ (tj <= ti)%Z.
Proof.
  intros H i j ri rj Hij Hi Hj.
  destruct (output_rows_from_table to_datetime df out H)
    as (d & a & dc & _ & _ & _ & Hrows).
  destruct (process_csv_returns to_datetime df out H)
    as (d' & a' & dc' & _ & _ & _ & E).
  destruct (Hrows ri (nth_error_In _ _ Hi)) as (Ki & _).
  destruct (Hrows rj (nth_error_In _ _ Hj)) as (Kj & _).
  destruct (keeps_date ri Ki) as (ti & Hti).
  destruct (keeps_date rj Kj) as (tj & Htj).
  exists ti, tj. repeat split; auto.
  assert (date_desc ri rj) as Hs.
  { apply (sorted_positions out) with (i := i) (j := j); auto.
    rewrite E. apply sort_values_sorted. }
  unfold date_desc in Hs. rewrite Hti, Htj in Hs. simpl in Hs.
  now apply Z.leb_le.
Qed.

(** C1.  What [process_csv] returns on the scenario frame: the [Debit]
    label holds the amount synonym [debit], so it is taken as the single
    amount column; the first row gets the double nearest to +45.32 and
    the second row, whose [Debit] cell is empty, gets 0. *)
Theorem scenario_amounts :
  to_datetime [CStr "2024-01-05"; CStr "2024-01-01"]
    = [Some (IsoDates.midnight 2024 1 5); Some (IsoDates.midnight 2024 1 1)] ->
  _find_amount_column (map normalize (columns scenario)) = Some (Single "debit") /\
  exists a,
    nearest_double 4532 100 a = true /\
    is_positive a = true /\
    process_csv to_datetime scenario =
      Returns [ {| date := Some (IsoDates.midnight 2024 1 5);
                   description := "WHOLE FOODS";
                   amount := a |};
                {| date := Some (IsoDates.midnight 2024 1 1);
                   description := "PAYROLL";
                   amount := zero |} ].
Proof.
  intros H. split; [reflexivity|].
  exists (S754_finite false 6378222972263465 (-47)).
  split; [reflexivity|]. split; [reflexivity|].
  assert (process_csv to_datetime scenario =
          Returns (sort_values (dropna
            (assemble 2 (to_datetime [CStr "2024-01-05"; CStr "2024-01-01"])
               ["WHOLE FOODS"; "PAYROLL"]
               [S754_finite false 6378222972263465 (-47); zero])))) as E
    by (vm_compute; reflexivity).
  rewrite E, H. reflexivity.
Qed.

End TableClaims.

(** ** Counterexamples to the claims as first stated *)

Section Counterexamples.
Import PyStr PyFloat Pandas SmartCSVProcessor Statements Examples.

(** C2 as stated fails: with [Memo] left of [Description] the selected
    columns come out as [description], [memo], which is not the
    left-to-right order, and the description of the row is joined in
    that order. *)
Lemma description_order_not_column_order :
  _find_description_columns
    (set_columns (map normalize (columns memo_first)) memo_first)
    = Returns ["description"; "memo"] /\
  in_column_order (map normalize (columns memo_first)) = ["memo"; "description"] /\
  descriptions (process_csv IsoDates.to_datetime memo_first) = ["Starbucks | Coffee"] /\
  descriptions (process_csv IsoDates.to_datetime memo_first) <> ["Coffee | Starbucks"].
Proof. repeat split; try reflexivity. vm_compute. discriminate. Qed.

(** C3 as stated fails.  A frame with a date column, a label holding a
    debit-side word and another label holding a credit-side word raises
    the amount error when the second label holds a debit-side word
    too. *)
Lemma schema_error_not_exact :
  clean_labels mixed_roles = true /\
  map normalize (columns mixed_roles)
    = ["date"; "withdrawal or deposit"; "outgoing or incoming"] /\
  matches date_patterns "date" = true /\
  matches debit_side "withdrawal or deposit" = true /\
  matches credit_side "outgoing or incoming" = true /\
  process_csv IsoDates.to_datetime mixed_roles
    = Raises (ValueError no_amount_message).
Proof. repeat split. Qed.


(** C10 as stated fails: the last label holding a credit-side word is
    [deposits less withdrawals], but the credit column selected is
    [deposits]. *)
Lemma credit_side_not_last_match :
  _find_amount_column net_columns
    = Some (Pair "deposits less withdrawals" "deposits") /\
  last_match credit_column net_columns "deposits less withdrawals" /\
  ~ last_match credit_column net_columns "deposits".
Proof.
  split; [reflexivity|]. split.
  - apply last_such_some. reflexivity.
  - intros H. apply last_such_some in H. vm_compute in H. discriminate.
Qed.

End Counterexamples.

(** ** The theorems at work on the sample frames *)

Section Witnesses.
Import PyStr PyFloat Pandas SmartCSVProcessor Statements Examples.

(** The ISO parser reads the two dates of the scenario. *)
Lemma scenario_amounts_witness :
  IsoDates.to_datetime [CStr "2024-01-05"; CStr "2024-01-01"]
    = [Some (IsoDates.midnight 2024 1 5); Some (IsoDates.midnight 2024 1 1)] /\
  _find_amount_column (map normalize (columns scenario)) = Some (Single "debit").
Proof.
  assert (IsoDates.to_datetime [CStr "2024-01-05"; CStr "2024-01-01"]
          = [Some (IsoDates.midnight 2024 1 5); Some (IsoDates.midnight 2024 1 1)])
    as H by reflexivity.
  split; [exact H|].
  exact (proj1 (scenario_amounts IsoDates.to_datetime H)).
Defined.

(** The labels of the scenario frame are clean. *)
Lemma schema_errors_witness :
  clean_labels scenario = true /\
  (schema_error (process_csv IsoDates.to_datetime scenario) <->
   no_match (matches date_patterns) (columns scenario) \/
   no_amount_source (columns scenario)).
Proof.
  assert (clean_labels scenario = true) as H by reflexivity.
  split; [exact H|].
  exact (proj1 (proj2 (proj2 (schema_errors IsoDates.to_datetime scenario H)))).
Defined.

(** With [Memo] left of [Description] both labels are selected, each
    once. *)
Lemma description_columns_and_join_witness :
  plain_frame memo_first = true /\
  NoDup (explicit_columns (map normalize (columns memo_first))).
Proof.
  assert (plain_frame memo_first = true) as H by reflexivity.
  split; [exact H|].
  exact (proj1 (proj2 (proj2
           (description_columns_and_join IsoDates.to_datetime memo_first H)))).
Defined.


(** Under the headers [Withdrawal] and [Deposit] the pair is selected and
    the debit of the second row comes out negative. *)
Lemma pair_reconciliation_witness :
  _find_amount_column (columns split_frame) = Some (Pair "withdrawal" "deposit") /\
  exists r,
    nth_error (result_df IsoDates.to_datetime split_frame "date"
                 (Pair "withdrawal" "deposit") ["memo"]) 1 = Some r /\
    is_negative (amount r) = true.
Proof.
  assert (_find_amount_column (columns split_frame)
          = Some (Pair "withdrawal" "deposit")) as H by reflexivity.
  split; [exact H|].
  destruct (pair_reconciliation IsoDates.to_datetime split_statement
              "withdrawal" "deposit" H) as (Hrows & _).
  destruct (Hrows "date" ["memo"] 1 whole_foods_row eq_refl) as (r & Hr & Hd & _).
  exists r. split; [exact Hr|].
  apply Hd. reflexivity.
Defined.


(** The first and the last row of the table returned for the split
    statement. *)
Lemma output_sorted_witness :
  let out := table_of (process_csv IsoDates.to_datetime split_statement) in
  process_csv IsoDates.to_datetime split_statement = Returns out /\
  exists ri rj ti tj,
    nth_error out 0 = Some ri /\ nth_error out 2 = Some rj /\
    date ri = Some ti /\ date rj = Some tj /\ (tj <= ti)%Z.
Proof.
  intros out.
  assert (process_csv IsoDates.to_datetime split_statement = Returns out) as H
    by (vm_compute; reflexivity).
  split; [exact H|].
  destruct (nth_error out 0) as [ri|] eqn:Ei; [|vm_compute in Ei; discriminate].
  destruct (nth_error out 2) as [rj|] eqn:Ej; [|vm_compute in Ej; discriminate].
  assert (0 < 2) as Hlt by lia.
  destruct (output_sorted IsoDates.to_datetime split_statement out H 0 2 ri rj Hlt Ei Ej)
    as (ti & tj & Hi & Hj & Hle).
  exists ri, rj, ti, tj. auto.
Defined.

End Witnesses.

(** ** Further properties of [csv_processor.py] *)

Section PreviewFacts.
Import PyStr PyFloat Pandas SmartCSVProcessor Statements Examples Notions.

Variable to_datetime : list Cell -> list (option Timestamp).

(** X1.  [preview_mapping] reports the columns [process_csv] works
    with.  On a frame with at least one column, whose labels are ASCII
    texts that stay distinct once lower-cased and stripped and whose
    text cells are plain, the preview returns, lists the normalized
    labels and a non-empty list of description columns, and
    [process_csv] raises the date error when the preview has no date
    column, raises the amount error when it has a date column and no
    amount column, and otherwise returns, in some order, the canonical
    rows that the input rows get from the very columns of the preview
    and that have a date and an amount. *)
Theorem preview_agrees_with_process df :
  plain_frame df = true ->
  let df' := set_columns (map normalize (columns df)) df in
  exists m,
    preview_mapping df = Returns m /\
    all_columns m = map normalize (columns df) /\
    description_columns m <> [] /\
    (date_column m = None ->
     process_csv to_datetime df = Raises (ValueError no_date_message)) /\
    (date_column m <> None -> amount_column m = None ->
     process_csv to_datetime df = Raises (ValueError no_amount_message)) /\
    (forall d a,
        date_column m = Some d -> amount_column m = Some a ->
        exists out,
          process_csv to_datetime df = Returns out /\
          Permutation out
            (filter keeps
               (canonical_rows (to_datetime (column df' d)) (columns df') a
                  (description_columns m) 0 (rows df)))).
Proof.
  intros Hplain df'.
  pose proof (plain_frame_nonempty df Hplain) as H.
  assert (columns df' <> []) as H'.
  { simpl. destruct (columns df); [congruence | discriminate]. }
  destruct (find_description_nonempty df' H') as (dc & Hdc & Hne).
  pose proof (process_csv_nonempty to_datetime df H) as E. cbv zeta in E.
  fold df' in E. rewrite Hdc in E.
  unfold preview_mapping. fold df'. rewrite Hdc.
  eexists. split; [reflexivity|].
  cbn [all_columns description_columns date_column amount_column].
  split; [reflexivity|]. split; [assumption|].
  destruct (_find_column (columns df') date_patterns) as [d|].
  - split; [discriminate|].
    destruct (_find_amount_column (columns df')) as [a|].
    + split; [discriminate|]. intros d0 a0 [= <-] [= <-].
      eexists. split; [exact E|].
      rewrite (result_df_canonical to_datetime df' d a dc).
      apply sort_values_perm.
    + split; [intros _ _; exact E | discriminate].
  - split; [intros _; exact E|]. split; [congruence | discriminate].
Qed.

(** X2.  Only the normalized labels count: two frames with the same rows
    whose labels agree once lower-cased and stripped get the same outcome
    from [process_csv] and from [preview_mapping], and normalizing the
    labels beforehand changes nothing. *)
Theorem labels_count_up_to_normalization :
  (forall df1 df2,
      map normalize (columns df1) = map normalize (columns df2) ->
      rows df1 = rows df2 ->
      process_csv to_datetime df1 = process_csv to_datetime df2 /\
      preview_mapping df1 = preview_mapping df2) /\
  (forall df,
      process_csv to_datetime (set_columns (map normalize (columns df)) df)
        = process_csv to_datetime df /\
      preview_mapping (set_columns (map normalize (columns df)) df)
        = preview_mapping df).
Proof.
  assert (forall df1 df2,
      map normalize (columns df1) = map normalize (columns df2) ->
      rows df1 = rows df2 ->
      process_csv to_datetime df1 = process_csv to_datetime df2 /\
      preview_mapping df1 = preview_mapping df2) as Hgen.
  { intros [c1 r1] [c2 r2] Hc Hr. simpl in Hc, Hr. subst r2.
    unfold process_csv, preview_mapping, set_columns. simpl.
    rewrite Hc. split; reflexivity. }
  split; [exact Hgen|].
  intros df. apply Hgen; [|reflexivity].
  simpl. rewrite map_map. apply map_ext. intros a. apply normalize_idem.
Qed.

End PreviewFacts.

Section AmountColumnFacts.
Import PyStr PyFloat Pandas SmartCSVProcessor Statements Examples Notions.

Variable to_datetime : list Cell -> list (option Timestamp).

Lemma matches_amount_debit col :
  contains "debit" (normalize col) = true -> matches amount_patterns col = true.
Proof.
  intros H. unfold matches. apply existsb_exists.
  exists "debit". split; [simpl; tauto | exact H].
Qed.

Lemma matches_amount_credit col :
  contains "credit" (normalize col) = true -> matches amount_patterns col = true.
Proof.
  intros H. unfold matches. apply existsb_exists.
  exists "credit". split; [simpl; tauto | exact H].
Qed.

Lemma no_amount_no_debit_credit cols x :
  no_match (matches amount_patterns) cols -> In x cols ->
  contains "debit" (normalize x) = false /\
  contains "credit" (normalize x) = false.
Proof.
  intros Hn Hx. specialize (Hn x Hx). split.
  - destruct (contains "debit" (normalize x)) eqn:E; [|reflexivity].
    rewrite (matches_amount_debit x E) in Hn. discriminate.
  - destruct (contains "credit" (normalize x)) eqn:E; [|reflexivity].
    rewrite (matches_amount_credit x E) in Hn. discriminate.
Qed.

(** X3.  The debit and credit pair is never selected among labels that
    say [debit] or [credit]: a label holding one of these words makes
    [_find_amount_column] return a single column.  When a pair is
    returned no label of the frame holds [debit] or [credit], the debit
    label holds [withdrawal] or [outgoing], the credit label holds
    [deposit] or [incoming], and the two labels differ. *)
Theorem pair_needs_other_words cols :
  (forall x, In x cols ->
             contains "debit" (normalize x) = true \/
             contains "credit" (normalize x) = true ->
             exists col, _find_amount_column cols = Some (Single col)) /\
  (forall d c,
      _find_amount_column cols = Some (Pair d c) ->
      (forall x, In x cols ->
                 contains "debit" (normalize x) = false /\
                 contains "credit" (normalize x) = false) /\
      contains "withdrawal" (normalize d) || contains "outgoing" (normalize d) = true /\
      contains "deposit" (normalize c) || contains "incoming" (normalize c) = true /\
      d <> c).
Proof.
  split.
  - intros x Hx Hw.
    assert (matches amount_patterns x = true) as Hm
      by (destruct Hw; [now apply matches_amount_debit | now apply matches_amount_credit]).
    destruct (_find_column cols amount_patterns) as [col|] eqn:E.
    + exists col. now apply find_amount_single.
    + apply find_column_none in E. rewrite (E x Hx) in Hm. discriminate.
  - intros d c H. apply find_amount_pair in H. destruct H as (Hn & Hd & Hc).
    apply last_match_In in Hd. destruct Hd as [Hd Md].
    apply last_match_In in Hc. destruct Hc as [Hc Mc].
    split; [intros x Hx; now apply (no_amount_no_debit_credit cols)|].
    destruct (no_amount_no_debit_credit cols d Hn Hd) as [Dd _].
    destruct (no_amount_no_debit_credit cols c Hn Hc) as [_ Cc].
    unfold credit_only_column in Mc. apply andb_prop in Mc. destruct Mc as [Mc1 Mc2].
    rewrite debit_column_unfold in Md. rewrite Dd in Md.
    rewrite credit_column_unfold in Mc2. rewrite Cc in Mc2.
    split; [exact Md|]. split; [exact Mc2|].
    intros ->. rewrite debit_column_unfold, Dd in Mc1.
    simpl in Md, Mc1. rewrite Md in Mc1. discriminate.
Qed.

Lemma reconcile_notna debit credit : notna (reconcile debit credit) = true.
Proof.
  destruct debit as [[]|[]| |[] m e], credit as [[]|[]| |[] m' e']; reflexivity.
Qed.

(** X4.  With a debit and credit pair no row is lost for its amount: the
    reconciled amount is never NaN.  On a frame whose labels are ASCII
    texts that stay distinct once lower-cased and stripped and whose
    text cells are plain, the returned table holds, in some order, the
    canonical rows of the input rows whose date parsed: the canonical
    row of an input row is in the table exactly when the date of that
    row parsed, and every amount of the table is a number. *)
Theorem pair_rows_dropped_for_date_only df debit_col credit_col out :
  plain_frame df = true ->
  let df' := set_columns (map normalize (columns df)) df in
  _find_amount_column (columns df') = Some (Pair debit_col credit_col) ->
  process_csv to_datetime df = Returns out ->
  exists d dc,
    _find_column (columns df') date_patterns = Some d /\
    _find_description_columns df' = Returns dc /\
    let dates := to_datetime (column df' d) in
    let pair := Pair debit_col credit_col in
    Permutation out
      (filter has_date (canonical_rows dates (columns df') pair dc 0 (rows df))) /\
    (forall i row,
        nth_error (rows df) i = Some row ->
        (In (canonical_row dates (columns df') pair dc i row) out <->
         nth i dates None <> None)) /\
    (forall r, In r out -> notna (amount r) = true).
Proof.
  intros _ df' Hpair H.
  destruct (process_csv_canonical to_datetime df out H)
    as (d & a & dc & Hd & Ha & Hdc & Hperm).
  fold df' in Hd, Ha, Hdc, Hperm. rewrite Hpair in Ha. injection Ha as <-.
  exists d, dc. split; [exact Hd|]. split; [exact Hdc|]. cbv zeta.
  set (dates := to_datetime (column df' d)) in *.
  set (pair := Pair debit_col credit_col) in *.
  assert (forall i row, notna (amount (canonical_row dates (columns df') pair dc i row))
                        = true) as Hnum.
  { intros i row. apply reconcile_notna. }
  assert (filter keeps (canonical_rows dates (columns df') pair dc 0 (rows df))
          = filter has_date (canonical_rows dates (columns df') pair dc 0 (rows df)))
    as Hdrop.
  { apply filter_ext_in. intros r Hr.
    apply canonical_rows_origin in Hr. destruct Hr as (i & row & _ & ->).
    unfold keeps, has_date. rewrite Hnum.
    now destruct (date (canonical_row dates (columns df') pair dc i row)). }
  rewrite Hdrop in Hperm.
  destruct (kept_canonical_rows has_date _ _ _ _ _ _ Hperm) as (Hfrom & Hin & _).
  split; [exact Hperm|]. split.
  - intros i row Hrow. rewrite (Hin i row Hrow).
    unfold has_date, canonical_row. cbn [date].
    destruct (nth i dates None); split; congruence.
  - intros r Hr. destruct (Hfrom r Hr) as (_ & i & row & _ & ->). apply Hnum.
Qed.

End AmountColumnFacts.

Section CleaningFacts.
Import PyStr PyFloat Pandas SmartCSVProcessor Statements Examples Notions.

(** X5.  A value in parentheses that carries its own sign cleans to 0:
    the minus sign put in front meets the sign of the value and [float]
    rejects the text. *)
Theorem signed_parenthesized_is_zero s c t :
  contains "(" (unsigned_text s) = true ->
  contains ")" (unsigned_text s) = true ->
  remove ")" (remove "(" (unsigned_text s)) = String c t ->
  c = "-"%char \/ c = "+"%char ->
  _clean_amount (CStr s) = zero.
Proof.
  intros Ho Hc Ht Hsign. unfold _clean_amount. cbn [isna str].
  unfold cleaned. fold (unsigned_text s). unfold negate_parentheses.
  rewrite Ho, Hc, Ht. cbn [andb].
  change ("-" ++ String c t)%string with (String "-" (String c t)).
  now rewrite (float_two_signs c t Hsign).
Qed.

End CleaningFacts.

Section HeuristicFacts.
Import PyStr PyFloat Pandas SmartCSVProcessor Statements Examples Notions.

Lemma dropna_head_first n series :
  hd_error (dropna_head (S n) series) = first_value series.
Proof.
  unfold dropna_head, first_value.
  induction series as [|c series IH]; [reflexivity|].
  simpl. destruct (negb (isna c)); [reflexivity | exact IH].
Qed.

Lemma first_value_object series v :
  first_value series = Some v -> dtype_object series = true.
Proof.
  unfold first_value. intros H. apply find_some in H. destruct H as [Hin Hv].
  destruct series as [|c series]; [destruct Hin|].
  unfold dtype_object. apply existsb_exists. exists v.
  split; [assumption|]. now destruct v.
Qed.

Lemma text_step_is_text df acc col :
  text_step df acc col =
    if mem col acc then acc
    else if is_text df col then acc ++ [col] else acc.
Proof.
  unfold text_step, is_text.
  destruct (mem col acc); [reflexivity|]. cbn [negb].
  pose proof (dropna_head_first 4 (column df col)) as H.
  destruct (dropna_head 5 (column df col)) as [|first rest]; simpl in H.
  - now rewrite <- H.
  - rewrite <- H. now rewrite (first_value_object _ first (eq_sym H)).
Qed.

Lemma text_fold df cols acc :
  fold_left (text_step df) cols acc = append_new acc (filter (is_text df) cols).
Proof.
  revert acc. induction cols as [|a cols IH]; intros acc; [reflexivity|].
  simpl. rewrite IH, text_step_is_text.
  destruct (is_text df a); simpl.
  - unfold append_new at 2. simpl. now destruct (mem a acc).
  - now destruct (mem a acc).
Qed.

Lemma text_columns_filter df :
  text_columns df = dedup (filter (is_text df) (columns df)).
Proof.
  unfold text_columns. rewrite text_fold, append_new_dedup. simpl. apply filter_all.
Qed.

Lemma filter_differs x (l : list string) :
  ~ In x l -> filter (fun y => negb (String.eqb x y)) l = l.
Proof.
  induction l as [|a l IH]; [reflexivity|]. intros H. simpl.
  destruct (String.eqb x a) eqn:E.
  - apply String.eqb_eq in E. subst a. exfalso. apply H. now left.
  - simpl. rewrite IH; [reflexivity|]. intros Hx. apply H. now right.
Qed.

Lemma dedup_distinct l : NoDup l -> dedup l = l.
Proof.
  induction 1 as [|x l Hx Hl IH]; [reflexivity|].
  simpl. rewrite IH. now rewrite filter_differs.
Qed.

(** X6.  The text heuristic of [_find_description_columns] looks at one
    cell per column.  On a frame with distinct labels and plain text
    cells it keeps, from left to right, the columns whose first cell
    that is not missing does not read as digits with at most one point
    or comma, whatever else the column holds and whether or not it is
    the date or the amount column.  When no label holds a description
    synonym these columns are the description columns, or the first
    column when there is none. *)
Theorem text_heuristic df :
  distinct (columns df) = true ->
  plain_cells df = true ->
  text_columns df = filter (is_text df) (columns df) /\
  (forall col,
      In col (text_columns df) <->
      In col (columns df) /\
      exists v, first_value (column df col) = Some v /\
                looks_numeric (str v) = false) /\
  (no_match (matches description_patterns) (columns df) ->
   columns df <> [] ->
   _find_description_columns df =
     Returns match filter (is_text df) (columns df) with
             | [] => [hd EmptyString (columns df)]
             | text_cols => text_cols
             end).
Proof.
  intros Hd _.
  assert (text_columns df = filter (is_text df) (columns df)) as E.
  { rewrite text_columns_filter. apply dedup_distinct.
    apply NoDup_filter. now apply distinct_NoDup. }
  split; [exact E|]. split.
  - intros col. rewrite E, filter_In.
    unfold is_text. split.
    + intros [Hc Ht]. split; [assumption|].
      destruct (first_value (column df col)) as [v|]; [|discriminate].
      exists v. split; [reflexivity|]. now apply negb_true_iff.
    + intros [Hc (v & Hv & Hn)]. split; [assumption|].
      now rewrite Hv, Hn.
  - intros Hn Hne. unfold _find_description_columns.
    apply explicit_columns_nil in Hn. rewrite Hn, E.
    destruct (filter (is_text df) (columns df)); [|reflexivity].
    destruct (columns df); [congruence | reflexivity].
Qed.

End HeuristicFacts.

Section DescriptionShape.
Import PyStr PyFloat Pandas SmartCSVProcessor Statements Examples Notions.

Variable to_datetime : list Cell -> list (option Timestamp).

Lemma rstrip_app_tight a b :
  b <> EmptyString -> rstrip b = b -> rstrip (a ++ b) = (a ++ b)%string.
Proof.
  intros Hb Hr. induction a as [|c a IH]; [exact Hr|].
  simpl. rewrite IH. destruct (a ++ b)%string eqn:E; [|reflexivity].
  destruct a; simpl in E; [congruence | discriminate].
Qed.

Lemma tight_left_app a b :
  a <> EmptyString -> tight_left (a ++ b) = tight_left a.
Proof. destruct a; [congruence | reflexivity]. Qed.

Lemma string_app_assoc (a b c : string) : ((a ++ b) ++ c = a ++ (b ++ c))%string.
Proof. induction a as [|x a IH]; simpl; [reflexivity | now rewrite IH]. Qed.

(** A text without white space at either end. *)
Lemma join_trimmed parts :
  parts <> [] ->
  (forall p, In p parts ->
             p <> EmptyString /\ tight_left p = true /\ rstrip p = p) ->
  join " | " parts <> EmptyString /\
  tight_left (join " | " parts) = true /\
  rstrip (join " | " parts) = join " | " parts.
Proof.
  induction parts as [|p ps IH]; [congruence|]. intros _ Hall.
  destruct (Hall p (or_introl eq_refl)) as (Hp & Hl & Hr).
  destruct ps as [|q ps]; [simpl; auto|].
  assert (forall x, In x (q :: ps) ->
                    x <> EmptyString /\ tight_left x = true /\ rstrip x = x) as Hrest
    by (intros x Hx; apply Hall; now right).
  destruct (IH ltac:(discriminate) Hrest) as (Jn & Jl & Jr).
  change (join " | " (p :: q :: ps))
    with (p ++ (" | " ++ join " | " (q :: ps)))%string.
  split; [destruct p; [congruence | discriminate]|].
  split; [now rewrite tight_left_app|].
  rewrite <- string_app_assoc. now apply rstrip_app_tight.
Qed.

Lemma strip_trimmed x :
  tight_left (strip x) = true /\ rstrip (strip x) = strip x.
Proof.
  unfold strip. split; [apply rstrip_tight, lstrip_tight | apply rstrip_idem].
Qed.

Lemma combined_desc_trimmed cols dc row :
  strip (combined_desc (row_parts cols dc row)) = combined_desc (row_parts cols dc row).
Proof.
  unfold combined_desc.
  destruct (row_parts cols dc row) as [|p ps] eqn:E; [reflexivity|].
  assert (forall x, In x (p :: ps) ->
                    x <> EmptyString /\ tight_left x = true /\ rstrip x = x) as Hall.
  { intros x Hx. rewrite <- E in Hx. unfold row_parts in Hx.
    apply filter_In in Hx. destruct Hx as [Hin Hu].
    apply in_map_iff in Hin. destruct Hin as (col & <- & _).
    split; [now apply usable_nonempty | apply strip_trimmed]. }
  destruct (join_trimmed (p :: ps) ltac:(discriminate) Hall) as (_ & Jl & Jr).
  unfold strip. now rewrite (tight_lstrip _ Jl).
Qed.

(** X7.  Every description [_combine_descriptions] builds is non-empty
    and carries no white space at either end, and so does every
    description of a table [process_csv] returns. *)
Theorem descriptions_are_trimmed df :
  (forall dc d, In d (_combine_descriptions df dc) ->
                d <> EmptyString /\ strip d = d) /\
  (forall out r, process_csv to_datetime df = Returns out -> In r out ->
                 description r <> EmptyString /\
                 strip (description r) = description r).
Proof.
  split.
  - intros dc d Hd. unfold _combine_descriptions in Hd.
    apply in_map_iff in Hd. destruct Hd as (row & <- & _).
    split; [apply combined_desc_nonempty | apply combined_desc_trimmed].
  - intros out r H Hr.
    destruct (output_rows_from_table to_datetime df out H)
      as (d & a & dc & _ & _ & _ & Hrows).
    destruct (Hrows r Hr) as (_ & i & row & _ & ->).
    cbn [description]. rewrite <- combined_desc_joined.
    split; [apply combined_desc_nonempty | apply combined_desc_trimmed].
Qed.

End DescriptionShape.

Section NotANumber.
Import PyStr PyFloat Pandas SmartCSVProcessor Statements Examples Notions.

Variable to_datetime : list Cell -> list (option Timestamp).

Local Arguments Ascii.eqb : simpl never.
Local Arguments lower_char : simpl never.

(** *** The rounding of a positive number is a number *)

Lemma shr_1_nonneg mrs : (0 <= shr_m mrs)%Z -> (0 <= shr_m (shr_1 mrs))%Z.
Proof.
  destruct mrs as [m r s0]. simpl.
  destruct m as [|[p|p|]|[p|p|]]; simpl; lia.
Qed.

Lemma iter_pos_keeps {A} (P : A -> Prop) (f : A -> A) :
  (forall x, P x -> P (f x)) -> forall p x, P x -> P (iter_pos f p x).
Proof.
  intros Hf. induction p as [p IH|p IH|]; intros x Hx; simpl; auto.
Qed.

Lemma shr_nonneg mrs e n :
  (0 <= shr_m mrs)%Z -> (0 <= shr_m (fst (shr mrs e n)))%Z.
Proof.
  intros H. unfold shr. destruct n; simpl; try assumption.
  now apply (iter_pos_keeps (fun x => (0 <= shr_m x)%Z) shr_1 shr_1_nonneg).
Qed.

Lemma shr_fexp_nonneg m e l :
  (0 <= m)%Z -> (0 <= shr_m (fst (shr_fexp prec emax m e l)))%Z.
Proof.
  intros H. unfold shr_fexp. apply shr_nonneg.
  destruct l as [|[]]; simpl; assumption.
Qed.

Lemma round_nearest_even_nonneg m l :
  (0 <= m)%Z -> (0 <= round_nearest_even m l)%Z.
Proof.
  intros H. unfold round_nearest_even.
  destruct l as [|[]]; try assumption; [destruct (Z.even m)|]; lia.
Qed.

Lemma binary_round_aux_number sx mx ex lx :
  (0 <= mx)%Z -> binary_round_aux prec emax sx mx ex lx <> S754_nan.
Proof.
  intros H. unfold binary_round_aux.
  pose proof (shr_fexp_nonneg mx ex lx H) as H1.
  destruct (shr_fexp prec emax mx ex lx) as [mrs' e']. simpl in H1.
  pose proof (shr_fexp_nonneg _ e' loc_Exact
                (round_nearest_even_nonneg (shr_m mrs') (loc_of_shr_record mrs') H1)) as H2.
  destruct (shr_fexp prec emax _ e' loc_Exact) as [mrs'' e'']. simpl in H2.
  destruct (shr_m mrs''); [discriminate | | lia].
  destruct (Z.leb e'' (Z.sub emax prec)); discriminate.
Qed.

Lemma of_decimal_number sign m e : of_decimal sign m e <> S754_nan.
Proof.
  unfold of_decimal. destruct m as [|p|p]; try discriminate.
  destruct (0 <=? e)%Z.
  - destruct (Z.pos p * 10 ^ e)%Z; try discriminate.
    unfold binary_round. destruct (shl_align _ _ _) as [mz ez].
    apply binary_round_aux_number. lia.
  - unfold SFdiv, SFdiv_core_binary.
    set (m' := match _ with Zpos _ => _ | Z0 => _ | Zneg _ => _ end).
    assert (0 <= m')%Z as Hm.
    { subst m'. destruct (_ - _ - _)%Z; try lia. apply Z.shiftl_nonneg. lia. }
    pose proof (Z.div_pos m' (Z.pos (Z.to_pos (10 ^ (- e)))) Hm ltac:(lia)) as Hq.
    unfold Z.div in Hq.
    destruct (Z.div_eucl m' (Z.pos (Z.to_pos (10 ^ (- e))))) as [q r].
    now apply binary_round_aux_number.
Qed.

Lemma strtod_number s v r : strtod s = Some (v, r) -> v <> S754_nan.
Proof.
  unfold strtod. destruct (read_sign s) as [sign s0].
  destruct (read_digits 0 0 s0) as [[ip ni] s1].
  destruct (match s1 with
            | EmptyString => (ip, 0%Z, s1)
            | String c t => if Ascii.eqb c "." then read_digits ip 0 t else (ip, 0%Z, s1)
            end) as [[m nf] s2].
  destruct (ni + nf =? 0)%Z; [discriminate|].
  destruct (read_exponent s2) as [e s3].
  intros [= <- _]. apply of_decimal_number.
Qed.

(** *** Characters that survive stripping and lower-casing *)

Lemma contains_underscore s : contains "_" s = any_char (Ascii.eqb "_") s.
Proof.
  induction s as [|c s IH]; [reflexivity|].
  simpl. rewrite IH. f_equal. rewrite andb_comm. now destruct s.
Qed.

Lemma any_char_skip_space P s :
  (forall c, P c = true -> c_space c = false) ->
  any_char P (skip_space s) = any_char P s.
Proof.
  intros HP. induction s as [|c s IH]; [reflexivity|].
  simpl. destruct (c_space c) eqn:E; [|reflexivity].
  rewrite IH. destruct (P c) eqn:Ep; [|reflexivity].
  rewrite (HP c Ep) in E. discriminate.
Qed.

Lemma any_char_drop_trailing_space P s :
  (forall c, P c = true -> c_space c = false) ->
  any_char P (drop_trailing_space s) = any_char P s.
Proof.
  intros HP. induction s as [|c s IH]; [reflexivity|].
  simpl. rewrite <- IH. destruct (drop_trailing_space s); [|reflexivity].
  simpl. destruct (c_space c) eqn:E; simpl; [|reflexivity].
  destruct (P c) eqn:Ep; [|reflexivity].
  rewrite (HP c Ep) in E. discriminate.
Qed.

Lemma any_char_lower P s :
  (forall c, P (lower_char c) = P c) -> any_char P (lower s) = any_char P s.
Proof.
  intros HP. induction s as [|c s IH]; [reflexivity|].
  simpl. now rewrite HP, IH.
Qed.

Lemma digit_not_space c : is_digit c = true -> c_space c = false.
Proof. each_char c. Qed.

Lemma digit_lower c : is_digit (lower_char c) = is_digit c.
Proof. each_char c. Qed.

Lemma underscore_not_space c : Ascii.eqb "_" c = true -> c_space c = false.
Proof. each_char c. Qed.

Lemma underscore_lower c : Ascii.eqb "_" (lower_char c) = Ascii.eqb "_" c.
Proof. each_char c. Qed.

(** A character that is no white space and is the same in lower case
    shows in the stripped lower-case text exactly when it shows in the
    text. *)
Lemma any_char_core P s :
  (forall c, P c = true -> c_space c = false) ->
  (forall c, P (lower_char c) = P c) ->
  any_char P (lower (drop_trailing_space (skip_space s))) = any_char P s.
Proof.
  intros H1 H2.
  now rewrite any_char_lower, any_char_drop_trailing_space, any_char_skip_space.
Qed.

Lemma spells_nan_chars P s :
  (forall c, P c = true -> c_space c = false) ->
  (forall c, P (lower_char c) = P c) ->
  P "n"%char = false -> P "a"%char = false ->
  P "+"%char = false -> P "-"%char = false ->
  spells_nan s = true -> any_char P s = false.
Proof.
  intros H1 H2 Hn Ha Hp Hm H. rewrite <- (any_char_core P s H1 H2).
  unfold spells_nan in H. cbv zeta in H.
  apply orb_prop in H. destruct H as [H | H]; [apply orb_prop in H; destruct H as [H | H]|];
    apply String.eqb_eq in H; rewrite H; simpl; rewrite ?Hn, ?Ha, ?Hp, ?Hm; reflexivity.
Qed.

(** *** When [float] gives NaN *)

Lemma substring_all s : substring 0 (String.length s) s = s.
Proof. induction s as [|c s IH]; simpl; [reflexivity | now rewrite IH]. Qed.

Lemma lower_char_n c : lower_char c = "n"%char -> c = "n"%char \/ c = "N"%char.
Proof.
  intros H. assert (Ascii.eqb "n" (lower_char c) = true) as E
    by (rewrite H; reflexivity).
  revert E. clear H. each_char c; intros _; auto.
Qed.

Lemma lower_char_a c : lower_char c = "a"%char -> c = "a"%char \/ c = "A"%char.
Proof.
  intros H. assert (Ascii.eqb "a" (lower_char c) = true) as E
    by (rewrite H; reflexivity).
  revert E. clear H. each_char c; intros _; auto.
Qed.

Lemma lower_char_plus c : lower_char c = "+"%char -> c = "+"%char.
Proof.
  intros H. assert (Ascii.eqb "+" (lower_char c) = true) as E
    by (rewrite H; reflexivity).
  revert E. clear H. each_char c.
Qed.

Lemma lower_char_minus c : lower_char c = "-"%char -> c = "-"%char.
Proof.
  intros H. assert (Ascii.eqb "-" (lower_char c) = true) as E
    by (rewrite H; reflexivity).
  revert E. clear H. each_char c.
Qed.

Lemma lower_nan_word t :
  lower t = "nan" ->
  exists a b c, t = String a (String b (String c EmptyString)) /\
                (a = "n"%char \/ a = "N"%char) /\
                (b = "a"%char \/ b = "A"%char) /\
                (c = "n"%char \/ c = "N"%char).
Proof.
  intros H. destruct t as [|a [|b [|c [|d r]]]]; simpl in H; try discriminate.
  injection H as Ha Hb Hc. exists a, b, c.
  auto using lower_char_n, lower_char_a.
Qed.

Lemma spelled_nan_parse t :
  lower t = "nan" \/ lower t = "+nan" \/ lower t = "-nan" ->
  parse_inf_or_nan t = Some (S754_nan, EmptyString).
Proof.
  intros [H | [H | H]].
  - destruct (lower_nan_word t H) as (a & b & c & -> & [-> | ->] & [-> | ->] & [-> | ->]);
      reflexivity.
  - destruct t as [|s0 t]; simpl in H; [discriminate|].
    injection H as Hs Ht. apply lower_char_plus in Hs. subst s0.
    destruct (lower_nan_word t Ht) as (a & b & c & -> & [-> | ->] & [-> | ->] & [-> | ->]);
      reflexivity.
  - destruct t as [|s0 t]; simpl in H; [discriminate|].
    injection H as Hs Ht. apply lower_char_minus in Hs. subst s0.
    destruct (lower_nan_word t Ht) as (a & b & c & -> & [-> | ->] & [-> | ->] & [-> | ->]);
      reflexivity.
Qed.

Lemma parse_nan_spelled t :
  parse_inf_or_nan t = Some (S754_nan, EmptyString) ->
  lower t = "nan" \/ lower t = "+nan" \/ lower t = "-nan".
Proof.
  unfold parse_inf_or_nan. destruct (read_sign t) as [sign t'] eqn:Es.
  destruct (startswith "inf" (lower (substring 0 3 t'))).
  { destruct (startswith "inity" _); discriminate. }
  destruct (startswith "nan" (lower (substring 0 3 t'))) eqn:En; [|discriminate].
  intros [= Hrest].
  assert (lower t' = "nan") as Ht'.
  { destruct t' as [|a [|b [|c rest]]]; simpl in En;
      rewrite ?andb_false_r in En; try discriminate.
    simpl in Hrest. rewrite Nat.sub_0_r, substring_all in Hrest. subst rest.
    apply andb_prop in En. destruct En as [Ea En].
    apply andb_prop in En. destruct En as [Eb En].
    apply andb_prop in En. destruct En as [Ec _].
    apply Ascii.eqb_eq in Ea, Eb, Ec.
    simpl. now rewrite <- Ea, <- Eb, <- Ec. }
  unfold read_sign in Es. destruct t as [|c0 t0].
  { injection Es as _ <-. discriminate. }
  destruct (Ascii.eqb c0 "-") eqn:E1.
  { apply Ascii.eqb_eq in E1. injection Es as _ <-. subst c0.
    right. right. cbn [lower]. now rewrite Ht'. }
  destruct (Ascii.eqb c0 "+") eqn:E2.
  { apply Ascii.eqb_eq in E2. injection Es as _ <-. subst c0.
    right. left. cbn [lower]. now rewrite Ht'. }
  injection Es as _ <-. now left.
Qed.

Lemma spells_nan_iff s :
  spells_nan s = true <->
  let u := lower (drop_trailing_space (skip_space s)) in
  u = "nan" \/ u = "+nan" \/ u = "-nan".
Proof.
  unfold spells_nan. cbv zeta.
  rewrite !orb_true_iff, !String.eqb_eq. tauto.
Qed.

Lemma float_inner_nan s : float_inner s = Some S754_nan <-> spells_nan s = true.
Proof.
  rewrite spells_nan_iff. cbv zeta. unfold float_inner.
  destruct (skip_space s) as [|a s1] eqn:E.
  { split; [discriminate|]. simpl. intros [H | [H | H]]; discriminate. }
  set (s2 := drop_trailing_space (String a s1)). split.
  - destruct (parse_inf_or_nan s2) as [[v rest]|] eqn:Ep.
    + destruct rest; [|discriminate]. intros [= ->]. now apply parse_nan_spelled.
    + destruct (strtod s2) as [[v [|c r]]|] eqn:Et; try discriminate.
      intros [= ->]. now apply strtod_number in Et.
  - intros H. now rewrite (spelled_nan_parse s2 H).
Qed.

Lemma underscores_need_digit prev s :
  underscores_ok prev s = true ->
  any_char (Ascii.eqb "_") s = true ->
  match prev with Some p => is_digit p | None => false end = true \/
  any_char is_digit s = true.
Proof.
  revert prev. induction s as [|c s IH]; intros prev Hok Hu; [discriminate|].
  simpl in Hok, Hu. apply andb_prop in Hok. destruct Hok as [Hc Hok].
  destruct (Ascii.eqb c "_") eqn:E.
  - now left.
  - rewrite Ascii.eqb_sym, E in Hu. simpl in Hu.
    right. simpl. destruct (IH (Some c) Hok Hu) as [H | H]; rewrite H;
      [reflexivity | apply orb_true_r].
Qed.

Lemma remove_underscore_digits s :
  any_char is_digit (remove "_" s) = any_char is_digit s.
Proof.
  unfold remove. induction s as [|c s IH]; [reflexivity|].
  simpl. destruct (Ascii.eqb "_" c) eqn:E; simpl.
  - apply Ascii.eqb_eq in E. subst c. simpl.
    replace (match s with EmptyString | _ => true end) with true by now destruct s.
    exact IH.
  - now rewrite IH.
Qed.

(** [float] gives NaN on the texts that spell [nan], and on no other. *)
Lemma float_nan s : float s = Some S754_nan <-> spells_nan s = true.
Proof.
  unfold float. rewrite contains_underscore.
  destruct (any_char (Ascii.eqb "_") s) eqn:Eu; [|apply float_inner_nan].
  split.
  - destruct (underscores_ok None s) eqn:Eok; [|discriminate].
    intros H. apply float_inner_nan in H. exfalso.
    destruct (underscores_need_digit None s Eok Eu) as [Hd | Hd]; [discriminate|].
    rewrite <- remove_underscore_digits in Hd.
    rewrite (spells_nan_chars is_digit _ digit_not_space digit_lower
               eq_refl eq_refl eq_refl eq_refl H) in Hd.
    discriminate.
  - intros H. exfalso.
    rewrite (spells_nan_chars (Ascii.eqb "_") s underscore_not_space underscore_lower
               eq_refl eq_refl eq_refl eq_refl H) in Eu.
    discriminate.
Qed.

Lemma clean_amount_nan v :
  _clean_amount v = S754_nan <->
  exists s, v = CStr s /\ spells_nan (cleaned s) = true.
Proof.
  unfold _clean_amount. destruct v as [s| |]; simpl.
  - split.
    + intros H. exists s. split; [reflexivity|]. apply float_nan.
      destruct (float (cleaned s)) as [x|]; [now subst | discriminate].
    + intros (s' & [= <-] & H). apply float_nan in H. now rewrite H.
  - split; [discriminate | intros (s & H & _); discriminate].
  - split; [discriminate | intros (s & H & _); discriminate].
Qed.

Lemma notna_iff x : notna x = true <-> x <> S754_nan.
Proof. destruct x; simpl; split; congruence. Qed.

(** X8.  On a plain cell (a missing value, or a text that is ASCII but
    for pound and euro signs) [_clean_amount] gives NaN exactly when the
    cell is a text whose cleaned form spells [nan] (any case, an
    optional sign, white space around), and never on a missing cell.
    So, on a frame whose labels are ASCII texts that stay distinct once
    lower-cased and stripped and whose text cells are plain, with a
    single amount column the canonical row of an input row is in the
    returned table exactly when the date of the row parsed and its
    amount cell does not spell [nan]. *)
Theorem amount_lost_only_on_nan_text :
  (forall v, plain_cell v = true ->
             (_clean_amount v = S754_nan <->
              exists s, v = CStr s /\ spells_nan (cleaned s) = true)) /\
  (forall df out col,
      plain_frame df = true ->
      let df' := set_columns (map normalize (columns df)) df in
      _find_amount_column (columns df') = Some (Single col) ->
      process_csv to_datetime df = Returns out ->
      exists d dc,
        _find_column (columns df') date_patterns = Some d /\
        _find_description_columns df' = Returns dc /\
        let dates := to_datetime (column df' d) in
        forall i row,
          nth_error (rows df) i = Some row ->
          (In (canonical_row dates (columns df') (Single col) dc i row) out <->
           nth i dates None <> None /\
           forall s, row_get (columns df') row col = CStr s ->
                     spells_nan (cleaned s) = false)).
Proof.
  split; [intros v _; apply clean_amount_nan|].
  intros df out col _ df' Hcol H.
  destruct (process_csv_canonical to_datetime df out H)
    as (d & a & dc & Hd & Ha & Hdc & Hperm).
  fold df' in Hd, Ha, Hdc, Hperm. rewrite Hcol in Ha. injection Ha as <-.
  exists d, dc. split; [exact Hd|]. split; [exact Hdc|]. cbv zeta.
  intros i row Hrow.
  destruct (kept_canonical_rows keeps _ _ _ _ _ _ Hperm) as (_ & Hin & _).
  rewrite (Hin i row Hrow), keeps_canonical. cbn [row_amount].
  split.
  - intros [Hdate Hnum]. split; [assumption|].
    intros s Hs. destruct (spells_nan (cleaned s)) eqn:Esp; [|reflexivity].
    exfalso. apply Hnum. apply clean_amount_nan. now exists s.
  - intros [Hdate Hs]. split; [assumption|]. intros Hnan.
    apply clean_amount_nan in Hnan. destruct Hnan as (s & Hc & Hsp).
    rewrite (Hs s Hc) in Hsp. discriminate.
Qed.

End NotANumber.

Section NumericLook.
Import PyStr PyFloat Pandas SmartCSVProcessor Statements Examples Notions.

Local Arguments Ascii.eqb : simpl never.

Lemma skip_digits_split s :
  exists d, s = (d ++ skip_digits s)%string /\ all_digits d = true.
Proof.
  induction s as [|c s (d & Hd & Ha)]; [now exists EmptyString|].
  simpl. destruct (is_digit c) eqn:E.
  - exists (String c d). simpl. rewrite E, Ha. split; [now rewrite <- Hd | reflexivity].
  - now exists EmptyString.
Qed.

Lemma skip_digits_app d s :
  all_digits d = true -> skip_digits (d ++ s) = skip_digits s.
Proof.
  induction d as [|c d IH]; [reflexivity|].
  simpl. intros H. apply andb_prop in H. destruct H as [Hc Hd].
  rewrite Hc. now apply IH.
Qed.

Lemma at_end_iff s : at_end s = true <-> s = EmptyString \/ s = line_feed_text.
Proof.
  unfold line_feed_text. destruct s as [|c [|d s]]; simpl; split; auto.
  - intros H. apply Ascii.eqb_eq in H. subst c. now right.
  - intros [H | H]; [discriminate|]. injection H as ->. reflexivity.
  - discriminate.
  - intros [H | H]; discriminate.
Qed.

Lemma skip_digits_end s : at_end s = true -> skip_digits s = s.
Proof.
  intros H. apply at_end_iff in H. destruct H as [-> | ->]; reflexivity.
Qed.

(** X9.  What the heuristic takes for a number: [looks_numeric], the
    regular expression of [_find_description_columns], accepts exactly
    one or more digits, then at most one point or comma, then digits,
    then at most one line feed.  A text with a sign, an exponent or a
    currency sign is not a number for it. *)
Theorem looks_numeric_language s :
  looks_numeric s = true <->
  exists d1 sep d2 nl,
    s = (d1 ++ sep ++ d2 ++ nl)%string /\
    d1 <> EmptyString /\ all_digits d1 = true /\ all_digits d2 = true /\
    (sep = EmptyString \/ sep = "." \/ sep = ",") /\
    (nl = EmptyString \/ nl = line_feed_text).
Proof.
  split.
  - unfold looks_numeric. destruct s as [|c s]; [discriminate|].
    intros H. apply andb_prop in H. destruct H as [Hc H].
    assert (skip_digits (String c s) = skip_digits s) as E0
      by (simpl; now rewrite Hc).
    rewrite E0 in H.
    destruct (skip_digits_split s) as (d & Hs & Hd).
    assert (all_digits (String c d) = true) as Hd1 by (simpl; now rewrite Hc, Hd).
    destruct (skip_digits s) as [|x t] eqn:E.
    + exists (String c d), EmptyString, EmptyString, EmptyString.
      split; [simpl; now rewrite Hs at 1|].
      repeat split; auto. discriminate.
    + destruct (Ascii.eqb x "." || Ascii.eqb x ",") eqn:Esep.
      * destruct (skip_digits_split t) as (d2 & Ht & Hd2).
        apply at_end_iff in H.
        exists (String c d), (String x EmptyString), d2, (skip_digits t).
        split; [simpl; rewrite Hs at 1; now rewrite Ht at 1|].
        repeat split; auto; [discriminate|].
        apply orb_prop in Esep. destruct Esep as [Ed | Ed];
          apply Ascii.eqb_eq in Ed; subst x; auto.
      * apply at_end_iff in H. destruct H as [H | H]; [discriminate|].
        exists (String c d), EmptyString, EmptyString, line_feed_text.
        split; [simpl; rewrite Hs at 1; now rewrite H|].
        repeat split; auto. discriminate.
  - intros (d1 & sep & d2 & nl & -> & Hne & Hd1 & Hd2 & Hsep & Hnl).
    assert (at_end nl = true) as Hend by (apply at_end_iff; exact Hnl).
    unfold looks_numeric.
    destruct d1 as [|c d1]; [congruence|]. simpl in Hd1.
    apply andb_prop in Hd1. destruct Hd1 as [Hc Hd1].
    cbn [append]. rewrite Hc. cbn [andb].
    change (String c (d1 ++ sep ++ d2 ++ nl))%string
      with (String c d1 ++ (sep ++ d2 ++ nl))%string.
    rewrite skip_digits_app by (simpl; now rewrite Hc, Hd1).
    destruct Hsep as [-> | [-> | ->]].
    + cbn [append]. rewrite (skip_digits_app d2 nl Hd2), (skip_digits_end nl Hend).
      destruct Hnl as [-> | ->]; reflexivity.
    + simpl. now rewrite (skip_digits_app d2 nl Hd2), (skip_digits_end nl Hend).
    + simpl. now rewrite (skip_digits_app d2 nl Hd2), (skip_digits_end nl Hend).
Qed.

End NumericLook.

(** ** Properties of [categorizer.py] *)

Section CategorizerFacts.
Import PyStr PyFloat TransactionCategorizer CategorizerNotions.

Lemma closest_In category cats cat : closest category cats = Some cat -> In cat cats.
Proof.
  induction cats as [|c cats IH]; simpl; [discriminate|].
  destruct (_ || _); [intros [= <-]; now left | intros H; right; now apply IH].
Qed.

Lemma closest_by_lower category cats :
  closest category cats = closest_lowered (lower category) cats.
Proof. induction cats as [|c cats IH]; simpl; [reflexivity | now rewrite IH]. Qed.

Lemma categorize_transaction_In run description amount :
  In (categorize_transaction run description amount) CATEGORIES.
Proof.
  assert (In "Other" CATEGORIES) as Hother by (simpl; tauto).
  unfold categorize_transaction. destruct amount as [s|x]; [exact Hother|].
  destruct (run description (abs x) categories_text) as [result|e]; [|exact Hother].
  cbv zeta. destruct (mem (strip result) CATEGORIES) eqn:E.
  - now apply mem_In.
  - destruct (closest (strip result) CATEGORIES) as [cat|] eqn:Ec; [|exact Hother].
    now apply closest_In in Ec.
Qed.

(** X10.  Whatever the model replies, and also when the call raises,
    [categorize_transaction] returns one of the fourteen names of
    [CATEGORIES]. *)
Theorem category_is_listed run description amount :
  In (categorize_transaction run description amount) CATEGORIES.
Proof. apply categorize_transaction_In. Qed.

(** X11.  A reply that is empty or all white space is filed under
    ["Groceries"], the first category, and not under ["Other"]: the
    empty text is contained in every category name. *)
Theorem blank_reply_is_groceries run description x result :
  run description (abs x) categories_text = Done result ->
  strip result = EmptyString ->
  categorize_transaction run description (VNum x) = "Groceries".
Proof.
  intros Hrun Hblank. unfold categorize_transaction.
  rewrite Hrun. cbv zeta. rewrite Hblank. reflexivity.
Qed.

(** X12.  The reply is matched without regard to case: a reply that is,
    once stripped, a category name in any mix of cases gives that
    category. *)
Theorem category_match_ignores_case run description x result cat :
  run description (abs x) categories_text = Done result ->
  In cat CATEGORIES ->
  lower (strip result) = lower cat ->
  categorize_transaction run description (VNum x) = cat.
Proof.
  intros Hrun Hcat Hlow. unfold categorize_transaction.
  rewrite Hrun. cbv zeta.
  destruct (mem (strip result) CATEGORIES) eqn:E.
  - apply mem_In in E. revert Hlow. generalize dependent (strip result).
    intros category Hin Hlow.
    simpl in Hin, Hcat.
    repeat (destruct Hin as [<- | Hin]; [
      repeat (destruct Hcat as [<- | Hcat]; [
        first [reflexivity | vm_compute in Hlow; discriminate Hlow] |]);
      destruct Hcat |]).
    destruct Hin.
  - rewrite closest_by_lower, Hlow. clear Hlow E Hrun.
    simpl in Hcat.
    repeat (destruct Hcat as [<- | Hcat]; [reflexivity|]).
    destruct Hcat.
Qed.

Lemma dict_get_set_same {V} (d : PyDict.dict V) k v :
  PyDict.get (PyDict.set d k v) k = Some v.
Proof.
  induction d as [|[k' v'] d IH]; simpl.
  - now rewrite String.eqb_refl.
  - destruct (String.eqb k' k) eqn:E; simpl; rewrite E; [reflexivity | exact IH].
Qed.

Lemma dict_get_set_other {V} (d : PyDict.dict V) k k' v :
  k' <> k -> PyDict.get (PyDict.set d k v) k' = PyDict.get d k'.
Proof.
  intros Hk. induction d as [|[k0 v0] d IH]; simpl.
  - destruct (String.eqb k k') eqn:E; [|reflexivity].
    apply String.eqb_eq in E. congruence.
  - destruct (String.eqb k0 k) eqn:E; simpl.
    + destruct (String.eqb k0 k') eqn:E'; [|reflexivity].
      apply String.eqb_eq in E, E'. congruence.
    + now rewrite IH.
Qed.

Lemma categorize_from_spec run j ts :
  (forallb has_keys ts = true ->
   exists out,
     categorize_from run j ts = Done out /\
     List.length out = List.length ts /\
     forall i t,
       nth_error ts i = Some t ->
       exists d a,
         PyDict.get t "description" = Some d /\
         PyDict.get t "amount" = Some a /\
         nth_error out i =
           Some (PyDict.set t "category"
                   (VStr (categorize_transaction (run (j + i)) d a)))) /\
  (forallb has_keys ts = false ->
   exists key,
     categorize_from run j ts = Fails (KeyError key) /\
     (key = "description" \/ key = "amount")).
Proof.
  revert j. induction ts as [|t ts IH]; intros j.
  - split; [|discriminate]. intros _. exists []. repeat split.
    intros i t H. destruct i; discriminate.
  - simpl. unfold has_keys at 1 3. unfold PyDict.has.
    destruct (PyDict.get t "description") as [d|] eqn:Ed.
    2:{ split; [discriminate|]. intros _. exists "description". auto. }
    destruct (PyDict.get t "amount") as [a|] eqn:Ea.
    2:{ split; [discriminate|]. intros _. exists "amount". auto. }
    cbn [andb]. destruct (IH (S j)) as [IHok IHko]. split.
    + intros H. destruct (IHok H) as (out & -> & Hlen & Hnth).
      eexists. split; [reflexivity|]. split; [simpl; now rewrite Hlen|].
      intros i t' Hi. destruct i as [|i]; simpl in Hi.
      * injection Hi as <-. exists d, a. rewrite Nat.add_0_r. auto.
      * destruct (Hnth i t' Hi) as (d' & a' & Hd' & Ha' & Ho).
        exists d', a'. rewrite Nat.add_succ_r. auto.
    + intros H. destruct (IHko H) as (key & -> & Hkey). now exists key.
Qed.

(** X13.  [categorize_batch] keeps the transactions and their order:
    when every transaction has a [description] and an [amount] it
    returns as many transactions as it got, each with all its keys and
    values untouched except [category], which holds a name of
    [CATEGORIES].  When a transaction lacks one of the two keys the whole
    batch raises [KeyError]. *)
Theorem batch_keeps_transactions run ts :
  (forallb has_keys ts = true ->
   exists out,
     categorize_batch run ts = Done out /\
     List.length out = List.length ts /\
     forall i t,
       nth_error ts i = Some t ->
       exists o c,
         nth_error out i = Some o /\
         In c CATEGORIES /\
         PyDict.get o "category" = Some (VStr c) /\
         forall key, key <> "category" -> PyDict.get o key = PyDict.get t key) /\
  (forallb has_keys ts = false ->
   exists key,
     categorize_batch run ts = Fails (KeyError key) /\
     (key = "description" \/ key = "amount")).
Proof.
  unfold categorize_batch. destruct (categorize_from_spec run 0 ts) as [Hok Hko].
  split; [|exact Hko].
  intros H. destruct (Hok H) as (out & Hout & Hlen & Hnth).
  exists out. split; [assumption|]. split; [assumption|].
  intros i t Hi. destruct (Hnth i t Hi) as (d & a & _ & _ & Ho).
  eexists. exists (categorize_transaction (run (0 + i)) d a).
  split; [exact Ho|]. split; [apply categorize_transaction_In|].
  split; [apply dict_get_set_same|].
  intros key Hkey. now apply dict_get_set_other.
Qed.

End CategorizerFacts.

(** ** Properties of [plaid_connector.py] *)

Section RegistryFacts.
Import PyStr PyFloat PlaidConnector PlaidNotions.

Lemma dict_keys_set {V} (d : PyDict.dict V) k v :
  PyDict.keys (PyDict.set d k v) =
    if PyDict.has d k then PyDict.keys d else PyDict.keys d ++ [k].
Proof.
  unfold PyDict.has, PyDict.keys. induction d as [|[k' v'] d IH]; simpl; [reflexivity|].
  destruct (String.eqb k' k) eqn:E; simpl; [reflexivity|].
  rewrite IH. now destruct (PyDict.get d k).
Qed.

Lemma dict_has_keys {V} (d : PyDict.dict V) k :
  PyDict.has d k = true <-> In k (PyDict.keys d).
Proof.
  unfold PyDict.has, PyDict.keys. induction d as [|[k' v'] d IH]; simpl.
  - split; [discriminate | intros []].
  - destruct (String.eqb k' k) eqn:E.
    + apply String.eqb_eq in E. split; auto.
    + apply String.eqb_neq in E. rewrite IH. split; [auto | intros [H | H]; [congruence | assumption]].
Qed.

Lemma dict_keys_del {V} (d : PyDict.dict V) k :
  NoDup (PyDict.keys d) ->
  PyDict.keys (PyDict.del d k) =
    filter (fun k' => negb (String.eqb k' k)) (PyDict.keys d).
Proof.
  unfold PyDict.keys. induction d as [|[k' v'] d IH]; simpl; [reflexivity|].
  intros H. inversion H as [|? ? Hnot Hnd]; subst.
  destruct (String.eqb k' k) eqn:E; simpl.
  - apply String.eqb_eq in E. subst k'.
    symmetry. apply forallb_filter_id. apply forallb_forall.
    intros x Hx. apply negb_true_iff, String.eqb_neq. intros ->. contradiction.
  - now rewrite IH.
Qed.

Lemma dict_get_del_other {V} (d : PyDict.dict V) k k' :
  k' <> k -> PyDict.get (PyDict.del d k) k' = PyDict.get d k'.
Proof.
  intros Hk. induction d as [|[k0 v0] d IH]; simpl; [reflexivity|].
  destruct (String.eqb k0 k) eqn:E; simpl.
  - destruct (String.eqb k0 k') eqn:E'; [|reflexivity].
    apply String.eqb_eq in E, E'. congruence.
  - now rewrite IH.
Qed.

Lemma dict_set_NoDup {V} (d : PyDict.dict V) k v :
  NoDup (PyDict.keys d) -> NoDup (PyDict.keys (PyDict.set d k v)).
Proof.
  intros H. rewrite dict_keys_set. destruct (PyDict.has d k) eqn:E; [assumption|].
  apply NoDup_app; [assumption | repeat constructor; intros [] | ].
  intros x Hx [<- | []]. apply dict_has_keys in Hx. congruence.
Qed.

Lemma dict_del_NoDup {V} (d : PyDict.dict V) k :
  NoDup (PyDict.keys d) -> NoDup (PyDict.keys (PyDict.del d k)).
Proof. intros H. rewrite dict_keys_del by assumption. now apply NoDup_filter. Qed.

(** X14.  [remove_account] forgets the account and nothing else: it
    returns whether the account was connected; afterwards the account is
    not listed, the other accounts keep their entries and their order, a
    second removal returns [False], and [get_transactions] on the account
    raises [ValueError] without asking the service. *)
Theorem remove_account_forgets transactions_get tokens name :
  NoDup (PyDict.keys tokens) ->
  let removed := remove_account tokens name in
  fst removed = PyDict.has tokens name /\
  ~ In name (list_connected_accounts (snd removed)) /\
  list_connected_accounts (snd removed)
    = filter (fun k => negb (String.eqb k name)) (list_connected_accounts tokens) /\
  (forall other, other <> name ->
                 PyDict.get (snd removed) other = PyDict.get tokens other) /\
  NoDup (PyDict.keys (snd removed)) /\
  fst (remove_account (snd removed) name) = false /\
  (forall fuel today start_date end_date days_back,
      exists msg,
        get_transactions transactions_get fuel today (snd removed) name
          start_date end_date days_back
        = Some (Fails (Builtin (ValueError msg)))).
Proof.
  intros Hnd removed.
  assert (list_connected_accounts (snd removed)
          = filter (fun k => negb (String.eqb k name)) (list_connected_accounts tokens))
    as Hkeys.
  { unfold removed, remove_account, list_connected_accounts.
    destruct (PyDict.has tokens name) eqn:E; simpl.
    - now apply dict_keys_del.
    - symmetry. apply forallb_filter_id. apply forallb_forall.
      intros x Hx. apply negb_true_iff, String.eqb_neq. intros ->.
      apply dict_has_keys in Hx. congruence. }
  assert (~ In name (list_connected_accounts (snd removed))) as Hout.
  { rewrite Hkeys. intros H. apply filter_In in H. destruct H as [_ H].
    now rewrite String.eqb_refl in H. }
  assert (PyDict.has (snd removed) name = false) as Hhas.
  { destruct (PyDict.has (snd removed) name) eqn:E; [|reflexivity].
    apply dict_has_keys in E. contradiction. }
  split; [unfold removed, remove_account; now destruct (PyDict.has tokens name)|].
  split; [exact Hout|]. split; [exact Hkeys|].
  split.
  { intros other Ho. unfold removed, remove_account.
    destruct (PyDict.has tokens name); simpl; [now apply dict_get_del_other | reflexivity]. }
  split.
  { unfold removed, remove_account.
    destruct (PyDict.has tokens name); simpl; [now apply dict_del_NoDup | assumption]. }
  split; [unfold remove_account at 1; now rewrite Hhas|].
  intros fuel today sd ed db. unfold get_transactions.
  unfold PyDict.has in Hhas.
  destruct (PyDict.get (snd removed) name); [discriminate|].
  eexists. reflexivity.
Qed.

(** X15.  [exchange_public_token] stores the token under the name given:
    on success the account is listed once, at its old place if it was
    connected and last otherwise, its entry holds the new token and item
    id, and the other accounts are untouched; when the service refuses,
    the reply carries the error and the accounts are as before. *)
Theorem exchange_stores_token exchange tokens public_token name :
  NoDup (PyDict.keys tokens) ->
  let result := exchange_public_token exchange tokens public_token name in
  match exchange public_token with
  | ApiOk (token, item) =>
      fst result = Exchanged item name /\
      PyDict.get (snd result) name
        = Some {| access_token := token; item_id := item |} /\
      list_connected_accounts (snd result)
        = (if PyDict.has tokens name
           then list_connected_accounts tokens
           else list_connected_accounts tokens ++ [name]) /\
      (forall other, other <> name ->
                     PyDict.get (snd result) other = PyDict.get tokens other) /\
      NoDup (list_connected_accounts (snd result))
  | ApiError e => result = (NotExchanged e, tokens)
  end.
Proof.
  intros Hnd result. unfold result, exchange_public_token.
  destruct (exchange public_token) as [[token item]|e]; [|reflexivity].
  simpl. split; [reflexivity|].
  split; [apply dict_get_set_same|].
  split; [apply dict_keys_set|].
  split; [intros other Ho; now apply dict_get_set_other|].
  now apply dict_set_NoDup.
Qed.

End RegistryFacts.

Section FetchFacts.
Import PyStr PyFloat PlaidConnector PlaidNotions.

Lemma to_row_set txn :
  category_set txn = true -> to_row txn = Done (row_of txn, txn_pending txn).
Proof.
  unfold category_set, to_row, row_of. now destruct (txn_category txn).
Qed.

Lemma to_row_null txn :
  category_set txn = false ->
  to_row txn = Fails (TypeError "can only join an iterable").
Proof.
  unfold category_set, to_row. now destruct (txn_category txn).
Qed.

Lemma df_data_done txns :
  forallb category_set txns = true ->
  df_data txns = Done (map (fun t => (row_of t, txn_pending t)) txns).
Proof.
  induction txns as [|t txns IH]; [reflexivity|].
  simpl. intros H. apply andb_prop in H. destruct H as [Ht H].
  now rewrite (to_row_set t Ht), (IH H).
Qed.

Lemma df_data_fails txns :
  forallb category_set txns = false ->
  df_data txns = Fails (TypeError "can only join an iterable").
Proof.
  induction txns as [|t txns IH]; [discriminate|].
  simpl. destruct (category_set t) eqn:Et; simpl.
  - intros H. now rewrite (to_row_set t Et), (IH H).
  - intros _. now rewrite (to_row_null t Et).
Qed.

Lemma posted_rows txns :
  map fst (filter (fun r : Row * bool => negb (snd r))
             (map (fun t => (row_of t, txn_pending t)) txns))
  = map row_of (filter posted txns).
Proof.
  induction txns as [|t txns IH]; [reflexivity|].
  simpl. unfold posted at 1. destruct (txn_pending t); simpl; now rewrite IH.
Qed.

(** What [get_transactions] makes of the transactions it fetched. *)
Lemma frame_of_fetched txns :
  match df_data txns with
  | Fails e => Fails e
  | Done data => to_frame data
  end =
  if forallb category_set txns
  then match txns with
       | [] => Fails (KeyError "pending")
       | _ => Done (map row_of (filter posted txns))
       end
  else match df_data txns with Fails e => Fails e | Done _ => Fails (KeyError "pending") end.
Proof.
  destruct (forallb category_set txns) eqn:E.
  - rewrite (df_data_done txns E). destruct txns as [|t txns]; [reflexivity|].
    unfold to_frame. cbn [map]. rewrite <- posted_rows. reflexivity.
  - now rewrite (df_data_fails txns E).
Qed.




(** X17.  An account without a transaction in the period makes
    [get_transactions] raise [KeyError]: the frame built from no
    transaction has no [pending] column to filter on. *)
Theorem no_transactions_is_key_error
  transactions_get fuel today tokens name entry start_date end_date days_back :
  PyDict.get tokens name = Some entry ->
  (forall request,
      transactions_get 0 request
      = ApiOk {| transactions := []; total_transactions := 0 |}) ->
  get_transactions transactions_get fuel today tokens name start_date end_date days_back
    = Some (Fails (KeyError "pending")).
Proof.
  intros Hentry Hapi. unfold get_transactions. rewrite Hentry. cbv zeta.
  rewrite Hapi. cbn [transactions total_transactions].
  destruct fuel; reflexivity.
Qed.

Lemma fetch_more_stalled transactions_get token start_date end_date :
  (forall k request,
      exists total,
        0 < total /\
        transactions_get k request
        = ApiOk {| transactions := []; total_transactions := total |}) ->
  forall fuel k total,
    0 < total ->
    fetch_more transactions_get fuel k token start_date end_date [] total = None.
Proof.
  intros Hapi. induction fuel as [|fuel IH]; intros k total Ht; simpl.
  - destruct total; [lia | reflexivity].
  - destruct total as [|total]; [lia|]. simpl.
    destruct (Hapi k {| req_access_token := token; req_start_date := start_date;
                        req_end_date := end_date; req_offset := Some 0 |})
      as (total' & Ht' & ->).
    cbn [transactions total_transactions app]. now apply IH.
Qed.

(** X18.  The paging loop of [get_transactions] has no way out when the
    service keeps answering with an empty page while reporting
    transactions: however many rounds it is given, the call is still
    running. *)
Theorem empty_pages_never_end
  transactions_get today tokens name entry start_date end_date days_back :
  PyDict.get tokens name = Some entry ->
  (forall k request,
      exists total,
        0 < total /\
        transactions_get k request
        = ApiOk {| transactions := []; total_transactions := total |}) ->
  forall fuel,
    get_transactions transactions_get fuel today tokens name start_date end_date days_back
      = None.
Proof.
  intros Hentry Hapi fuel. unfold get_transactions. rewrite Hentry. cbv zeta.
  match goal with
  | |- context [transactions_get 0 ?request] =>
      destruct (Hapi 0 request) as (total & Ht & ->)
  end.
  cbn [transactions total_transactions].
  now rewrite (fetch_more_stalled transactions_get _ _ _ Hapi fuel 1 total Ht).
Qed.

Lemma firstn_next {A} (n m : nat) (l : list A) :
  firstn n l ++ firstn m (skipn n l) = firstn (n + m) l.
Proof.
  revert l. induction n as [|n IH]; intros l; [reflexivity|].
  destruct l as [|x l]; simpl; [now rewrite firstn_nil | now rewrite IH].
Qed.

Lemma fetch_more_paged all page token start_date end_date :
  1 <= page ->
  forall fuel k n,
    List.length all - n <= fuel ->
    fetch_more (paged_service all page) fuel k token start_date end_date
      (firstn n all) (List.length all)
    = Some (ApiOk all).
Proof.
  intros Hpage. induction fuel as [|fuel IH]; intros k n Hfuel.
  - simpl. rewrite length_firstn.
    destruct (Nat.ltb_spec (Nat.min n (List.length all)) (List.length all)); [lia|].
    now rewrite firstn_all2 by lia.
  - simpl. rewrite length_firstn.
    destruct (Nat.ltb_spec (Nat.min n (List.length all)) (List.length all)) as [Hlt|Hge].
    + cbn [req_offset transactions total_transactions].
      replace (Nat.min n (List.length all)) with n by lia.
      rewrite firstn_next. apply IH. lia.
    + now rewrite firstn_all2 by lia.
Qed.

(** X19.  Against a service that serves a fixed list of transactions in
    pages of any positive size, [get_transactions] asks for page after
    page at the offset of what it holds and returns every transaction
    that is not pending exactly once, in the order of the service. *)
Theorem paged_fetch_is_complete
  all page fuel today tokens name entry start_date end_date days_back :
  PyDict.get tokens name = Some entry ->
  1 <= page ->
  all <> [] ->
  forallb category_set all = true ->
  List.length all <= fuel ->
  get_transactions (paged_service all page) fuel today tokens name
    start_date end_date days_back
  = Some (Done (map row_of (filter posted all))).
Proof.
  intros Hentry Hpage Hall Hcat Hfuel.
  unfold get_transactions. rewrite Hentry. cbv zeta.
  unfold paged_service at 1. cbn [req_offset transactions total_transactions skipn].
  rewrite fetch_more_paged by (assumption || lia).
  rewrite frame_of_fetched, Hcat.
  destruct all; [contradiction | reflexivity].
Qed.

(** X20.  One transaction whose category is [None] is enough for
    [get_transactions] to raise [TypeError], pending or not: the rows
    are built, and the categories joined, before the pending ones are
    filtered out. *)
Theorem null_category_is_type_error
  all page fuel today tokens name entry start_date end_date days_back :
  PyDict.get tokens name = Some entry ->
  1 <= page ->
  forallb category_set all = false ->
  List.length all <= fuel ->
  get_transactions (paged_service all page) fuel today tokens name
    start_date end_date days_back
  = Some (Fails (TypeError "can only join an iterable")).
Proof.
  intros Hentry Hpage Hcat Hfuel.
  unfold get_transactions. rewrite Hentry. cbv zeta.
  unfold paged_service at 1. cbn [req_offset transactions total_transactions skipn].
  rewrite fetch_more_paged by (assumption || lia).
  now rewrite frame_of_fetched, Hcat, (df_data_fails all Hcat).
Qed.

End FetchFacts.

Section AllAccounts.
Import PyStr PyFloat PlaidConnector PlaidNotions.

Lemma plaid_insert_perm r rs : Permutation (insert_desc r rs) (r :: rs).
Proof.
  induction rs as [|y ys IH]; simpl; [apply Permutation_refl|].
  destruct (date (fetched y) <=? date (fetched r))%Z; [apply Permutation_refl|].
  eapply perm_trans; [apply perm_skip, IH | apply perm_swap].
Qed.

Lemma plaid_sort_perm rs : Permutation (sort_values rs) rs.
Proof.
  induction rs as [|r rs IH]; simpl; [apply perm_nil|].
  eapply perm_trans; [apply plaid_insert_perm | now apply perm_skip].
Qed.

Lemma plaid_insert_sorted r rs : newest_first rs -> newest_first (insert_desc r rs).
Proof.
  unfold newest_first. induction rs as [|y ys IH]; intros H; simpl.
  - repeat constructor.
  - destruct (Z.leb_spec (date (fetched y)) (date (fetched r))) as [Hle|Hgt].
    + constructor; [assumption | constructor; assumption].
    + inversion H as [|? ? Hs Hhd]; subst.
      constructor; [now apply IH|].
      destruct ys as [|z zs]; simpl.
      * constructor. lia.
      * destruct (date (fetched z) <=? date (fetched r))%Z; constructor;
          [lia | now inversion Hhd].
Qed.

Lemma plaid_sort_sorted rs : newest_first (sort_values rs).
Proof.
  induction rs as [|r rs IH]; simpl; [constructor | now apply plaid_insert_sorted].
Qed.

Lemma fetch_accounts_ends service fuel today tokens start_date end_date days_back names :
  (forall name, In name names ->
                get_transactions (service name) fuel today tokens name
                  start_date end_date days_back <> None) ->
  exists dfs,
    fetch_accounts service fuel today tokens names start_date end_date days_back
      = Some dfs /\
    List.concat dfs
      = flat_map (contribution service fuel today tokens start_date end_date days_back)
          names /\
    (dfs = [] <->
     forall name, In name names ->
                  exists e, get_transactions (service name) fuel today tokens name
                              start_date end_date days_back = Some (Fails e)).
Proof.
  induction names as [|name names IH]; intros Hend.
  - exists []. split; [reflexivity|]. split; [reflexivity|].
    split; [intros _ name [] | reflexivity].
  - destruct IH as (dfs & Hdfs & Hcat & Hnone).
    { intros n Hn. apply Hend. now right. }
    simpl. unfold contribution at 1.
    destruct (get_transactions (service name) fuel today tokens name
                start_date end_date days_back) as [[df|e]|] eqn:E.
    + rewrite Hdfs. eexists. split; [reflexivity|]. split.
      * simpl. now rewrite Hcat.
      * split; [discriminate|]. intros H.
        destruct (H name (or_introl eq_refl)) as (e & He). congruence.
    + exists dfs. split; [assumption|]. split; [assumption|].
      rewrite Hnone. split.
      * intros H n [<-|Hn]; [now exists e | now apply H].
      * intros H n Hn. apply H. now right.
    + exfalso. apply (Hend name); [now left | assumption].
Qed.

(** X21.  [get_all_transactions] skips the accounts whose fetch raises
    and keeps everything else: when the call for each connected account
    ends, it returns the rows of the accounts whose call returned a
    frame, each row once and under the name of its account, the dates
    not increasing down the frame. *)
Theorem all_accounts_combined service fuel today tokens start_date end_date days_back :
  (forall name, In name (list_connected_accounts tokens) ->
                get_transactions (service name) fuel today tokens name
                  start_date end_date days_back <> None) ->
  exists out,
    get_all_transactions service fuel today tokens start_date end_date days_back
      = Some out /\
    Permutation out
      (flat_map (contribution service fuel today tokens start_date end_date days_back)
         (list_connected_accounts tokens)) /\
    newest_first out /\
    (forall r, In r out ->
               In (account r) (list_connected_accounts tokens) /\
               get_transactions (service (account r)) fuel today tokens (account r)
                 start_date end_date days_back
               = Some (Done
                   (map fetched
                      (contribution service fuel today tokens start_date end_date
                         days_back (account r))))).
Proof.
  intros Hend. unfold list_connected_accounts in *.
  destruct (fetch_accounts_ends service fuel today tokens start_date end_date
              days_back (PyDict.keys tokens) Hend) as (dfs & Hdfs & Hcat & _).
  assert (exists out,
             get_all_transactions service fuel today tokens start_date end_date days_back
               = Some out /\
             Permutation out (List.concat dfs) /\ newest_first out) as (out & Hout & Hperm & Hs).
  { unfold get_all_transactions. rewrite Hdfs. destruct dfs as [|df dfs'].
    - exists []. repeat split; constructor.
    - eexists. split; [reflexivity|].
      split; [apply plaid_sort_perm | apply plaid_sort_sorted]. }
  exists out. rewrite Hcat in Hperm.
  split; [assumption|]. split; [assumption|]. split; [assumption|].
  intros r Hr. apply (Permutation_in _ Hperm) in Hr.
  apply in_flat_map in Hr. destruct Hr as (name & Hname & Hin).
  unfold contribution in Hin.
  destruct (get_transactions (service name) fuel today tokens name
              start_date end_date days_back) as [[df|e]|] eqn:E;
    try contradiction.
  unfold with_account in Hin. apply in_map_iff in Hin.
  destruct Hin as (row & <- & Hrow). cbn [account].
  split; [assumption|].
  unfold contribution. rewrite E. unfold with_account.
  rewrite map_map. cbn [fetched]. now rewrite map_id.
Qed.

End AllAccounts.

(** ** Instances of the further statements *)

Section FurtherWitnesses.
Import PyStr PyFloat Pandas SmartCSVProcessor Statements Examples Notions.

(** The preview of the ledger names the columns [process_csv] builds
    its table from. *)
Lemma preview_agrees_with_process_witness :
  plain_frame ledger = true /\
  exists m,
    preview_mapping ledger = Returns m /\
    date_column m = Some "date" /\
    amount_column m = Some (Single "amount") /\
    description_columns m = ["payee"] /\
    exists out,
      process_csv IsoDates.to_datetime ledger = Returns out /\
      List.length out = 2.
Proof.
  assert (plain_frame ledger = true) as Hp by reflexivity.
  split; [exact Hp|].
  pose proof (preview_agrees_with_process IsoDates.to_datetime ledger Hp) as W.
  cbv zeta in W.
  destruct W as (m & Hm & _ & _ & _ & _ & Hout).
  exists m. split; [exact Hm|].
  injection Hm as <-.
  split; [reflexivity|]. split; [reflexivity|]. split; [reflexivity|].
  destruct (Hout "date" (Single "amount") eq_refl eq_refl) as (out & Hret & Hperm).
  exists out. split; [exact Hret|].
  rewrite (Permutation_length Hperm). reflexivity.
Defined.

(** In [split_statement] the pair is selected; the row whose date reads
    [pending] is left out, the void row stays, and no returned amount is
    NaN. *)
Lemma pair_rows_dropped_for_date_only_witness :
  let out := table_of (process_csv IsoDates.to_datetime split_statement) in
  plain_frame split_statement = true /\
  _find_amount_column (columns split_frame) = Some (Pair "withdrawal" "deposit") /\
  process_csv IsoDates.to_datetime split_statement = Returns out /\
  List.length out = 3 /\
  forall r, In r out -> notna (amount r) = true.
Proof.
  intros out.
  assert (plain_frame split_statement = true) as Hp by reflexivity.
  assert (_find_amount_column (columns split_frame)
          = Some (Pair "withdrawal" "deposit")) as H1 by reflexivity.
  assert (process_csv IsoDates.to_datetime split_statement = Returns out)
    as H2 by reflexivity.
  split; [exact Hp|]. split; [exact H1|]. split; [exact H2|].
  destruct (pair_rows_dropped_for_date_only IsoDates.to_datetime split_statement
              "withdrawal" "deposit" out Hp H1 H2) as (d & dc & _ & _ & H).
  cbv zeta in H. destruct H as (Hperm & _ & Hnum).
  split; [reflexivity | exact Hnum].
Defined.

(** In [untitled] the date column and the shop column hold text. *)
Lemma text_heuristic_witness :
  distinct (columns untitled) = true /\
  plain_cells untitled = true /\
  text_columns untitled = ["date"; "shop"] /\
  _find_description_columns untitled = Returns ["date"; "shop"].
Proof.
  assert (distinct (columns untitled) = true) as Hd by reflexivity.
  assert (plain_cells untitled = true) as Hc by reflexivity.
  assert (no_match (matches description_patterns) (columns untitled)) as Hn.
  { intros y [<-|[<-|[<-|[]]]]; reflexivity. }
  assert (columns untitled <> []) as Hne by discriminate.
  destruct (text_heuristic untitled Hd Hc) as (Ht & _ & Hf).
  split; [exact Hd|]. split; [exact Hc|].
  split; [exact Ht | exact (Hf Hn Hne)].
Defined.

(** In the ledger the row whose amount reads [nan] is left out. *)
Lemma amount_lost_only_on_nan_text_witness :
  let out := table_of (process_csv IsoDates.to_datetime ledger) in
  plain_frame ledger = true /\
  process_csv IsoDates.to_datetime ledger = Returns out /\
  ~ In (canonical_row
          (IsoDates.to_datetime
             (column (set_columns (map normalize (columns ledger)) ledger) "date"))
          ["date"; "amount"; "payee"] (Single "amount") ["payee"] 2
          [CStr "2024-02-02"; CStr "nan"; CStr "BROKEN"]) out.
Proof.
  intros out.
  assert (plain_frame ledger = true) as Hp by reflexivity.
  assert (process_csv IsoDates.to_datetime ledger = Returns out) as H by reflexivity.
  split; [exact Hp|]. split; [exact H|].
  destruct (proj2 (amount_lost_only_on_nan_text IsoDates.to_datetime)
              ledger out "amount" Hp eq_refl H) as (d & dc & Hd & Hdc & Hrows).
  injection Hd as <-. injection Hdc as <-.
  intros Hin.
  apply (Hrows 2 [CStr "2024-02-02"; CStr "nan"; CStr "BROKEN"] eq_refl) in Hin.
  destruct Hin as [_ Hs]. specialize (Hs "nan" eq_refl). discriminate Hs.
Defined.

(** The text [(-5)] cleans to 0. *)
Lemma signed_parenthesized_is_zero_witness :
  remove ")" (remove "(" (unsigned_text "(-5)")) = "-5" /\
  _clean_amount (CStr "(-5)") = zero.
Proof.
  split; [reflexivity|].
  apply (signed_parenthesized_is_zero "(-5)" "-"%char "5");
    [reflexivity | reflexivity | reflexivity | left; reflexivity].
Defined.

End FurtherWitnesses.

Section CategorizerWitnesses.
Import PyStr PyFloat TransactionCategorizer CategorizerNotions.

(** A reply of a space and a line feed. *)
Lemma blank_reply_is_groceries_witness :
  strip (String " " (String (ascii_of_nat 10) EmptyString)) = EmptyString /\
  categorize_transaction silent (VStr "ATM") (VNum zero) = "Groceries".
Proof.
  split; [reflexivity|].
  apply (blank_reply_is_groceries silent (VStr "ATM") zero
           (String " " (String (ascii_of_nat 10) EmptyString)));
    reflexivity.
Defined.

(** The reply [ groceries ] to the first call. *)
Lemma category_match_ignores_case_witness :
  lower (strip " groceries ") = lower "Groceries" /\
  categorize_transaction (echo 0) (VStr "WHOLE FOODS") (VNum zero) = "Groceries".
Proof.
  split; [reflexivity|].
  apply (category_match_ignores_case (echo 0) (VStr "WHOLE FOODS") zero
           " groceries " "Groceries");
    [reflexivity | left; reflexivity | reflexivity].
Defined.

End CategorizerWitnesses.

Section PlaidWitnesses.
Import PyStr PyFloat PlaidConnector PlaidNotions.

Lemma two_banks_NoDup : NoDup (PyDict.keys two_banks).
Proof.
  apply NoDup_cons.
  - intros [H|[]]. discriminate H.
  - apply NoDup_cons; [intros [] | apply NoDup_nil].
Defined.

(** Removing [Chase] from the two accounts. *)
Lemma remove_account_forgets_witness :
  NoDup (PyDict.keys two_banks) /\
  ~ In "Chase" (list_connected_accounts (snd (remove_account two_banks "Chase"))) /\
  fst (remove_account (snd (remove_account two_banks "Chase")) "Chase") = false.
Proof.
  split; [exact two_banks_NoDup|].
  pose proof (remove_account_forgets (stalled_service 3) two_banks "Chase"
                two_banks_NoDup) as H.
  cbv zeta in H.
  split; [exact (proj1 (proj2 H)) | exact (proj1 (proj2 (proj2 (proj2 (proj2 (proj2 H))))))].
Defined.

(** Connecting a third account. *)
Lemma exchange_stores_token_witness :
  NoDup (PyDict.keys two_banks) /\
  list_connected_accounts
    (snd (exchange_public_token granting two_banks "public-1" "Citi"))
  = ["Chase"; "Ally"; "Citi"].
Proof.
  split; [exact two_banks_NoDup|].
  pose proof (exchange_stores_token granting two_banks "public-1" "Citi"
                two_banks_NoDup) as H.
  exact (proj1 (proj2 (proj2 H))).
Defined.


(** A service that reports no transaction. *)
Lemma no_transactions_is_key_error_witness :
  PyDict.get two_banks "Chase" = Some chase_entry /\
  get_transactions (stalled_service 0) 0 19730%Z two_banks "Chase" None None 30%Z
  = Some (Fails (KeyError "pending")).
Proof.
  split; [reflexivity|].
  apply (no_transactions_is_key_error (stalled_service 0) 0 19730%Z two_banks
           "Chase" chase_entry None None 30%Z);
    [reflexivity | intros request; reflexivity].
Defined.

(** A service that reports three transactions and serves none. *)
Lemma empty_pages_never_end_witness :
  (forall k request,
      exists total,
        0 < total /\
        stalled_service 3 k request
        = ApiOk {| transactions := []; total_transactions := total |}) /\
  get_transactions (stalled_service 3) 1000 19730%Z two_banks "Chase" None None 30%Z
  = None.
Proof.
  assert (forall k request,
             exists total,
               0 < total /\
               stalled_service 3 k request
               = ApiOk {| transactions := []; total_transactions := total |}) as H.
  { intros k request. exists 3. split; [apply Nat.lt_0_succ | reflexivity]. }
  split; [exact H|].
  apply (empty_pages_never_end (stalled_service 3) 19730%Z two_banks "Chase"
           chase_entry None None 30%Z eq_refl H).
Defined.

(** Three transactions served one at a time. *)
Lemma paged_fetch_is_complete_witness :
  forallb category_set [coffee; payroll; hold] = true /\
  get_transactions (paged_service [coffee; payroll; hold] 1) 3 19730%Z two_banks
    "Chase" None None 30%Z
  = Some (Done [row_of coffee; row_of payroll]).
Proof.
  split; [reflexivity|].
  apply (paged_fetch_is_complete [coffee; payroll; hold] 1 3 19730%Z two_banks
           "Chase" chase_entry None None 30%Z);
    [reflexivity | apply Nat.le_refl | discriminate | reflexivity | apply Nat.le_refl].
Defined.

(** A pending transaction without category after a posted one. *)
Lemma null_category_is_type_error_witness :
  forallb category_set [coffee; uncategorized] = false /\
  get_transactions (paged_service [coffee; uncategorized] 1) 2 19730%Z two_banks
    "Chase" None None 30%Z
  = Some (Fails (TypeError "can only join an iterable")).
Proof.
  split; [reflexivity|].
  apply (null_category_is_type_error [coffee; uncategorized] 1 2 19730%Z two_banks
           "Chase" chase_entry None None 30%Z);
    [reflexivity | apply Nat.le_refl | reflexivity | apply Nat.le_refl].
Defined.

(** [Chase] gives two posted rows; [Ally] has no transaction, its fetch
    raises and it is skipped. *)
Lemma all_accounts_combined_witness :
  (forall name, In name (list_connected_accounts two_banks) ->
                get_transactions (chase_only name) 5 19730%Z two_banks name
                  None None 30%Z <> None) /\
  get_transactions (chase_only "Ally") 5 19730%Z two_banks "Ally" None None 30%Z
    = Some (Fails (KeyError "pending")) /\
  exists out,
    get_all_transactions chase_only 5 19730%Z two_banks None None 30%Z = Some out /\
    Permutation out
      [{| fetched := row_of coffee; account := "Chase" |};
       {| fetched := row_of payroll; account := "Chase" |}].
Proof.
  assert (forall name, In name (list_connected_accounts two_banks) ->
                       get_transactions (chase_only name) 5 19730%Z two_banks name
                         None None 30%Z <> None) as H.
  { intros name [<-|[<-|[]]]; discriminate. }
  split; [exact H|]. split; [reflexivity|].
  destruct (all_accounts_combined chase_only 5 19730%Z two_banks None None 30%Z H)
    as (out & Hout & Hperm & _).
  exists out. split; [exact Hout | exact Hperm].
Defined.

End PlaidWitnesses.
